(** * Prior-authorization question answering: the actor/critic pipeline

    A shallow embedding of [app/llm_service.py] and [app/evaluation.py]:
    the visibility-condition evaluator, the age computation, the
    actor / critic / refiner pipeline with its batch driver, and the
    evaluation harness.

    Conventions of the embedding.
    - A Python [str] is a [string]: the UTF-8 bytes of the text.  White
      space, decimal digits and case mapping are those of Unicode, read
      off the decoded code points.
    - A Python [float] is a [pyfloat]: not-a-number, an infinity, or the
      exact rational value of a finite double.  A float literal of the
      source is the rational value of the double it denotes.
    - JSON decoded from the completion backend is a [pyval].
    - Calls that can raise return in the monad [M], which threads the state
      of the outside world (completion backend, clock) and carries the
      exception raised. *)

From Stdlib Require Import ZArith QArith Qabs Bool List Lia Ascii String.
From Stdlib Require Import DecimalString Lqa.
Import ListNotations.

Set Warnings "-register-all".

Open Scope string_scope.
Open Scope Z_scope.

(** ** UTF-8

    A Python [str] is modelled by the bytes of its UTF-8 encoding.  The
    operations that work character by character decode them. *)

Module Utf8.

Definition byte (c : ascii) : Z := Z.of_N (N_of_ascii c).

Definition char (z : Z) : ascii := ascii_of_N (Z.to_N z).

(** A continuation byte, [10xxxxxx]. *)
Definition cont (c : ascii) : bool := (0x80 <=? byte c) && (byte c <? 0xC0).

(** The code point of a well-formed sequence of two, three or four bytes:
    the lead byte announces the length, continuation bytes follow, and the
    code point is one that needs this many bytes. *)
Definition point2 (a b : ascii) : option Z :=
  let p := (byte a - 0xC0) * 64 + (byte b - 0x80) in
  if (0xC0 <=? byte a) && (byte a <? 0xE0) && cont b && (0x80 <=? p)
  then Some p else None.

Definition point3 (a b c : ascii) : option Z :=
  let p := ((byte a - 0xE0) * 64 + (byte b - 0x80)) * 64 + (byte c - 0x80) in
  if (0xE0 <=? byte a) && (byte a <? 0xF0) && cont b && cont c
     && (0x800 <=? p)
  then Some p else None.

Definition point4 (a b c d : ascii) : option Z :=
  let p := (((byte a - 0xF0) * 64 + (byte b - 0x80)) * 64 + (byte c - 0x80))
           * 64 + (byte d - 0x80) in
  if (0xF0 <=? byte a) && (byte a <? 0xF8) && cont b && cont c && cont d
     && (0x10000 <=? p) && (p <=? 0x10FFFF)
  then Some p else None.

(** A byte on its own: an ASCII character, or a byte outside every
    well-formed sequence.  No encoded [str] contains the latter; it is
    given the negated byte for a code point, which is no character. *)
Definition single (a : ascii) : Z :=
  if byte a <? 0x80 then byte a else - byte a.

(** The code points of a text. *)
Fixpoint decode (s : string) : list Z :=
  match s with
  | EmptyString => []
  | String a s1 =>
      match s1 with
      | String b s2 =>
          match point2 a b with
          | Some p => p :: decode s2
          | None =>
              match s2 with
              | String c s3 =>
                  match point3 a b c with
                  | Some p => p :: decode s3
                  | None =>
                      match s3 with
                      | String d s4 =>
                          match point4 a b c d with
                          | Some p => p :: decode s4
                          | None => single a :: decode s1
                          end
                      | EmptyString => single a :: decode s1
                      end
                  end
              | EmptyString => single a :: decode s1
              end
          end
      | EmptyString => [single a]
      end
  end.

Definition encode_point (p : Z) : string :=
  if p <? 0 then String (char (- p)) EmptyString
  else if p <? 0x80 then String (char p) EmptyString
  else if p <? 0x800 then
    String (char (0xC0 + p / 64))
      (String (char (0x80 + p mod 64)) EmptyString)
  else if p <? 0x10000 then
    String (char (0xE0 + p / 4096))
      (String (char (0x80 + (p / 64) mod 64))
         (String (char (0x80 + p mod 64)) EmptyString))
  else
    String (char (0xF0 + p / 262144))
      (String (char (0x80 + (p / 4096) mod 64))
         (String (char (0x80 + (p / 64) mod 64))
            (String (char (0x80 + p mod 64)) EmptyString))).

(** The text of a list of code points. *)
Fixpoint encode (l : list Z) : string :=
  match l with
  | [] => EmptyString
  | p :: l' => encode_point p ++ encode l'
  end.

End Utf8.

(** ** Unicode

    The character properties that the string methods of the program
    consult, for the code points of Unicode 14.0 (the character database of
    CPython 3.11). *)

Module Unicode.

Definition in_ranges (ranges : list (Z * Z)) (p : Z) : bool :=
  existsb (fun '(lo, hi) => (lo <=? p) && (p <=? hi)) ranges.

(** White space: the characters for which [str.isspace] holds, which
    [str.strip] and [str.split] remove and the [\s] of a pattern matches. *)
Definition white_space : list (Z * Z) :=
  [ (0x9, 0xD); (0x1C, 0x20); (0x85, 0x85); (0xA0, 0xA0);
    (0x1680, 0x1680); (0x2000, 0x200A); (0x2028, 0x2029); (0x202F, 0x202F);
    (0x205F, 0x205F); (0x3000, 0x3000) ].

Definition is_space (p : Z) : bool := in_ranges white_space p.

(** The zeros of the decimal digits: each is followed by the digits one to
    nine of its script. *)
Definition decimal_zeros : list Z :=
  [ 0x30; 0x660; 0x6F0; 0x7C0; 0x966; 0x9E6; 0xA66; 0xAE6;
    0xB66; 0xBE6; 0xC66; 0xCE6; 0xD66; 0xDE6; 0xE50; 0xED0;
    0xF20; 0x1040; 0x1090; 0x17E0; 0x1810; 0x1946; 0x19D0; 0x1A80;
    0x1A90; 0x1B50; 0x1BB0; 0x1C40; 0x1C50; 0xA620; 0xA8D0; 0xA900;
    0xA9D0; 0xA9F0; 0xAA50; 0xABF0; 0xFF10; 0x104A0; 0x10D30; 0x11066;
    0x110F0; 0x11136; 0x111D0; 0x112F0; 0x11450; 0x114D0; 0x11650; 0x116C0;
    0x11730; 0x118E0; 0x11950; 0x11C50; 0x11D50; 0x11DA0; 0x16A60; 0x16AC0;
    0x16B50; 0x1D7CE; 0x1D7D8; 0x1D7E2; 0x1D7EC; 0x1D7F6; 0x1E140; 0x1E2F0;
    0x1E950; 0x1FBF0 ].

(** The value of a decimal digit ([\d] in a pattern, a digit for [int] and
    [float]). *)
Definition decimal (p : Z) : option Z :=
  match find (fun zero => (zero <=? p) && (p <=? zero + 9)) decimal_zeros with
  | Some zero => Some (p - zero)
  | None => None
  end.

(** Lower-case mappings of one character to one character: in the range
    from [lo] to [hi], every [step]-th code point maps to itself plus
    [delta]. *)
Definition lower_runs : list (Z * Z * Z * Z) :=
  [ (0x41, 0x5A, 1, 32); (0xC0, 0xD6, 1, 32); (0xD8, 0xDE, 1, 32);
    (0x100, 0x12E, 2, 1); (0x132, 0x136, 2, 1); (0x139, 0x147, 2, 1);
    (0x14A, 0x176, 2, 1); (0x178, 0x178, 1, (-121)); (0x179, 0x17D, 2, 1);
    (0x181, 0x181, 1, 210); (0x182, 0x184, 2, 1); (0x186, 0x186, 1, 206);
    (0x187, 0x187, 1, 1); (0x189, 0x18A, 1, 205); (0x18B, 0x18B, 1, 1);
    (0x18E, 0x18E, 1, 79); (0x18F, 0x18F, 1, 202); (0x190, 0x190, 1, 203);
    (0x191, 0x191, 1, 1); (0x193, 0x193, 1, 205); (0x194, 0x194, 1, 207);
    (0x196, 0x196, 1, 211); (0x197, 0x197, 1, 209); (0x198, 0x198, 1, 1);
    (0x19C, 0x19C, 1, 211); (0x19D, 0x19D, 1, 213); (0x19F, 0x19F, 1, 214);
    (0x1A0, 0x1A4, 2, 1); (0x1A6, 0x1A6, 1, 218); (0x1A7, 0x1A7, 1, 1);
    (0x1A9, 0x1A9, 1, 218); (0x1AC, 0x1AC, 1, 1); (0x1AE, 0x1AE, 1, 218);
    (0x1AF, 0x1AF, 1, 1); (0x1B1, 0x1B2, 1, 217); (0x1B3, 0x1B5, 2, 1);
    (0x1B7, 0x1B7, 1, 219); (0x1B8, 0x1B8, 1, 1); (0x1BC, 0x1BC, 1, 1);
    (0x1C4, 0x1C4, 1, 2); (0x1C5, 0x1C5, 1, 1); (0x1C7, 0x1C7, 1, 2);
    (0x1C8, 0x1C8, 1, 1); (0x1CA, 0x1CA, 1, 2); (0x1CB, 0x1DB, 2, 1);
    (0x1DE, 0x1EE, 2, 1); (0x1F1, 0x1F1, 1, 2); (0x1F2, 0x1F4, 2, 1);
    (0x1F6, 0x1F6, 1, (-97)); (0x1F7, 0x1F7, 1, (-56)); (0x1F8, 0x21E, 2, 1);
    (0x220, 0x220, 1, (-130)); (0x222, 0x232, 2, 1); (0x23A, 0x23A, 1, 10795);
    (0x23B, 0x23B, 1, 1); (0x23D, 0x23D, 1, (-163)); (0x23E, 0x23E, 1, 10792);
    (0x241, 0x241, 1, 1); (0x243, 0x243, 1, (-195)); (0x244, 0x244, 1, 69);
    (0x245, 0x245, 1, 71); (0x246, 0x24E, 2, 1); (0x370, 0x372, 2, 1);
    (0x376, 0x376, 1, 1); (0x37F, 0x37F, 1, 116); (0x386, 0x386, 1, 38);
    (0x388, 0x38A, 1, 37); (0x38C, 0x38C, 1, 64); (0x38E, 0x38F, 1, 63);
    (0x391, 0x3A1, 1, 32); (0x3A3, 0x3AB, 1, 32); (0x3CF, 0x3CF, 1, 8);
    (0x3D8, 0x3EE, 2, 1); (0x3F4, 0x3F4, 1, (-60)); (0x3F7, 0x3F7, 1, 1);
    (0x3F9, 0x3F9, 1, (-7)); (0x3FA, 0x3FA, 1, 1); (0x3FD, 0x3FF, 1, (-130));
    (0x400, 0x40F, 1, 80); (0x410, 0x42F, 1, 32); (0x460, 0x480, 2, 1);
    (0x48A, 0x4BE, 2, 1); (0x4C0, 0x4C0, 1, 15); (0x4C1, 0x4CD, 2, 1);
    (0x4D0, 0x52E, 2, 1); (0x531, 0x556, 1, 48); (0x10A0, 0x10C5, 1, 7264);
    (0x10C7, 0x10C7, 1, 7264); (0x10CD, 0x10CD, 1, 7264); (0x13A0, 0x13EF, 1, 38864);
    (0x13F0, 0x13F5, 1, 8); (0x1C90, 0x1CBA, 1, (-3008)); (0x1CBD, 0x1CBF, 1, (-3008));
    (0x1E00, 0x1E94, 2, 1); (0x1E9E, 0x1E9E, 1, (-7615)); (0x1EA0, 0x1EFE, 2, 1);
    (0x1F08, 0x1F0F, 1, (-8)); (0x1F18, 0x1F1D, 1, (-8)); (0x1F28, 0x1F2F, 1, (-8));
    (0x1F38, 0x1F3F, 1, (-8)); (0x1F48, 0x1F4D, 1, (-8)); (0x1F59, 0x1F5F, 2, (-8));
    (0x1F68, 0x1F6F, 1, (-8)); (0x1F88, 0x1F8F, 1, (-8)); (0x1F98, 0x1F9F, 1, (-8));
    (0x1FA8, 0x1FAF, 1, (-8)); (0x1FB8, 0x1FB9, 1, (-8)); (0x1FBA, 0x1FBB, 1, (-74));
    (0x1FBC, 0x1FBC, 1, (-9)); (0x1FC8, 0x1FCB, 1, (-86)); (0x1FCC, 0x1FCC, 1, (-9));
    (0x1FD8, 0x1FD9, 1, (-8)); (0x1FDA, 0x1FDB, 1, (-100)); (0x1FE8, 0x1FE9, 1, (-8));
    (0x1FEA, 0x1FEB, 1, (-112)); (0x1FEC, 0x1FEC, 1, (-7)); (0x1FF8, 0x1FF9, 1, (-128));
    (0x1FFA, 0x1FFB, 1, (-126)); (0x1FFC, 0x1FFC, 1, (-9)); (0x2126, 0x2126, 1, (-7517));
    (0x212A, 0x212A, 1, (-8383)); (0x212B, 0x212B, 1, (-8262)); (0x2132, 0x2132, 1, 28);
    (0x2160, 0x216F, 1, 16); (0x2183, 0x2183, 1, 1); (0x24B6, 0x24CF, 1, 26);
    (0x2C00, 0x2C2F, 1, 48); (0x2C60, 0x2C60, 1, 1); (0x2C62, 0x2C62, 1, (-10743));
    (0x2C63, 0x2C63, 1, (-3814)); (0x2C64, 0x2C64, 1, (-10727)); (0x2C67, 0x2C6B, 2, 1);
    (0x2C6D, 0x2C6D, 1, (-10780)); (0x2C6E, 0x2C6E, 1, (-10749)); (0x2C6F, 0x2C6F, 1, (-10783));
    (0x2C70, 0x2C70, 1, (-10782)); (0x2C72, 0x2C72, 1, 1); (0x2C75, 0x2C75, 1, 1);
    (0x2C7E, 0x2C7F, 1, (-10815)); (0x2C80, 0x2CE2, 2, 1); (0x2CEB, 0x2CED, 2, 1);
    (0x2CF2, 0x2CF2, 1, 1); (0xA640, 0xA66C, 2, 1); (0xA680, 0xA69A, 2, 1);
    (0xA722, 0xA72E, 2, 1); (0xA732, 0xA76E, 2, 1); (0xA779, 0xA77B, 2, 1);
    (0xA77D, 0xA77D, 1, (-35332)); (0xA77E, 0xA786, 2, 1); (0xA78B, 0xA78B, 1, 1);
    (0xA78D, 0xA78D, 1, (-42280)); (0xA790, 0xA792, 2, 1); (0xA796, 0xA7A8, 2, 1);
    (0xA7AA, 0xA7AA, 1, (-42308)); (0xA7AB, 0xA7AB, 1, (-42319)); (0xA7AC, 0xA7AC, 1, (-42315));
    (0xA7AD, 0xA7AD, 1, (-42305)); (0xA7AE, 0xA7AE, 1, (-42308)); (0xA7B0, 0xA7B0, 1, (-42258));
    (0xA7B1, 0xA7B1, 1, (-42282)); (0xA7B2, 0xA7B2, 1, (-42261)); (0xA7B3, 0xA7B3, 1, 928);
    (0xA7B4, 0xA7C2, 2, 1); (0xA7C4, 0xA7C4, 1, (-48)); (0xA7C5, 0xA7C5, 1, (-42307));
    (0xA7C6, 0xA7C6, 1, (-35384)); (0xA7C7, 0xA7C9, 2, 1); (0xA7D0, 0xA7D0, 1, 1);
    (0xA7D6, 0xA7D8, 2, 1); (0xA7F5, 0xA7F5, 1, 1); (0xFF21, 0xFF3A, 1, 32);
    (0x10400, 0x10427, 1, 40); (0x104B0, 0x104D3, 1, 40); (0x10570, 0x1057A, 1, 39);
    (0x1057C, 0x1058A, 1, 39); (0x1058C, 0x10592, 1, 39); (0x10594, 0x10595, 1, 39);
    (0x10C80, 0x10CB2, 1, 64); (0x118A0, 0x118BF, 1, 32); (0x16E40, 0x16E5F, 1, 32);
    (0x1E900, 0x1E921, 1, 34) ].

Definition to_lower (p : Z) : Z :=
  match find (fun '(lo, hi, step, _) =>
                (lo <=? p) && (p <=? hi) && ((p - lo) mod step =? 0))
             lower_runs with
  | Some (_, _, _, delta) => p + delta
  | None => p
  end.

(** Case-ignorable characters: the scan for the context of a capital
    sigma passes over them. *)
Definition case_ignorable : list (Z * Z) :=
  [ (0x27, 0x27); (0x2E, 0x2E); (0x3A, 0x3A); (0x5E, 0x5E);
    (0x60, 0x60); (0xA8, 0xA8); (0xAD, 0xAD); (0xAF, 0xAF);
    (0xB4, 0xB4); (0xB7, 0xB8); (0x2B0, 0x36F); (0x374, 0x375);
    (0x37A, 0x37A); (0x384, 0x385); (0x387, 0x387); (0x483, 0x489);
    (0x559, 0x559); (0x55F, 0x55F); (0x591, 0x5BD); (0x5BF, 0x5BF);
    (0x5C1, 0x5C2); (0x5C4, 0x5C5); (0x5C7, 0x5C7); (0x5F4, 0x5F4);
    (0x600, 0x605); (0x610, 0x61A); (0x61C, 0x61C); (0x640, 0x640);
    (0x64B, 0x65F); (0x670, 0x670); (0x6D6, 0x6DD); (0x6DF, 0x6E8);
    (0x6EA, 0x6ED); (0x70F, 0x70F); (0x711, 0x711); (0x730, 0x74A);
    (0x7A6, 0x7B0); (0x7EB, 0x7F5); (0x7FA, 0x7FA); (0x7FD, 0x7FD);
    (0x816, 0x82D); (0x859, 0x85B); (0x888, 0x888); (0x890, 0x891);
    (0x898, 0x89F); (0x8C9, 0x902); (0x93A, 0x93A); (0x93C, 0x93C);
    (0x941, 0x948); (0x94D, 0x94D); (0x951, 0x957); (0x962, 0x963);
    (0x971, 0x971); (0x981, 0x981); (0x9BC, 0x9BC); (0x9C1, 0x9C4);
    (0x9CD, 0x9CD); (0x9E2, 0x9E3); (0x9FE, 0x9FE); (0xA01, 0xA02);
    (0xA3C, 0xA3C); (0xA41, 0xA42); (0xA47, 0xA48); (0xA4B, 0xA4D);
    (0xA51, 0xA51); (0xA70, 0xA71); (0xA75, 0xA75); (0xA81, 0xA82);
    (0xABC, 0xABC); (0xAC1, 0xAC5); (0xAC7, 0xAC8); (0xACD, 0xACD);
    (0xAE2, 0xAE3); (0xAFA, 0xAFF); (0xB01, 0xB01); (0xB3C, 0xB3C);
    (0xB3F, 0xB3F); (0xB41, 0xB44); (0xB4D, 0xB4D); (0xB55, 0xB56);
    (0xB62, 0xB63); (0xB82, 0xB82); (0xBC0, 0xBC0); (0xBCD, 0xBCD);
    (0xC00, 0xC00); (0xC04, 0xC04); (0xC3C, 0xC3C); (0xC3E, 0xC40);
    (0xC46, 0xC48); (0xC4A, 0xC4D); (0xC55, 0xC56); (0xC62, 0xC63);
    (0xC81, 0xC81); (0xCBC, 0xCBC); (0xCBF, 0xCBF); (0xCC6, 0xCC6);
    (0xCCC, 0xCCD); (0xCE2, 0xCE3); (0xD00, 0xD01); (0xD3B, 0xD3C);
    (0xD41, 0xD44); (0xD4D, 0xD4D); (0xD62, 0xD63); (0xD81, 0xD81);
    (0xDCA, 0xDCA); (0xDD2, 0xDD4); (0xDD6, 0xDD6); (0xE31, 0xE31);
    (0xE34, 0xE3A); (0xE46, 0xE4E); (0xEB1, 0xEB1); (0xEB4, 0xEBC);
    (0xEC6, 0xEC6); (0xEC8, 0xECD); (0xF18, 0xF19); (0xF35, 0xF35);
    (0xF37, 0xF37); (0xF39, 0xF39); (0xF71, 0xF7E); (0xF80, 0xF84);
    (0xF86, 0xF87); (0xF8D, 0xF97); (0xF99, 0xFBC); (0xFC6, 0xFC6);
    (0x102D, 0x1030); (0x1032, 0x1037); (0x1039, 0x103A); (0x103D, 0x103E);
    (0x1058, 0x1059); (0x105E, 0x1060); (0x1071, 0x1074); (0x1082, 0x1082);
    (0x1085, 0x1086); (0x108D, 0x108D); (0x109D, 0x109D); (0x10FC, 0x10FC);
    (0x135D, 0x135F); (0x1712, 0x1714); (0x1732, 0x1733); (0x1752, 0x1753);
    (0x1772, 0x1773); (0x17B4, 0x17B5); (0x17B7, 0x17BD); (0x17C6, 0x17C6);
    (0x17C9, 0x17D3); (0x17D7, 0x17D7); (0x17DD, 0x17DD); (0x180B, 0x180F);
    (0x1843, 0x1843); (0x1885, 0x1886); (0x18A9, 0x18A9); (0x1920, 0x1922);
    (0x1927, 0x1928); (0x1932, 0x1932); (0x1939, 0x193B); (0x1A17, 0x1A18);
    (0x1A1B, 0x1A1B); (0x1A56, 0x1A56); (0x1A58, 0x1A5E); (0x1A60, 0x1A60);
    (0x1A62, 0x1A62); (0x1A65, 0x1A6C); (0x1A73, 0x1A7C); (0x1A7F, 0x1A7F);
    (0x1AA7, 0x1AA7); (0x1AB0, 0x1ACE); (0x1B00, 0x1B03); (0x1B34, 0x1B34);
    (0x1B36, 0x1B3A); (0x1B3C, 0x1B3C); (0x1B42, 0x1B42); (0x1B6B, 0x1B73);
    (0x1B80, 0x1B81); (0x1BA2, 0x1BA5); (0x1BA8, 0x1BA9); (0x1BAB, 0x1BAD);
    (0x1BE6, 0x1BE6); (0x1BE8, 0x1BE9); (0x1BED, 0x1BED); (0x1BEF, 0x1BF1);
    (0x1C2C, 0x1C33); (0x1C36, 0x1C37); (0x1C78, 0x1C7D); (0x1CD0, 0x1CD2);
    (0x1CD4, 0x1CE0); (0x1CE2, 0x1CE8); (0x1CED, 0x1CED); (0x1CF4, 0x1CF4);
    (0x1CF8, 0x1CF9); (0x1D2C, 0x1D6A); (0x1D78, 0x1D78); (0x1D9B, 0x1DFF);
    (0x1FBD, 0x1FBD); (0x1FBF, 0x1FC1); (0x1FCD, 0x1FCF); (0x1FDD, 0x1FDF);
    (0x1FED, 0x1FEF); (0x1FFD, 0x1FFE); (0x200B, 0x200F); (0x2018, 0x2019);
    (0x2024, 0x2024); (0x2027, 0x2027); (0x202A, 0x202E); (0x2060, 0x2064);
    (0x2066, 0x206F); (0x2071, 0x2071); (0x207F, 0x207F); (0x2090, 0x209C);
    (0x20D0, 0x20F0); (0x2C7C, 0x2C7D); (0x2CEF, 0x2CF1); (0x2D6F, 0x2D6F);
    (0x2D7F, 0x2D7F); (0x2DE0, 0x2DFF); (0x2E2F, 0x2E2F); (0x3005, 0x3005);
    (0x302A, 0x302D); (0x3031, 0x3035); (0x303B, 0x303B); (0x3099, 0x309E);
    (0x30FC, 0x30FE); (0xA015, 0xA015); (0xA4F8, 0xA4FD); (0xA60C, 0xA60C);
    (0xA66F, 0xA672); (0xA674, 0xA67D); (0xA67F, 0xA67F); (0xA69C, 0xA69F);
    (0xA6F0, 0xA6F1); (0xA700, 0xA721); (0xA770, 0xA770); (0xA788, 0xA78A);
    (0xA7F2, 0xA7F4); (0xA7F8, 0xA7F9); (0xA802, 0xA802); (0xA806, 0xA806);
    (0xA80B, 0xA80B); (0xA825, 0xA826); (0xA82C, 0xA82C); (0xA8C4, 0xA8C5);
    (0xA8E0, 0xA8F1); (0xA8FF, 0xA8FF); (0xA926, 0xA92D); (0xA947, 0xA951);
    (0xA980, 0xA982); (0xA9B3, 0xA9B3); (0xA9B6, 0xA9B9); (0xA9BC, 0xA9BD);
    (0xA9CF, 0xA9CF); (0xA9E5, 0xA9E6); (0xAA29, 0xAA2E); (0xAA31, 0xAA32);
    (0xAA35, 0xAA36); (0xAA43, 0xAA43); (0xAA4C, 0xAA4C); (0xAA70, 0xAA70);
    (0xAA7C, 0xAA7C); (0xAAB0, 0xAAB0); (0xAAB2, 0xAAB4); (0xAAB7, 0xAAB8);
    (0xAABE, 0xAABF); (0xAAC1, 0xAAC1); (0xAADD, 0xAADD); (0xAAEC, 0xAAED);
    (0xAAF3, 0xAAF4); (0xAAF6, 0xAAF6); (0xAB5B, 0xAB5F); (0xAB69, 0xAB6B);
    (0xABE5, 0xABE5); (0xABE8, 0xABE8); (0xABED, 0xABED); (0xFB1E, 0xFB1E);
    (0xFBB2, 0xFBC2); (0xFE00, 0xFE0F); (0xFE13, 0xFE13); (0xFE20, 0xFE2F);
    (0xFE52, 0xFE52); (0xFE55, 0xFE55); (0xFEFF, 0xFEFF); (0xFF07, 0xFF07);
    (0xFF0E, 0xFF0E); (0xFF1A, 0xFF1A); (0xFF3E, 0xFF3E); (0xFF40, 0xFF40);
    (0xFF70, 0xFF70); (0xFF9E, 0xFF9F); (0xFFE3, 0xFFE3); (0xFFF9, 0xFFFB);
    (0x101FD, 0x101FD); (0x102E0, 0x102E0); (0x10376, 0x1037A); (0x10780, 0x10785);
    (0x10787, 0x107B0); (0x107B2, 0x107BA); (0x10A01, 0x10A03); (0x10A05, 0x10A06);
    (0x10A0C, 0x10A0F); (0x10A38, 0x10A3A); (0x10A3F, 0x10A3F); (0x10AE5, 0x10AE6);
    (0x10D24, 0x10D27); (0x10EAB, 0x10EAC); (0x10F46, 0x10F50); (0x10F82, 0x10F85);
    (0x11001, 0x11001); (0x11038, 0x11046); (0x11070, 0x11070); (0x11073, 0x11074);
    (0x1107F, 0x11081); (0x110B3, 0x110B6); (0x110B9, 0x110BA); (0x110BD, 0x110BD);
    (0x110C2, 0x110C2); (0x110CD, 0x110CD); (0x11100, 0x11102); (0x11127, 0x1112B);
    (0x1112D, 0x11134); (0x11173, 0x11173); (0x11180, 0x11181); (0x111B6, 0x111BE);
    (0x111C9, 0x111CC); (0x111CF, 0x111CF); (0x1122F, 0x11231); (0x11234, 0x11234);
    (0x11236, 0x11237); (0x1123E, 0x1123E); (0x112DF, 0x112DF); (0x112E3, 0x112EA);
    (0x11300, 0x11301); (0x1133B, 0x1133C); (0x11340, 0x11340); (0x11366, 0x1136C);
    (0x11370, 0x11374); (0x11438, 0x1143F); (0x11442, 0x11444); (0x11446, 0x11446);
    (0x1145E, 0x1145E); (0x114B3, 0x114B8); (0x114BA, 0x114BA); (0x114BF, 0x114C0);
    (0x114C2, 0x114C3); (0x115B2, 0x115B5); (0x115BC, 0x115BD); (0x115BF, 0x115C0);
    (0x115DC, 0x115DD); (0x11633, 0x1163A); (0x1163D, 0x1163D); (0x1163F, 0x11640);
    (0x116AB, 0x116AB); (0x116AD, 0x116AD); (0x116B0, 0x116B5); (0x116B7, 0x116B7);
    (0x1171D, 0x1171F); (0x11722, 0x11725); (0x11727, 0x1172B); (0x1182F, 0x11837);
    (0x11839, 0x1183A); (0x1193B, 0x1193C); (0x1193E, 0x1193E); (0x11943, 0x11943);
    (0x119D4, 0x119D7); (0x119DA, 0x119DB); (0x119E0, 0x119E0); (0x11A01, 0x11A0A);
    (0x11A33, 0x11A38); (0x11A3B, 0x11A3E); (0x11A47, 0x11A47); (0x11A51, 0x11A56);
    (0x11A59, 0x11A5B); (0x11A8A, 0x11A96); (0x11A98, 0x11A99); (0x11C30, 0x11C36);
    (0x11C38, 0x11C3D); (0x11C3F, 0x11C3F); (0x11C92, 0x11CA7); (0x11CAA, 0x11CB0);
    (0x11CB2, 0x11CB3); (0x11CB5, 0x11CB6); (0x11D31, 0x11D36); (0x11D3A, 0x11D3A);
    (0x11D3C, 0x11D3D); (0x11D3F, 0x11D45); (0x11D47, 0x11D47); (0x11D90, 0x11D91);
    (0x11D95, 0x11D95); (0x11D97, 0x11D97); (0x11EF3, 0x11EF4); (0x13430, 0x13438);
    (0x16AF0, 0x16AF4); (0x16B30, 0x16B36); (0x16B40, 0x16B43); (0x16F4F, 0x16F4F);
    (0x16F8F, 0x16F9F); (0x16FE0, 0x16FE1); (0x16FE3, 0x16FE4); (0x1AFF0, 0x1AFF3);
    (0x1AFF5, 0x1AFFB); (0x1AFFD, 0x1AFFE); (0x1BC9D, 0x1BC9E); (0x1BCA0, 0x1BCA3);
    (0x1CF00, 0x1CF2D); (0x1CF30, 0x1CF46); (0x1D167, 0x1D169); (0x1D173, 0x1D182);
    (0x1D185, 0x1D18B); (0x1D1AA, 0x1D1AD); (0x1D242, 0x1D244); (0x1DA00, 0x1DA36);
    (0x1DA3B, 0x1DA6C); (0x1DA75, 0x1DA75); (0x1DA84, 0x1DA84); (0x1DA9B, 0x1DA9F);
    (0x1DAA1, 0x1DAAF); (0x1E000, 0x1E006); (0x1E008, 0x1E018); (0x1E01B, 0x1E021);
    (0x1E023, 0x1E024); (0x1E026, 0x1E02A); (0x1E130, 0x1E13D); (0x1E2AE, 0x1E2AE);
    (0x1E2EC, 0x1E2EF); (0x1E8D0, 0x1E8D6); (0x1E944, 0x1E94B); (0x1F3FB, 0x1F3FF);
    (0xE0001, 0xE0001); (0xE0020, 0xE007F); (0xE0100, 0xE01EF) ].

(** Cased characters, among those that are not case-ignorable. *)
Definition cased : list (Z * Z) :=
  [ (0x41, 0x5A); (0x61, 0x7A); (0xAA, 0xAA); (0xB5, 0xB5);
    (0xBA, 0xBA); (0xC0, 0xD6); (0xD8, 0xF6); (0xF8, 0x1BA);
    (0x1BC, 0x1BF); (0x1C4, 0x293); (0x295, 0x2AF); (0x370, 0x373);
    (0x376, 0x377); (0x37B, 0x37D); (0x37F, 0x37F); (0x386, 0x386);
    (0x388, 0x38A); (0x38C, 0x38C); (0x38E, 0x3A1); (0x3A3, 0x3F5);
    (0x3F7, 0x481); (0x48A, 0x52F); (0x531, 0x556); (0x560, 0x588);
    (0x10A0, 0x10C5); (0x10C7, 0x10C7); (0x10CD, 0x10CD); (0x10D0, 0x10FA);
    (0x10FD, 0x10FF); (0x13A0, 0x13F5); (0x13F8, 0x13FD); (0x1C80, 0x1C88);
    (0x1C90, 0x1CBA); (0x1CBD, 0x1CBF); (0x1D00, 0x1D2B); (0x1D6B, 0x1D77);
    (0x1D79, 0x1D9A); (0x1E00, 0x1F15); (0x1F18, 0x1F1D); (0x1F20, 0x1F45);
    (0x1F48, 0x1F4D); (0x1F50, 0x1F57); (0x1F59, 0x1F59); (0x1F5B, 0x1F5B);
    (0x1F5D, 0x1F5D); (0x1F5F, 0x1F7D); (0x1F80, 0x1FB4); (0x1FB6, 0x1FBC);
    (0x1FBE, 0x1FBE); (0x1FC2, 0x1FC4); (0x1FC6, 0x1FCC); (0x1FD0, 0x1FD3);
    (0x1FD6, 0x1FDB); (0x1FE0, 0x1FEC); (0x1FF2, 0x1FF4); (0x1FF6, 0x1FFC);
    (0x2102, 0x2102); (0x2107, 0x2107); (0x210A, 0x2113); (0x2115, 0x2115);
    (0x2119, 0x211D); (0x2124, 0x2124); (0x2126, 0x2126); (0x2128, 0x2128);
    (0x212A, 0x212D); (0x212F, 0x2134); (0x2139, 0x2139); (0x213C, 0x213F);
    (0x2145, 0x2149); (0x214E, 0x214E); (0x2160, 0x217F); (0x2183, 0x2184);
    (0x24B6, 0x24E9); (0x2C00, 0x2C7B); (0x2C7E, 0x2CE4); (0x2CEB, 0x2CEE);
    (0x2CF2, 0x2CF3); (0x2D00, 0x2D25); (0x2D27, 0x2D27); (0x2D2D, 0x2D2D);
    (0xA640, 0xA66D); (0xA680, 0xA69B); (0xA722, 0xA76F); (0xA771, 0xA787);
    (0xA78B, 0xA78E); (0xA790, 0xA7CA); (0xA7D0, 0xA7D1); (0xA7D3, 0xA7D3);
    (0xA7D5, 0xA7D9); (0xA7F5, 0xA7F6); (0xA7FA, 0xA7FA); (0xAB30, 0xAB5A);
    (0xAB60, 0xAB68); (0xAB70, 0xABBF); (0xFB00, 0xFB06); (0xFB13, 0xFB17);
    (0xFF21, 0xFF3A); (0xFF41, 0xFF5A); (0x10400, 0x1044F); (0x104B0, 0x104D3);
    (0x104D8, 0x104FB); (0x10570, 0x1057A); (0x1057C, 0x1058A); (0x1058C, 0x10592);
    (0x10594, 0x10595); (0x10597, 0x105A1); (0x105A3, 0x105B1); (0x105B3, 0x105B9);
    (0x105BB, 0x105BC); (0x10C80, 0x10CB2); (0x10CC0, 0x10CF2); (0x118A0, 0x118DF);
    (0x16E40, 0x16E7F); (0x1D400, 0x1D454); (0x1D456, 0x1D49C); (0x1D49E, 0x1D49F);
    (0x1D4A2, 0x1D4A2); (0x1D4A5, 0x1D4A6); (0x1D4A9, 0x1D4AC); (0x1D4AE, 0x1D4B9);
    (0x1D4BB, 0x1D4BB); (0x1D4BD, 0x1D4C3); (0x1D4C5, 0x1D505); (0x1D507, 0x1D50A);
    (0x1D50D, 0x1D514); (0x1D516, 0x1D51C); (0x1D51E, 0x1D539); (0x1D53B, 0x1D53E);
    (0x1D540, 0x1D544); (0x1D546, 0x1D546); (0x1D54A, 0x1D550); (0x1D552, 0x1D6A5);
    (0x1D6A8, 0x1D6C0); (0x1D6C2, 0x1D6DA); (0x1D6DC, 0x1D6FA); (0x1D6FC, 0x1D714);
    (0x1D716, 0x1D734); (0x1D736, 0x1D74E); (0x1D750, 0x1D76E); (0x1D770, 0x1D788);
    (0x1D78A, 0x1D7A8); (0x1D7AA, 0x1D7C2); (0x1D7C4, 0x1D7CB); (0x1DF00, 0x1DF09);
    (0x1DF0B, 0x1DF1E); (0x1E900, 0x1E943); (0x1F130, 0x1F149); (0x1F150, 0x1F169);
    (0x1F170, 0x1F189) ].

Definition is_case_ignorable (p : Z) : bool := in_ranges case_ignorable p.

Definition is_cased (p : Z) : bool := in_ranges cased p.

Definition capital_sigma : Z := 0x3A3.
Definition final_sigma : Z := 0x3C2.
Definition capital_i_dotted : Z := 0x130.

Fixpoint skip_ignorable (l : list Z) : list Z :=
  match l with
  | p :: l' => if is_case_ignorable p then skip_ignorable l' else l
  | [] => []
  end.

(** Nothing cased follows, case-ignorable characters apart. *)
Definition ends_word (after : list Z) : bool :=
  match skip_ignorable after with
  | [] => true
  | p :: _ => negb (is_cased p)
  end.

(** [str.lower] on code points.  [cased_before] tells whether the nearest
    character before that is not case-ignorable is cased.  A capital sigma
    becomes a final sigma when it ends a word that it does not begin; a
    dotted capital I becomes i followed by a combining dot. *)
Fixpoint lower (cased_before : bool) (l : list Z) : list Z :=
  match l with
  | [] => []
  | p :: after =>
      let mapped :=
        if p =? capital_sigma then
          [if cased_before && ends_word after then final_sigma
           else to_lower p]
        else if p =? capital_i_dotted then [0x69; 0x307]
        else [to_lower p] in
      List.app mapped
        (lower (if is_case_ignorable p then cased_before else is_cased p)
               after)
  end.

End Unicode.

(** ** Python strings *)

Module PyStr.

(** A white space character at the head of a text, by the number of bytes
    it takes.  No white space character takes four. *)
Definition space1 (a : ascii) : bool :=
  (Utf8.byte a <? 0x80) && Unicode.is_space (Utf8.byte a).

Definition space2 (a b : ascii) : bool :=
  match Utf8.point2 a b with
  | Some p => Unicode.is_space p
  | None => false
  end.

Definition space3 (a b c : ascii) : bool :=
  match Utf8.point3 a b c with
  | Some p => Unicode.is_space p
  | None => false
  end.

(** [s.lower()] *)
Definition lower (s : string) : string :=
  Utf8.encode (Unicode.lower false (Utf8.decode s)).

Definition is_empty (s : string) : bool :=
  match s with EmptyString => true | _ => false end.

(** [s.lstrip()] *)
Fixpoint lstrip (s : string) : string :=
  match s with
  | EmptyString => EmptyString
  | String a s1 =>
      if space1 a then lstrip s1
      else
        match s1 with
        | String b s2 =>
            if space2 a b then lstrip s2
            else
              match s2 with
              | String c s3 => if space3 a b c then lstrip s3 else s
              | EmptyString => s
              end
        | EmptyString => s
        end
  end.

(** [s.rstrip()]: a text that is white space throughout strips to
    nothing; of any other text the first byte stays and the rest is
    stripped.  (The text from a position inside a character on starts
    with a continuation byte, and no white space character does.) *)
Fixpoint rstrip (s : string) : string :=
  match s with
  | EmptyString => EmptyString
  | String a s1 =>
      if is_empty (lstrip s) then EmptyString else String a (rstrip s1)
  end.

(** [s.strip()] *)
Definition strip (s : string) : string := rstrip (lstrip s).

(** [sub in s] *)
Fixpoint contains (sub s : string) : bool :=
  prefix sub s ||
  match s with
  | EmptyString => false
  | String _ s' => contains sub s'
  end.

(** [s.split(sep)] for a non-empty [sep]: occurrences are taken leftmost
    first and do not overlap.  [skip] counts the characters of a separator
    still to be dropped, [cur] is the current part, reversed. *)
Fixpoint split_aux (sep s : string) (skip : nat) (cur : list ascii)
  : list string :=
  match s with
  | EmptyString => [string_of_list_ascii (rev cur)]
  | String c s' =>
      match skip with
      | S k => split_aux sep s' k cur
      | O =>
          if prefix sep s
          then string_of_list_ascii (rev cur)
               :: split_aux sep s' (String.length sep - 1) []
          else split_aux sep s' O (c :: cur)
      end
  end.

Definition split (sep s : string) : list string := split_aux sep s O [].

(** [s.replace(old, new)] for a non-empty [old]. *)
Fixpoint replace_aux (old new s : string) (skip : nat) : string :=
  match s with
  | EmptyString => EmptyString
  | String c s' =>
      match skip with
      | S k => replace_aux old new s' k
      | O =>
          if prefix old s
          then new ++ replace_aux old new s' (String.length old - 1)
          else String c (replace_aux old new s' O)
      end
  end.

Definition replace (old new s : string) : string := replace_aux old new s O.

(** [sep.join(parts)] *)
Fixpoint join (sep : string) (parts : list string) : string :=
  match parts with
  | [] => EmptyString
  | [p] => p
  | p :: ps => p ++ sep ++ join sep ps
  end.

(** [str(n)] for an integer. *)
Definition of_Z (n : Z) : string := NilEmpty.string_of_int (Z.to_int n).

(** Longest prefix of [s] all of whose characters satisfy [keep], and the
    rest of [s]. *)
Fixpoint span (keep : ascii -> bool) (s : string) : string * string :=
  match s with
  | EmptyString => (EmptyString, EmptyString)
  | String c s' =>
      if keep c
      then let (a, b) := span keep s' in (String c a, b)
      else (EmptyString, s)
  end.

Definition newline : ascii := ascii_of_nat 10.

Definition not_newline (c : ascii) : bool := negb (Ascii.eqb c newline).

(** The last character that is not a line feed of a text that is white
    space throughout. *)
Fixpoint last_space (s : string) : option string :=
  match s with
  | EmptyString => None
  | String a s1 =>
      if space1 a then
        match last_space s1 with
        | Some w => Some w
        | None =>
            if not_newline a then Some (String a EmptyString) else None
        end
      else
        match s1 with
        | String b s2 =>
            if space2 a b then
              match last_space s2 with
              | Some w => Some w
              | None => Some (String a (String b EmptyString))
              end
            else
              match s2 with
              | String c s3 =>
                  if space3 a b c then
                    match last_space s3 with
                    | Some w => Some w
                    | None =>
                        Some (String a (String b (String c EmptyString)))
                    end
                  else None
              | EmptyString => None
              end
        | EmptyString => None
        end
  end.

(** [len(s)]: the number of code points, the bytes of [s] that are not
    UTF-8 continuation bytes. *)
Fixpoint len (s : string) : Z :=
  match s with
  | EmptyString => 0
  | String c s' =>
      let n := nat_of_ascii c in
      (if ((128 <=? n) && (n <? 192))%nat then 0 else 1) + len s'
  end.

Definition flush (cur : list ascii) : list string :=
  match cur with
  | [] => []
  | _ => [string_of_list_ascii (rev cur)]
  end.

(** [s.split()]: the maximal runs of characters that are not white
    space. *)
Fixpoint split_ws_aux (s : string) (cur : list ascii) : list string :=
  match s with
  | EmptyString => flush cur
  | String a s1 =>
      if space1 a then List.app (flush cur) (split_ws_aux s1 [])
      else
        match s1 with
        | String b s2 =>
            if space2 a b then List.app (flush cur) (split_ws_aux s2 [])
            else
              match s2 with
              | String c s3 =>
                  if space3 a b c
                  then List.app (flush cur) (split_ws_aux s3 [])
                  else split_ws_aux s1 (a :: cur)
              | EmptyString => split_ws_aux s1 (a :: cur)
              end
        | EmptyString => split_ws_aux s1 (a :: cur)
        end
  end.

Definition split_ws (s : string) : list string := split_ws_aux s [].

End PyStr.

(** ** Python values *)

(** Exceptions (instances of [Exception]) that the modelled code raises or
    lets through.  [BackendError] stands for whatever the completion client
    or [json.loads] raises. *)
Inductive exn : Type :=
| KeyError (key : string)
| TypeError
| AttributeError
| ValueError
| ValidationError
| ZeroDivisionError
| StatisticsError
| BackendError (detail : string).

(** The outcome of a call that may raise. *)
Definition result (A : Type) : Type := (exn + A)%type.

Inductive pyfloat : Type :=
| FNan
| FInf (negative : bool)
| FFin (q : Q).

Module PyFloat.

Definition lt (a b : pyfloat) : bool :=
  match a, b with
  | FNan, _ | _, FNan => false
  | FInf n1, FInf n2 => n1 && negb n2
  | FInf n1, FFin _ => n1
  | FFin _, FInf n2 => negb n2
  | FFin x, FFin y => negb (Qle_bool y x)
  end.

Definition le (a b : pyfloat) : bool :=
  match a, b with
  | FNan, _ | _, FNan => false
  | FInf n1, FInf n2 => n1 || negb n2
  | FInf n1, FFin _ => n1
  | FFin _, FInf n2 => negb n2
  | FFin x, FFin y => Qle_bool x y
  end.

Definition eq (a b : pyfloat) : bool :=
  match a, b with
  | FNan, _ | _, FNan => false
  | FInf n1, FInf n2 => Bool.eqb n1 n2
  | FFin x, FFin y => Qeq_bool x y
  | _, _ => false
  end.

Definition of_Z (z : Z) : pyfloat := FFin (inject_Z z).

(** The float literals of the source: the doubles nearest to the decimal
    numerals. *)
Definition lit_0_0 : pyfloat := FFin 0.
Definition lit_1_0 : pyfloat := FFin 1.
Definition lit_0_8 : pyfloat := FFin (3602879701896397 # 4503599627370496).
Definition lit_0_9 : pyfloat := FFin (8106479329266893 # 9007199254740992).

(** [lo <= x <= hi] as Python evaluates it. *)
Definition between (lo hi x : pyfloat) : bool := le lo x && le x hi.

End PyFloat.

(** A decoded JSON document, as [json.loads] returns it.  [PDict] lists
    the items of a dict in insertion order; its keys are distinct. *)
Inductive pyval : Type :=
| PNone
| PBool (b : bool)
| PInt (z : Z)
| PFloat (f : pyfloat)
| PStr (s : string)
| PList (items : list pyval)
| PDict (items : list (string * pyval)).

(** A value of the pydantic field type [str | bool]. *)
Inductive answer_value : Type :=
| VStr (s : string)
| VBool (b : bool).

Module PyVal.

(** Truth value of an object ([bool(v)], [if v:]). *)
Definition truthy (v : pyval) : bool :=
  match v with
  | PNone => false
  | PBool b => b
  | PInt z => negb (z =? 0)
  | PFloat FNan => true
  | PFloat (FInf _) => true
  | PFloat (FFin q) => negb (Qeq_bool q 0)
  | PStr s => negb (PyStr.is_empty s)
  | PList l => match l with [] => false | _ => true end
  | PDict d => match d with [] => false | _ => true end
  end.

Definition is_str (v : pyval) : bool :=
  match v with PStr _ => true | _ => false end.

Definition is_bool (v : pyval) : bool :=
  match v with PBool _ => true | _ => false end.

Definition str_of_bool (b : bool) : string := if b then "True" else "False".

(** [v < lit] for a float literal [lit]: numbers compare by value, any
    other operand raises [TypeError]. *)
Definition lt_float (v : pyval) (lit : pyfloat) : result bool :=
  match v with
  | PBool b => inr (PyFloat.lt (PyFloat.of_Z (if b then 1 else 0)) lit)
  | PInt z => inr (PyFloat.lt (PyFloat.of_Z z) lit)
  | PFloat f => inr (PyFloat.lt f lit)
  | _ => inl TypeError
  end.

Fixpoint assoc (k : string) (d : list (string * pyval)) : option pyval :=
  match d with
  | [] => None
  | (k', v) :: d' => if String.eqb k k' then Some v else assoc k d'
  end.

(** [v[key]] for a string key. *)
Definition getitem (v : pyval) (key : string) : result pyval :=
  match v with
  | PDict d =>
      match assoc key d with
      | Some x => inr x
      | None => inl (KeyError key)
      end
  | _ => inl TypeError
  end.

(** [v.get(key, default)] *)
Definition get (v : pyval) (key : string) (default : pyval) : result pyval :=
  match v with
  | PDict d =>
      match assoc key d with
      | Some x => inr x
      | None => inr default
      end
  | _ => inl AttributeError
  end.

End PyVal.

Module Answer.

(** [str(v)] *)
Definition str (v : answer_value) : string :=
  match v with
  | VStr s => s
  | VBool b => PyVal.str_of_bool b
  end.

(** [a == b]: a string never equals a boolean. *)
Definition eqb (a b : answer_value) : bool :=
  match a, b with
  | VStr s, VStr t => String.eqb s t
  | VBool x, VBool y => Bool.eqb x y
  | _, _ => false
  end.

(** [a in l] *)
Definition mem (a : answer_value) (l : list answer_value) : bool :=
  existsb (eqb a) l.

Definition to_pyval (v : answer_value) : pyval :=
  match v with
  | VStr s => PStr s
  | VBool b => PBool b
  end.

End Answer.

(** ** Dictionaries keyed by strings

    A [dict] keeps its keys in insertion order; assigning to a key that is
    present replaces its value in place. *)

Module Dict.

Definition t (V : Type) : Type := list (string * V).

Definition empty {V} : t V := [].

Fixpoint get {V} (d : t V) (k : string) : option V :=
  match d with
  | [] => None
  | (k', v) :: d' => if String.eqb k k' then Some v else get d' k
  end.

(** [k in d] *)
Definition mem {V} (d : t V) (k : string) : bool :=
  match get d k with Some _ => true | None => false end.

(** [d[k] = v] *)
Fixpoint set {V} (d : t V) (k : string) (v : V) : t V :=
  match d with
  | [] => [(k, v)]
  | (k', v') :: d' =>
      if String.eqb k k' then (k', v) :: d' else (k', v') :: set d' k v
  end.

Definition is_empty {V} (d : t V) : bool :=
  match d with [] => true | _ => false end.

End Dict.

(** ** Dates and the age computation *)

(** What the code reads of a [datetime]: the calendar date, and the instant
    as a count of microseconds from a fixed origin (used for durations). *)
Record datetime : Type := mk_datetime {
  year : Z;
  month : Z;
  day : Z;
  instant_us : Z
}.

Module Strptime.

Definition dash : Z := 0x2D.

Definition space : Z := 0x20.

(** An ASCII digit, as the character classes of the pattern list them. *)
Definition digit (p : Z) : option Z :=
  if (0x30 <=? p) && (p <=? 0x39) then Some (p - 0x30) else None.

Definition digit_in (lo hi : Z) (p : Z) : option Z :=
  match digit p with
  | Some d => if (lo <=? d) && (d <=? hi) then Some d else None
  | None => None
  end.

(** [%Y]: [\d\d\d\d], four decimal digits of any script, read by
    [int]. *)
Definition year_field (l : list Z) : option (Z * list Z) :=
  match l with
  | a :: b :: c :: d :: rest =>
      match Unicode.decimal a, Unicode.decimal b,
            Unicode.decimal c, Unicode.decimal d with
      | Some a, Some b, Some c, Some d =>
          Some (1000 * a + 100 * b + 10 * c + d, rest)
      | _, _, _, _ => None
      end
  | _ => None
  end.

(** [%m] followed by the literal dash: [1[0-2]|0[1-9]|[1-9]], the
    alternatives tried in this order. *)
Definition month_field_dash (l : list Z) : option (Z * list Z) :=
  let two :=
    match l with
    | a :: b :: c :: rest =>
        if c =? dash then
          match digit_in 1 1 a, digit_in 0 2 b with
          | Some _, Some b => Some (10 + b, rest)
          | _, _ =>
              match digit_in 0 0 a, digit_in 1 9 b with
              | Some _, Some b => Some (b, rest)
              | _, _ => None
              end
          end
        else None
    | _ => None
    end in
  match two with
  | Some r => Some r
  | None =>
      match l with
      | a :: c :: rest =>
          if c =? dash then
            match digit_in 1 9 a with
            | Some a => Some (a, rest)
            | None => None
            end
          else None
      | _ => None
      end
  end.

(** [%d]: [3[0-1]|[1-2]\d|0[1-9]|[1-9]| [1-9]], the first alternative
    that matches; the [\d] is a decimal digit of any script. *)
Definition day_field (l : list Z) : option (Z * list Z) :=
  let two :=
    match l with
    | a :: b :: rest =>
        match digit_in 3 3 a, digit_in 0 1 b with
        | Some _, Some b => Some (30 + b, rest)
        | _, _ =>
            match digit_in 1 2 a, Unicode.decimal b with
            | Some a, Some b => Some (10 * a + b, rest)
            | _, _ =>
                match digit_in 0 0 a, digit_in 1 9 b with
                | Some _, Some b => Some (b, rest)
                | _, _ => None
                end
            end
        end
    | _ => None
    end in
  match two with
  | Some r => Some r
  | None =>
      match l with
      | a :: rest =>
          match digit_in 1 9 a with
          | Some a => Some (a, rest)
          | None =>
              match rest with
              | b :: rest' =>
                  if a =? space
                  then match digit_in 1 9 b with
                       | Some b => Some (b, rest')
                       | None => None
                       end
                  else None
              | [] => None
              end
          end
      | [] => None
      end
  end.

Definition is_leap (y : Z) : bool :=
  (y mod 4 =? 0) && (negb (y mod 100 =? 0) || (y mod 400 =? 0)).

Definition days_in_month (y m : Z) : Z :=
  if m =? 2 then (if is_leap y then 29 else 28)
  else if (m =? 4) || (m =? 6) || (m =? 9) || (m =? 11) then 30
  else 31.

(** [datetime.strptime(s, "%Y-%m-%d")]: the calendar date, or
    [ValueError] when the text does not match the format, text remains
    after the day, or the date does not exist. *)
Definition strptime_ymd (s : string) : result (Z * Z * Z) :=
  match year_field (Utf8.decode s) with
  | Some (y, c :: l1) =>
      if c =? dash then
        match month_field_dash l1 with
        | Some (m, l2) =>
            match day_field l2 with
            | Some (d, []) =>
                if (1 <=? y) && (d <=? days_in_month y m)
                then inr (y, m, d)
                else inl ValueError
            | _ => inl ValueError
            end
        | None => inl ValueError
        end
      else inl ValueError
  | _ => inl ValueError
  end.

End Strptime.

(** [(m1, d1) < (m2, d2)] on tuples of integers. *)
Definition month_day_lt (m1 d1 m2 d2 : Z) : bool :=
  (m1 <? m2) || ((m1 =? m2) && (d1 <? d2)).

(** The arithmetic of [LLMService._calculate_age]:
    [today.year - dob.year - ((today.month, today.day) < (dob.month, dob.day))],
    the comparison counting as 1 when true and 0 when false. *)
Definition age_on (today : datetime) (dob : Z * Z * Z) : Z :=
  let '(dob_year, dob_month, dob_day) := dob in
  year today - dob_year
  - (if month_day_lt (month today) (day today) dob_month dob_day
     then 1 else 0).

(** ** Data model *)

(** Modelled from the spec: [app/models.py] is not part of the sources.  A
    question's type is enumerated, [text] or [boolean]. *)
Inductive QuestionType : Type := text | boolean.

(** Modelled from the spec: the [Question] of [app/models.py], with the
    attributes the code reads ([type], [key], [content], [visible_if]). *)
Record Question : Type := mk_question {
  q_type : QuestionType;
  q_key : string;
  q_content : string;
  q_visible_if : option string
}.

(** Modelled from the spec: the [Prescription] of [app/models.py]. *)
Record Prescription : Type := mk_prescription {
  medication : string;
  dosage : string;
  frequency : string;
  duration : string
}.

(** Modelled from the spec: the [Patient] of [app/models.py];
    [date_of_birth] is the text handed to [strptime]. *)
Record Patient : Type := mk_patient {
  first_name : string;
  last_name : string;
  date_of_birth : string;
  gender : string;
  prescription : Prescription;
  visit_notes : list string
}.

Inductive ModelType : Type := STANDARD | REASONING | CRITIC | FAST.

(** [AnswerWithConfidence]; instances are built by [mk_answer] below, which
    runs the field validation. *)
Record AnswerWithConfidence : Type := mk_answer_record {
  a_question : Question;
  a_value : answer_value;
  a_confidence : pyfloat;
  a_reasoning : option string;
  a_improvements : option (list string)
}.

(** What pydantic does with an input that is not already of the declared
    field type (its lax-mode conversions); [None] is a validation error.
    The model fixes only the behaviour on inputs of the declared type. *)
Record pydantic_lax : Type := mk_lax {
  lax_str_or_bool : pyval -> option answer_value;
  lax_float : pyval -> option pyfloat;
  lax_opt_str : pyval -> option (option string);
  lax_opt_str_list : pyval -> option (option (list string))
}.

Module Pydantic.

(** [value: str | bool] *)
Definition str_or_bool (lax : pydantic_lax) (v : pyval)
  : option answer_value :=
  match v with
  | PStr s => Some (VStr s)
  | PBool b => Some (VBool b)
  | _ => lax_str_or_bool lax v
  end.

(** [confidence: float = Field(ge=0.0, le=1.0)] *)
Definition float_0_1 (lax : pydantic_lax) (v : pyval) : option pyfloat :=
  let coerced :=
    match v with
    | PFloat f => Some f
    | _ => lax_float lax v
    end in
  match coerced with
  | Some f =>
      if PyFloat.between PyFloat.lit_0_0 PyFloat.lit_1_0 f
      then Some f else None
  | None => None
  end.

(** [reasoning: str | None] *)
Definition opt_str (lax : pydantic_lax) (v : pyval)
  : option (option string) :=
  match v with
  | PNone => Some None
  | PStr s => Some (Some s)
  | _ => lax_opt_str lax v
  end.

Fixpoint all_str (l : list pyval) : option (list string) :=
  match l with
  | [] => Some []
  | PStr s :: l' =>
      match all_str l' with
      | Some r => Some (s :: r)
      | None => None
      end
  | _ :: _ => None
  end.

(** [improvements: list[str] | None] *)
Definition opt_str_list (lax : pydantic_lax) (v : pyval)
  : option (option (list string)) :=
  match v with
  | PNone => Some None
  | PList l =>
      match all_str l with
      | Some r => Some (Some r)
      | None => lax_opt_str_list lax v
      end
  | _ => lax_opt_str_list lax v
  end.

End Pydantic.

(** [AnswerWithConfidence(question=..., value=..., confidence=...,
    reasoning=..., improvements=...)]: every field is validated, and the
    call raises [ValidationError] when one of them fails. *)
Definition mk_answer (lax : pydantic_lax) (question : Question)
  (value confidence reasoning improvements : pyval)
  : result AnswerWithConfidence :=
  match Pydantic.str_or_bool lax value,
        Pydantic.float_0_1 lax confidence,
        Pydantic.opt_str lax reasoning,
        Pydantic.opt_str_list lax improvements with
  | Some v, Some c, Some r, Some i =>
      inr (mk_answer_record question v c r i)
  | _, _, _, _ => inl ValidationError
  end.

(** ** The completion backend *)

(** A request to [client.chat.completions.create]: the model profile and the
    values interpolated into the fixed prompt templates.  The response is
    modelled after [json.loads(response.choices[0].message.content)]. *)
Inductive Request : Type :=
| ActorRequest (model : ModelType) (few_shot_prompt patient_context : string)
    (question : Question)
| CriticRequest (patient_context question_content proposed_answer
                 reasoning : string)
| RefineRequest (patient_context : string) (question : Question)
    (original_answer : string) (feedback : string).

(** The pipeline stages, recorded when a stage is entered. *)
Inductive Stage : Type := StageActor | StageCritic | StageRefiner.

Definition Stage_eqb (a b : Stage) : bool :=
  match a, b with
  | StageActor, StageActor
  | StageCritic, StageCritic
  | StageRefiner, StageRefiner => true
  | _, _ => false
  end.

(** [FewShotExample] *)
Record FewShotExample : Type := mk_example {
  ex_patient_context : string;
  ex_question : string;
  ex_answer : answer_value;
  ex_reasoning : string
}.

(** [LLMService] instance attributes set by [__init__]: whether a client
    was created, and the feature flags read from the environment. *)
Record LLMService : Type := mk_service {
  client : bool;
  enable_confidence : bool;
  enable_actor_critic : bool;
  enable_few_shot : bool;
  enable_reasoning : bool;
  few_shot_examples : list FewShotExample
}.

Definition nl : string := String PyStr.newline EmptyString.

Definition dquote : string := String (ascii_of_nat 34) EmptyString.

(** [LLMService._load_few_shot_examples] *)
Definition _load_few_shot_examples : list FewShotExample :=
  [ mk_example
      "Patient: 45-year-old male, BMI 32.5, diagnosed with Type 2 diabetes and hypertension"
      "Does the patient have a BMI greater than or equal to 30 kg per square meter?"
      (VBool true)
      "The patient's BMI is 32.5 kg/m², which is greater than 30 kg/m².";
    mk_example
      ("Patient: 35-year-old female, weight 180 lbs, height 5'4" ++ dquote
       ++ ", participated in diet program for 8 months")
      "Has the patient participated in a comprehensive weight-management program for at least 6 months?"
      (VBool true)
      "The patient has participated in a diet program for 8 months, which exceeds the 6-month requirement.";
    mk_example
      "Patient on Zepbound 10mg weekly for 4 months, lost 12% of baseline weight"
      "Has the patient had a weight loss of more than or equal to 5% of baseline body weight?"
      (VBool true)
      "The patient has lost 12% of baseline weight, which is significantly more than the required 5%." ].

(** [enumerate(l, start)] *)
Fixpoint enumerate {A} (start : Z) (l : list A) : list (Z * A) :=
  match l with
  | [] => []
  | x :: l' => (start, x) :: enumerate (start + 1) l'
  end.

(** [LLMService._build_few_shot_prompt] *)
Definition _build_few_shot_prompt (self : LLMService)
  (examples : list FewShotExample) : string :=
  if negb (enable_few_shot self)
     || match examples with [] => true | _ => false end
  then EmptyString
  else
    let header := [nl ++ "### Examples of Correct Answers:" ++ nl] in
    let body :=
      flat_map
        (fun '(i, example) =>
           [ nl ++ "Example " ++ PyStr.of_Z i ++ ":";
             "Context: " ++ ex_patient_context example;
             "Question: " ++ ex_question example;
             "Answer: " ++ Answer.str (ex_answer example);
             "Reasoning: " ++ ex_reasoning example ])
        (enumerate 1 (firstn 3 examples)) in
    let footer := [nl ++ "---" ++ nl] in
    let prompt_parts := List.app header (List.app body footer) in
    PyStr.join nl prompt_parts.

(** [LLMService._simulate_answer] *)
Definition _simulate_answer (patient_context : string) (question : Question)
  : pyval * pyval :=
  match q_type question with
  | boolean =>
      if PyStr.contains "bmi" (PyStr.lower (q_key question))
         && (PyStr.contains "32" patient_context
             || PyStr.contains "35" patient_context)
      then (PBool true,
            PStr "Patient BMI exceeds threshold based on available data")
      else (PBool false,
            PStr "Unable to determine from available information")
  | text =>
      if String.eqb (q_key question) "age"
      then (PStr "45", PStr "Age estimated from available patient data")
      else if String.eqb (q_key question) "bmi"
      then (PStr "32.5", PStr "BMI value extracted from patient records")
      else (PStr "Information not available",
            PStr "Cannot determine from current data")
  end.

(** ** Text to float *)

Module FloatOfString.

Definition pow2 (e : Z) : Q :=
  if 0 <=? e then inject_Z (2 ^ e) else 1 # Z.to_pos (2 ^ (- e)).

Definition pow10 (e : Z) : Q :=
  if 0 <=? e then inject_Z (10 ^ e) else 1 # Z.to_pos (10 ^ (- e)).

(** Nearest integer to the positive rational [q], ties to even. *)
Definition round_half_even (q : Q) : Z :=
  let n := Qnum q in
  let d := Zpos (Qden q) in
  let f := n / d in
  let r := n mod d in
  match 2 * r ?= d with
  | Lt => f
  | Gt => f + 1
  | Eq => if Z.even f then f else f + 1
  end.

(** [e] with [2^e <= q < 2^(e+1)], for a positive rational [q]. *)
Definition binary_exponent (q : Q) : Z :=
  let e0 := Z.log2 (Qnum q) - Z.log2 (Zpos (Qden q)) in
  if Qle_bool (pow2 e0) q then e0 else e0 - 1.

(** Rounding of a positive rational to binary64, to nearest with ties to
    even: 53 significant bits, least exponent [-1074], overflow to
    infinity. *)
Definition round_positive (q : Q) : pyfloat :=
  let p := Z.max (binary_exponent q - 52) (-1074) in
  let m := round_half_even (Qmult q (pow2 (- p))) in
  let v := Qmult (inject_Z m) (pow2 p) in
  if Qle_bool (pow2 1024) v then FInf false else FFin (Qred v).

Definition negate (f : pyfloat) : pyfloat :=
  match f with
  | FNan => FNan
  | FInf n => FInf (negb n)
  | FFin q => FFin (Qopp q)
  end.

(** Rounding of a rational to binary64. *)
Definition round_binary64 (q : Q) : pyfloat :=
  match Qnum q with
  | Z0 => FFin 0
  | Zpos _ => round_positive q
  | Zneg _ => negate (round_positive (Qopp q))
  end.

(** What [float] makes of a character before it parses: an ASCII
    character stays, any other white space becomes a space and any other
    decimal digit the ASCII digit of its value; a character that is none
    of these cannot be part of a number. *)
Definition ascii_char (p : Z) : option ascii :=
  if (0 <=? p) && (p <? 0x7F) then Some (Utf8.char p)
  else if Unicode.is_space p then Some " "%char
  else
    match Unicode.decimal p with
    | Some d => Some (Utf8.char (0x30 + d))
    | None => None
    end.

Fixpoint ascii_form (l : list Z) : option string :=
  match l with
  | [] => Some EmptyString
  | p :: l' =>
      match ascii_char p, ascii_form l' with
      | Some c, Some s => Some (String c s)
      | _, _ => None
      end
  end.

(** White space of the ASCII form, as the parser strips it: space, TAB,
    LF, VT, FF and CR. *)
Definition c_space (c : ascii) : bool :=
  let n := Utf8.byte c in (n =? 0x20) || ((0x9 <=? n) && (n <=? 0xD)).

Fixpoint lstrip (s : string) : string :=
  match s with
  | EmptyString => EmptyString
  | String c s' => if c_space c then lstrip s' else s
  end.

Fixpoint rstrip (s : string) : string :=
  match s with
  | EmptyString => EmptyString
  | String c s' =>
      let r := rstrip s' in
      if PyStr.is_empty r && c_space c then EmptyString else String c r
  end.

(** Lower case of the letters A to Z. *)
Fixpoint ascii_lower (s : string) : string :=
  match s with
  | EmptyString => EmptyString
  | String c s' =>
      let n := Utf8.byte c in
      String (if (0x41 <=? n) && (n <=? 0x5A) then Utf8.char (n + 32) else c)
             (ascii_lower s')
  end.

(** An ASCII digit. *)
Definition digit (c : ascii) : option Z :=
  let n := Utf8.byte c in
  if (0x30 <=? n) && (n <=? 0x39) then Some (n - 0x30) else None.

(** [digit (["_"] digit)*] after its first digit: the value of the digits
    read so far, their count, and the rest of the text. *)
Fixpoint digits_loop (s : string) (acc count : Z) : Z * Z * string :=
  match s with
  | String c s' =>
      match digit c with
      | Some d => digits_loop s' (10 * acc + d) (count + 1)
      | None =>
          if Ascii.eqb c "_" then
            match s' with
            | String c2 s'' =>
                match digit c2 with
                | Some d => digits_loop s'' (10 * acc + d) (count + 1)
                | None => (acc, count, s)
                end
            | EmptyString => (acc, count, s)
            end
          else (acc, count, s)
      end
  | EmptyString => (acc, count, s)
  end.

(** [digitpart]: value, number of digits, rest. *)
Definition digitpart (s : string) : option (Z * Z * string) :=
  match s with
  | String c s' =>
      match digit c with
      | Some d => Some (digits_loop s' d 1)
      | None => None
      end
  | EmptyString => None
  end.

(** An optional sign: whether it is a minus, and the rest. *)
Definition sign (s : string) : bool * string :=
  match s with
  | String "-" s' => (true, s')
  | String "+" s' => (false, s')
  | _ => (false, s)
  end.

(** [number]: the digits as an integer, the number of them after the
    point, and the rest. *)
Definition number (s : string) : option (Z * Z * string) :=
  match digitpart s with
  | Some (i, _, String "." s1) =>
      match digitpart s1 with
      | Some (f, n, s2) => Some (i * 10 ^ n + f, n, s2)
      | None => Some (i, 0, s1)
      end
  | Some (i, _, s1) => Some (i, 0, s1)
  | None =>
      match s with
      | String "." s1 =>
          match digitpart s1 with
          | Some (f, n, s2) => Some (f, n, s2)
          | None => None
          end
      | _ => None
      end
  end.

(** An optional [exponent] reaching the end of the text. *)
Definition exponent (s : string) : option Z :=
  match s with
  | EmptyString => Some 0
  | String c s1 =>
      if Ascii.eqb c "e" || Ascii.eqb c "E" then
        let (neg, s2) := sign s1 in
        match digitpart s2 with
        | Some (e, _, EmptyString) => Some (if neg then - e else e)
        | _ => None
        end
      else None
  end.

(** The parser, on the ASCII form of the text. *)
Definition parse (form : string) : option pyfloat :=
  let (neg, body) := sign (rstrip (lstrip form)) in
  let word := ascii_lower body in
  if String.eqb word "inf" || String.eqb word "infinity"
  then Some (FInf neg)
  else if String.eqb word "nan" then Some FNan
  else
    match number body with
    | Some (digits, scale, rest) =>
        match exponent rest with
        | Some e =>
            let q := Qmult (inject_Z digits) (pow10 (e - scale)) in
            Some (round_binary64 (if neg then Qopp q else q))
        | None => None
        end
    | None => None
    end.

(** [float(s)] for a string: [None] stands for [ValueError]. *)
Definition float_of_string (s : string) : option pyfloat :=
  match ascii_form (Utf8.decode s) with
  | Some form => parse form
  | None => None
  end.

End FloatOfString.

(** ** Float arithmetic *)

Module PyNum.

Import FloatOfString.

Definition is_zero (q : Q) : bool := Qeq_bool q 0.

Definition is_negative (q : Q) : bool := negb (Qle_bool 0 q).

(** [a + b] on floats. *)
Definition add (a b : pyfloat) : pyfloat :=
  match a, b with
  | FNan, _ | _, FNan => FNan
  | FInf n1, FInf n2 => if Bool.eqb n1 n2 then FInf n1 else FNan
  | FInf n, FFin _ | FFin _, FInf n => FInf n
  | FFin x, FFin y => round_binary64 (Qplus x y)
  end.

(** [a - b] on floats. *)
Definition sub (a b : pyfloat) : pyfloat := add a (negate b).

(** [a * b] on floats. *)
Definition mul (a b : pyfloat) : pyfloat :=
  match a, b with
  | FNan, _ | _, FNan => FNan
  | FInf n1, FInf n2 => FInf (xorb n1 n2)
  | FInf n, FFin y | FFin y, FInf n =>
      if is_zero y then FNan else FInf (xorb n (is_negative y))
  | FFin x, FFin y => round_binary64 (Qmult x y)
  end.

(** [abs(a)] *)
Definition abs (a : pyfloat) : pyfloat :=
  match a with
  | FNan => FNan
  | FInf _ => FInf false
  | FFin q => FFin (Qabs q)
  end.

(** [float(n)] for an integer.  The integers converted in this program
    are lengths of lists and sums of such, far below the threshold at
    which the conversion would raise [OverflowError]; the conversion is
    modelled as rounding. *)
Definition float_of_int (n : Z) : pyfloat := round_binary64 (inject_Z n).

(** [a / b] on floats with [b] not zero. *)
Definition div (a b : pyfloat) : pyfloat :=
  match a, b with
  | FNan, _ | _, FNan => FNan
  | FInf _, FInf _ => FNan
  | FInf n, FFin y => FInf (xorb n (is_negative y))
  | FFin _, FInf _ => FFin 0
  | FFin x, FFin y => round_binary64 (Qdiv x y)
  end.

(** [a / b] on integers: the exact quotient rounded once;
    [ZeroDivisionError] when [b] is zero. *)
Definition truediv_int (a b : Z) : result pyfloat :=
  if b =? 0 then inl ZeroDivisionError
  else inr (round_binary64 (Qdiv (inject_Z a) (inject_Z b))).

(** [a / n] for a float [a] and an integer [n]. *)
Definition truediv_float_int (a : pyfloat) (n : Z) : result pyfloat :=
  if n =? 0 then inl ZeroDivisionError
  else inr (div a (float_of_int n)).

(** [n * a] for an integer [n] and a float [a]. *)
Definition mul_int_float (n : Z) (a : pyfloat) : pyfloat :=
  mul (float_of_int n) a.

(** [timedelta.total_seconds()] of a duration in microseconds, times
    1000: [(stop - start).total_seconds() * 1000]. *)
Definition elapsed_ms (start stop : datetime) : pyfloat :=
  mul (round_binary64
         (Qdiv (inject_Z (instant_us stop - instant_us start))
               (inject_Z (10 ^ 6))))
      (FFin (inject_Z 1000)).

Definition lit_0_1 : pyfloat := FFin (3602879701896397 # 36028797018963968).
Definition lit_0_15 : pyfloat := FFin (5404319552844595 # 36028797018963968).
Definition lit_0_5 : pyfloat := FFin (1 # 2).
Definition lit_0_7 : pyfloat := FFin (3152519739159347 # 4503599627370496).
Definition lit_1_2 : pyfloat := FFin (5404319552844595 # 4503599627370496).

(** Exact sum of the finite values of [l]; the non-finite ones are added
    as floats. *)
Fixpoint sum_parts (l : list pyfloat) (finite : Q) (other : option pyfloat)
  : Q * option pyfloat :=
  match l with
  | [] => (finite, other)
  | FFin q :: l' => sum_parts l' (Qplus finite q) other
  | f :: l' =>
      sum_parts l' finite
        (Some (match other with Some o => add o f | None => f end))
  end.

(** [statistics.mean(l)]: the exact mean rounded once;
    [StatisticsError] on an empty list. *)
Definition mean (l : list pyfloat) : result pyfloat :=
  match l with
  | [] => inl StatisticsError
  | _ =>
      match sum_parts l 0%Q None with
      | (_, Some o) => inr o
      | (total, None) =>
          inr (round_binary64
                 (Qdiv total (inject_Z (Z.of_nat (List.length l)))))
      end
  end.

End PyNum.

(** ** Evaluation data model *)

(** [TestCase] *)
Record TestCase : Type := mk_test_case {
  tc_patient : Patient;
  tc_question : Question;
  tc_expected_answer : answer_value;
  tc_acceptable_variations : option (list answer_value);
  tc_reasoning : string;
  tc_tags : list string
}.

(** [EvaluationResult] *)
Record EvaluationResult : Type := mk_result {
  r_test_case_id : string;
  r_question_key : string;
  r_expected : answer_value;
  r_actual : answer_value;
  r_confidence : pyfloat;
  r_is_correct : bool;
  r_is_acceptable : bool;
  r_reasoning_quality : pyfloat;
  r_response_time_ms : pyfloat;
  r_error : option string
}.

(** One entry of [results_by_category]. *)
Record CategoryStats : Type := mk_stats {
  cat_total : Z;
  cat_passed : Z;
  cat_accuracy : pyfloat;
  cat_avg_confidence : pyfloat;
  cat_avg_response_time : pyfloat
}.

(** [EvaluationReport] *)
Record EvaluationReport : Type := mk_report {
  rep_timestamp : datetime;
  rep_total_tests : Z;
  rep_passed : Z;
  rep_failed : Z;
  rep_accuracy : pyfloat;
  rep_average_confidence : pyfloat;
  rep_confidence_calibration_error : pyfloat;
  rep_average_response_time_ms : pyfloat;
  rep_results_by_category : Dict.t CategoryStats;
  rep_problem_areas : list string;
  rep_recommendations : list string
}.

(** [actual.replace("kg/m²", "").replace("years", "").strip()] *)
Definition strip_units (s : string) : string :=
  PyStr.strip (PyStr.replace "years" "" (PyStr.replace "kg/m²" "" s)).

(** [EvaluationPipeline._check_answer_correctness] *)
Definition _check_answer_correctness (actual expected : answer_value)
  (acceptable_variations : option (list answer_value)) : bool :=
  if Answer.eqb actual expected then true
  else if match acceptable_variations with
          | Some (v :: l) => Answer.mem actual (v :: l)
          | _ => false
          end
  then true
  else
    match expected, actual with
    | VStr expected, VStr actual =>
        let actual_clean := strip_units actual in
        let expected_clean := strip_units expected in
        match FloatOfString.float_of_string actual_clean with
        | Some a =>
            match FloatOfString.float_of_string expected_clean with
            | Some e => PyFloat.eq a e
            | None => false
            end
        | None => false
        end
    | _, _ => false
    end.

(** [EvaluationPipeline._evaluate_reasoning_quality] *)
Definition _evaluate_reasoning_quality (actual_reasoning : option string)
  (expected_reasoning : string) : result pyfloat :=
  match actual_reasoning with
  | None | Some EmptyString => inr PyFloat.lit_0_0
  | Some actual_reasoning =>
      let key_elements := PyStr.split_ws (PyStr.lower expected_reasoning) in
      let actual_lower := PyStr.lower actual_reasoning in
      let matched_elements :=
        Z.of_nat
          (List.length
             (filter (fun element => PyStr.contains element actual_lower)
                     key_elements)) in
      match
        match key_elements with
        | [] => inr PyFloat.lit_0_0
        | _ => PyNum.truediv_int matched_elements
                 (Z.of_nat (List.length key_elements))
        end
      with
      | inl e => inl e
      | inr coverage =>
          let scaled := PyNum.mul coverage PyNum.lit_1_2 in
          let quality_score :=
            if PyFloat.lt scaled PyFloat.lit_1_0 then scaled
            else PyFloat.lit_1_0 in
          inr (if PyStr.len actual_reasoning <? 20
               then PyNum.mul quality_score PyNum.lit_0_5
               else quality_score)
      end
  end.

(** ** Visibility conditions *)

(** [re.match(r"\{([^}]+)\}\s*=\s*(.+)", s)]: groups 1 and 2 of the match
    at the start of [s], if there is one.  Group 1 is the non-empty run of
    characters other than the closing brace that follows the opening brace.
    Group 2 starts after the longest run of white space that leaves it a
    first character which is not a line feed, and extends to the next line
    feed or to the end of the text. *)
Definition re_match_condition (s : string) : option (string * string) :=
  match s with
  | String "{" rest =>
      match PyStr.span (fun c => negb (Ascii.eqb c "}")) rest with
      | (String k key', String _ after_brace) =>
          match PyStr.lstrip after_brace with
          | String "=" after_eq =>
              match PyStr.lstrip after_eq with
              | String t tail =>
                  Some (String k key',
                        fst (PyStr.span PyStr.not_newline (String t tail)))
              | EmptyString =>
                  match PyStr.last_space after_eq with
                  | Some w => Some (String k key', w)
                  | None => None
                  end
              end
          | _ => None
          end
      | _ => None
      end
  | _ => None
  end.

(** [all(f(part) for part in parts)]: stops at the first false part.
    [None] when an evaluation ran out of fuel. *)
Fixpoint all_parts (f : string -> option bool) (parts : list string)
  : option bool :=
  match parts with
  | [] => Some true
  | p :: ps =>
      match f p with
      | Some true => all_parts f ps
      | other => other
      end
  end.

(** The body of [LLMService._evaluate_condition]; [fuel] bounds the depth
    of the recursion through the parts of a conjunction. *)
Fixpoint evaluate_condition_fuel (fuel : nat) (condition : string)
  (answers : Dict.t answer_value) : option bool :=
  match fuel with
  | O => None
  | S fuel' =>
      if PyStr.is_empty condition then Some true
      else if PyStr.contains " and " condition then
        all_parts
          (fun part => evaluate_condition_fuel fuel' (PyStr.strip part) answers)
          (PyStr.split " and " condition)
      else
        match re_match_condition (PyStr.strip condition) with
        | Some (key, group2) =>
            let expected_value := PyStr.strip group2 in
            match Dict.get answers key with
            | None => Some false
            | Some actual =>
                Some (String.eqb (PyStr.lower (Answer.str actual))
                                 (PyStr.lower expected_value))
            end
        | None => Some true
        end
  end.

(** [LLMService._evaluate_condition].  Every part of a conjunction is
    shorter than the conjunction, so the length of the condition is fuel
    enough ([evaluate_condition_fuel_total] below) and the default is never
    taken. *)
Definition _evaluate_condition (condition : string)
  (answers : Dict.t answer_value) : bool :=
  match evaluate_condition_fuel (S (String.length condition)) condition answers
  with
  | Some b => b
  | None => true
  end.

(** ** The state of a run *)

(** The world outside the process, the stages entered so far (oldest
    first), and the [historical_results] of the evaluation pipeline. *)
Record State (World : Type) : Type := mk_state {
  world : World;
  stages : list Stage;
  historical_results : list EvaluationResult
}.

Arguments mk_state {World} world stages historical_results.
Arguments world {World} s.
Arguments stages {World} s.
Arguments historical_results {World} s.

(** [EvaluationPipeline]: the service and the test cases;
    [historical_results] lives in the state. *)
Record EvaluationPipeline : Type := mk_pipeline {
  llm_service : LLMService;
  test_cases : list TestCase
}.

(** ** A scripted backend

    A concrete world to run the model in: the state of the world counts the
    critic calls made so far.  The actor answers "33", the first critic pass
    scores it 0.5 and asks for the unit, the refiner answers "33 years" and
    the second critic pass scores that 0.875.  The clock stands at
    2024-06-14. *)

Module Demo.

Definition backend (r : Request) (w : nat) : result pyval * nat :=
  match r with
  | ActorRequest _ _ _ _ =>
      (inr (PDict [("answer", PStr "33");
                   ("reasoning", PStr "Computed from the date of birth");
                   ("supporting_data", PStr "DOB: 1990-06-15")]), w)
  | CriticRequest _ _ _ _ =>
      match w with
      | O =>
          (inr (PDict [("confidence_score", PFloat (FFin (1 # 2)));
                       ("improvements", PList [PStr "Include the unit"]);
                       ("evaluation_notes", PStr "The unit is missing");
                       ("is_acceptable", PBool false)]), 1%nat)
      | S _ =>
          (inr (PDict [("confidence_score", PFloat (FFin (7 # 8)));
                       ("improvements", PList []);
                       ("evaluation_notes", PStr "Supported by the data");
                       ("is_acceptable", PBool true)]), S w)
      end
  | RefineRequest _ _ _ _ =>
      (inr (PDict [("refined_answer", PStr "33 years");
                   ("reasoning", PStr "Age in years, from the date of birth");
                   ("changes_made", PList [PStr "Added the unit"])]), w)
  end.

(** A backend whose every call raises. *)
Definition broken_backend (r : Request) (w : nat) : result pyval * nat :=
  (inl (BackendError "Expecting value"), w).

Definition clock (w : nat) : datetime * nat :=
  (mk_datetime 2024 6 14 (Z.of_nat w), w).

Definition repr (v : pyval) : string := "?".

(** Strict validation: nothing but the declared types is accepted. *)
Definition lax : pydantic_lax :=
  mk_lax (fun _ => None) (fun _ => None) (fun _ => None) (fun _ => None).

Definition object_id (t : TestCase) : Z := 140000000000000.

Definition exn_message (e : exn) : string :=
  match e with
  | KeyError key => "'" ++ key ++ "'"
  | BackendError detail => detail
  | _ => "error"
  end.

Definition format_percent (f : pyfloat) : string := "?%".

Definition service : LLMService :=
  mk_service true true true true false _load_few_shot_examples.

Definition patient : Patient :=
  mk_patient "Test" "Patient2" "1990-06-15" "Female"
    (mk_prescription "Zepbound" "5 mg" "once weekly" "3 months")
    ["Patient presents for weight management consultation"].

Definition age_question : Question :=
  mk_question text "age" "What is the patient's age in years?" None.

Definition followup_question : Question :=
  mk_question boolean "adult_followup" "Is an adult follow-up needed?"
    (Some "{adult} = true").

Definition start : State nat := mk_state 0%nat [] [].

(** The patient context of the age question. *)
Definition context : string :=
  "Patient Information:
- Name: Test Patient2
- Age: 33 years
- Gender: Female
- Date of Birth: 1990-06-15

Current Prescription:
- Medication: Zepbound
- Dosage: 5 mg
- Frequency: once weekly
- Duration: 3 months

Visit Notes:
1. Patient presents for weight management consultation".

Definition first_reasoning : pyval := PStr "Computed from the date of birth".

Definition first_confidence : pyval := PFloat (FFin (1 # 2)).

Definition improvements : pyval := PList [PStr "Include the unit"].

Definition after_actor : State nat := mk_state 0%nat [StageActor] [].

Definition after_critic : State nat :=
  mk_state 1%nat [StageActor; StageCritic] [].

Definition finish : State nat :=
  mk_state 2%nat [StageActor; StageCritic; StageRefiner; StageCritic] [].

Definition answer : AnswerWithConfidence :=
  mk_answer_record age_question (VStr "33 years") (FFin (7 # 8))
    (Some "Age in years, from the date of birth")
    (Some ["Include the unit"]).

(** The same service with [ENABLE_CONFIDENCE_SCORES] off. *)
Definition masked_service : LLMService :=
  mk_service true false true true false _load_few_shot_examples.

Definition test_case : TestCase :=
  mk_test_case patient age_question (VStr "33")
    (Some [VStr "33 years"; VStr "33"]) "Age calculated from date of birth"
    ["age"; "calculation"; "demographics"].

Definition pipeline : EvaluationPipeline :=
  mk_pipeline service [test_case].

(** A patient whose date of birth is not written as [%Y-%m-%d]. *)
Definition undated_patient : Patient :=
  mk_patient "Test" "Patient3" "15/06/1990" "Male"
    (mk_prescription "Zepbound" "5 mg" "once weekly" "3 months") [].

(** A patient born after the day the clock shows. *)
Definition unborn_patient : Patient :=
  mk_patient "Test" "Patient4" "2030-01-01" "Female"
    (mk_prescription "Zepbound" "5 mg" "once weekly" "3 months") [].

(** The service without a client. *)
Definition offline_service : LLMService :=
  mk_service false true true true false _load_few_shot_examples.

(** A backend whose replies to the actor lack the [answer] key. *)
Definition keyless_backend (r : Request) (w : nat) : result pyval * nat :=
  (inr (PDict [("reasoning", PStr "No answer given")]), w).

(** A backend whose critic gives a score and nothing else. *)
Definition terse_backend (r : Request) (w : nat) : result pyval * nat :=
  match r with
  | CriticRequest _ _ _ _ =>
      (inr (PDict [("confidence_score", PFloat (FFin (1 # 2)))]), w)
  | _ => backend r w
  end.

(** A backend whose critic gives its score in words. *)
Definition vague_backend (r : Request) (w : nat) : result pyval * nat :=
  match r with
  | CriticRequest _ _ _ _ =>
      (inr (PDict [("confidence_score", PStr "high");
                   ("improvements", PList [])]), w)
  | _ => backend r w
  end.

(** A question shown only once the age has been answered as 33 years. *)
Definition gated_question : Question :=
  mk_question text "followup" "Which follow-up is planned?"
    (Some "{age} = 33 years").

Definition failed : EvaluationResult :=
  mk_result "age_140000000000000" "age" (VStr "33") (VStr "")
    (FFin 0) false false (FFin 0) (FFin 0) (Some "Expecting value").

(** A state whose history holds three results. *)
Definition history_state : State nat :=
  mk_state 0%nat [] [failed; failed; failed].

(** The state after the actor and the bypassed critic. *)
Definition after_critic_offline : State nat :=
  mk_state 0%nat [StageActor; StageCritic] [].

(** A no-break space. *)
Definition nbsp : string := Utf8.encode [0xA0].

End Demo.

(** ** The service *)

Section Service.

(** The state of everything outside the process. *)
Variable World : Type.

(** [await self.client.chat.completions.create(...)] followed by
    [json.loads] of the message content: the decoded document, or the
    exception raised. *)
Variable chat_completions_create :
  Request -> World -> result pyval * World.

(** [datetime.now()] *)
Variable datetime_now : World -> datetime * World.

(** [str(v)] for a float, a list or a dict. *)
Variable repr : pyval -> string.

Variable lax : pydantic_lax.

(** A computation that reads and changes the state and may raise. *)
Definition M (A : Type) : Type := State World -> result A * State World.

Definition ret {A} (a : A) : M A := fun st => (inr a, st).

Definition raise {A} (e : exn) : M A := fun st => (inl e, st).

Definition bind {A B} (c : M A) (k : A -> M B) : M B :=
  fun st =>
    match c st with
    | (inl e, st') => (inl e, st')
    | (inr a, st') => k a st'
    end.

Definition lift {A} (r : result A) : M A :=
  match r with
  | inl e => raise e
  | inr a => ret a
  end.

(** [try: body / except Exception as e: handler(e)] *)
Definition try_except {A} (body : M A) (handler : exn -> M A) : M A :=
  fun st =>
    match body st with
    | (inl e, st') => handler e st'
    | (inr a, st') => (inr a, st')
    end.

Definition enter (s : Stage) : M unit :=
  fun st => (inr tt,
             mk_state (world st) (List.app (stages st) [s])
                      (historical_results st)).

Definition call_backend (r : Request) : M pyval :=
  fun st =>
    let (res, w) := chat_completions_create r (world st) in
    (res, mk_state w (stages st) (historical_results st)).

Definition now : M datetime :=
  fun st =>
    let (t, w) := datetime_now (world st) in
    (inr t, mk_state w (stages st) (historical_results st)).

Notation "x <- c ;; k" := (bind c (fun x => k))
  (at level 100, c at next level, right associativity).
Notation "' p <- c ;; k" := (bind c (fun x => let 'p := x in k))
  (at level 100, p pattern, c at next level, right associativity).

(** [str(v)] *)
Definition py_str (v : pyval) : string :=
  match v with
  | PStr s => s
  | PBool b => PyVal.str_of_bool b
  | PNone => "None"
  | PInt z => PyStr.of_Z z
  | _ => repr v
  end.

(** The items [enumerate(v)] goes through; [TypeError] when [v] is not
    iterable.  A string yields its characters, a dict its keys. *)
Definition py_iter (v : pyval) : result (list pyval) :=
  match v with
  | PList l => inr l
  | PStr s =>
      inr (map (fun c => PStr (String c EmptyString)) (list_ascii_of_string s))
  | PDict d => inr (map (fun kv => PStr (fst kv)) d)
  | _ => inl TypeError
  end.

(** [LLMService._calculate_age] *)
Definition _calculate_age (date_of_birth : string) : M Z :=
  dob <- lift (Strptime.strptime_ymd date_of_birth) ;;
  today <- now ;;
  ret (age_on today dob).

(** [LLMService._extract_patient_context] *)
Definition _extract_patient_context (patient : Patient) : M string :=
  age <- _calculate_age (date_of_birth patient) ;;
  let context_parts :=
    [ "Patient Information:";
      "- Name: " ++ first_name patient ++ " " ++ last_name patient;
      "- Age: " ++ PyStr.of_Z age ++ " years";
      "- Gender: " ++ gender patient;
      "- Date of Birth: " ++ date_of_birth patient;
      nl ++ "Current Prescription:";
      "- Medication: " ++ medication (prescription patient);
      "- Dosage: " ++ dosage (prescription patient);
      "- Frequency: " ++ frequency (prescription patient);
      "- Duration: " ++ duration (prescription patient);
      nl ++ "Visit Notes:" ] in
  let notes :=
    map (fun '(i, note) => PyStr.of_Z i ++ ". " ++ note)
        (enumerate 1 (visit_notes patient)) in
  ret (PyStr.join nl (List.app context_parts notes)).

(** [LLMService._generate_base_answer] *)
Definition _generate_base_answer (self : LLMService)
  (patient_context : string) (question : Question) (model : ModelType)
  : M (pyval * pyval) :=
  _ <- enter StageActor ;;
  if negb (client self) then ret (_simulate_answer patient_context question)
  else
    let few_shot_prompt :=
      _build_few_shot_prompt self (few_shot_examples self) in
    result <- call_backend
                (ActorRequest model few_shot_prompt patient_context question) ;;
    answer <- lift (PyVal.getitem result "answer") ;;
    let answer :=
      match q_type question with
      | text => PStr (py_str answer)
      | boolean =>
          match answer with
          | PStr s =>
              PBool (existsb (String.eqb (PyStr.lower s)) ["true"; "yes"; "1"])
          | _ => PBool (PyVal.truthy answer)
          end
      end in
    reasoning <- lift (PyVal.getitem result "reasoning") ;;
    ret (answer, reasoning).

(** [LLMService._critic_evaluate_answer] *)
Definition _critic_evaluate_answer (self : LLMService)
  (patient_context : string) (question : Question)
  (proposed_answer reasoning : pyval) : M (pyval * pyval) :=
  _ <- enter StageCritic ;;
  if negb (enable_actor_critic self) || negb (client self)
  then ret (PFloat PyFloat.lit_0_9, PList [])
  else
    result <- call_backend
                (CriticRequest patient_context (q_content question)
                   (py_str proposed_answer) (py_str reasoning)) ;;
    confidence_score <- lift (PyVal.getitem result "confidence_score") ;;
    improvements <- lift (PyVal.get result "improvements" (PList [])) ;;
    ret (confidence_score, improvements).

(** [LLMService._refine_answer_with_feedback] *)
Definition _refine_answer_with_feedback (self : LLMService)
  (patient_context : string) (question : Question)
  (original_answer improvements : pyval) : M (pyval * pyval) :=
  _ <- enter StageRefiner ;;
  if negb (client self)
  then ret (original_answer,
            PStr "Answer maintained (no LLM client available for refinement)")
  else
    items <- lift (py_iter improvements) ;;
    let feedback :=
      PyStr.join nl
        (map (fun '(i, imp) => PyStr.of_Z (i + 1) ++ ". " ++ py_str imp)
             (enumerate 0 items)) in
    result <- call_backend
                (RefineRequest patient_context question
                   (py_str original_answer) feedback) ;;
    answer <- lift (PyVal.getitem result "refined_answer") ;;
    let answer :=
      match q_type question with
      | text => PStr (py_str answer)
      | boolean =>
          match answer with
          | PStr s =>
              PBool (existsb (String.eqb (PyStr.lower s)) ["true"; "yes"; "1"])
          | _ => PBool (PyVal.truthy answer)
          end
      end in
    reasoning <- lift (PyVal.getitem result "reasoning") ;;
    ret (answer, reasoning).

(** The context handed to the stages: the patient context, followed by
    the previously answered questions when there are any. *)
Definition with_previous_answers (patient_context : string)
  (previous_answers : option (Dict.t answer_value)) : string :=
  match previous_answers with
  | Some ((k, v) :: d) =>
      let context_parts :=
        [patient_context; nl ++ "### Previously Answered Questions:"] in
      let lines :=
        map (fun '(key, value) => "- " ++ key ++ ": " ++ Answer.str value)
            ((k, v) :: d) in
      PyStr.join nl (List.app context_parts lines)
  | _ => patient_context
  end.

(** [LLMService.generate_answer_with_confidence] *)
Definition generate_answer_with_confidence (self : LLMService)
  (patient : Patient) (question : Question)
  (previous_answers : option (Dict.t answer_value))
  : M AnswerWithConfidence :=
  patient_context <- _extract_patient_context patient ;;
  let patient_context :=
    with_previous_answers patient_context previous_answers in
  '(answer_value, reasoning) <-
    _generate_base_answer self patient_context question STANDARD ;;
  '(confidence, improvements) <-
    _critic_evaluate_answer self patient_context question
      answer_value reasoning ;;
  low <- lift (PyVal.lt_float confidence PyFloat.lit_0_8) ;;
  '(answer_value, reasoning, confidence) <-
    (if low && PyVal.truthy improvements && enable_actor_critic self
     then
       '(answer_value, reasoning) <-
         _refine_answer_with_feedback self patient_context question
           answer_value improvements ;;
       '(confidence, _) <-
         _critic_evaluate_answer self patient_context question
           answer_value reasoning ;;
       ret (answer_value, reasoning, confidence)
     else ret (answer_value, reasoning, confidence)) ;;
  lift (mk_answer lax question answer_value
          (if enable_confidence self then confidence
           else PFloat PyFloat.lit_1_0)
          reasoning
          (if PyVal.truthy improvements then improvements else PNone)).

(** Whether the loop of [process_questions_batch] skips [question]:
    [question.visible_if and not self._evaluate_condition(...)]. *)
Definition skipped (question : Question)
  (answered_questions : Dict.t answer_value) : bool :=
  match q_visible_if question with
  | None => false
  | Some condition =>
      negb (PyStr.is_empty condition)
      && negb (_evaluate_condition condition answered_questions)
  end.

(** The loop of [LLMService.process_questions_batch], from the state
    ([answers_with_confidence], [answered_questions]). *)
Fixpoint batch_loop (self : LLMService) (patient : Patient)
  (questions : list Question)
  (answers_with_confidence : list AnswerWithConfidence)
  (answered_questions : Dict.t answer_value)
  : M (list AnswerWithConfidence * Dict.t answer_value) :=
  match questions with
  | [] => ret (answers_with_confidence, answered_questions)
  | question :: rest =>
      if skipped question answered_questions
      then batch_loop self patient rest
             answers_with_confidence answered_questions
      else
        answer <- generate_answer_with_confidence self patient question
                    (Some answered_questions) ;;
        batch_loop self patient rest
          (List.app answers_with_confidence [answer])
          (Dict.set answered_questions (q_key question) (a_value answer))
  end.

(** [LLMService.process_questions_batch] *)
Definition process_questions_batch (self : LLMService) (patient : Patient)
  (questions : list Question) : M (list AnswerWithConfidence) :=
  '(answers_with_confidence, _) <-
    batch_loop self patient questions [] Dict.empty ;;
  ret answers_with_confidence.

(** ** The evaluation harness *)

(** [id(test_case)] *)
Variable object_id : TestCase -> Z.

(** [str(e)] for an exception. *)
Variable exn_message : exn -> string.

(** [f"{x:.2%}"] *)
Variable format_percent : pyfloat -> string.

Definition test_case_id (test_case : TestCase) : string :=
  q_key (tc_question test_case) ++ "_" ++ PyStr.of_Z (object_id test_case).

(** [EvaluationPipeline.evaluate_single_test] *)
Definition evaluate_single_test (self : EvaluationPipeline)
  (test_case : TestCase) : M EvaluationResult :=
  start_time <- now ;;
  try_except
    (answer <- generate_answer_with_confidence (llm_service self)
                 (tc_patient test_case) (tc_question test_case) None ;;
     stop <- now ;;
     let response_time_ms := PyNum.elapsed_ms start_time stop in
     let is_correct :=
       _check_answer_correctness (a_value answer)
         (tc_expected_answer test_case)
         (tc_acceptable_variations test_case) in
     reasoning_quality <-
       lift (_evaluate_reasoning_quality (a_reasoning answer)
               (tc_reasoning test_case)) ;;
     ret (mk_result
            (test_case_id test_case)
            (q_key (tc_question test_case))
            (tc_expected_answer test_case)
            (a_value answer)
            (a_confidence answer)
            is_correct
            (is_correct
             || Answer.mem (a_value answer)
                  (match tc_acceptable_variations test_case with
                   | Some l => l
                   | None => []
                   end))
            reasoning_quality
            response_time_ms
            None))
    (fun e =>
       stop <- now ;;
       ret (mk_result
              (test_case_id test_case)
              (q_key (tc_question test_case))
              (tc_expected_answer test_case)
              (VStr "")
              PyFloat.lit_0_0
              false
              false
              PyFloat.lit_0_0
              (PyNum.elapsed_ms start_time stop)
              (Some (exn_message e)))).

(** [self.historical_results.append(result)] *)
Definition record_history (r : EvaluationResult) : M unit :=
  fun st =>
    (inr tt,
     mk_state (world st) (stages st)
              (List.app (historical_results st) [r])).

(** The loop of [run_full_evaluation] over the test cases. *)
Fixpoint run_test_cases (self : EvaluationPipeline)
  (cases : list TestCase) (results : list EvaluationResult)
  : M (list EvaluationResult) :=
  match cases with
  | [] => ret results
  | test_case :: rest =>
      r <- evaluate_single_test self test_case ;;
      _ <- record_history r ;;
      run_test_cases self rest (List.app results [r])
  end.

Definition new_category : CategoryStats :=
  mk_stats 0 0 PyFloat.lit_0_0 PyFloat.lit_0_0 PyFloat.lit_0_0.

(** One pass of the inner loop of [_analyze_by_category]. *)
Definition count_in_category (categories : Dict.t CategoryStats)
  (tag : string) (r : EvaluationResult) : Dict.t CategoryStats :=
  let categories :=
    if Dict.mem categories tag then categories
    else Dict.set categories tag new_category in
  match Dict.get categories tag with
  | Some s =>
      Dict.set categories tag
        (mk_stats (cat_total s + 1)
                  (if r_is_acceptable r then cat_passed s + 1
                   else cat_passed s)
                  (cat_accuracy s)
                  (PyNum.add (cat_avg_confidence s) (r_confidence r))
                  (PyNum.add (cat_avg_response_time s)
                             (r_response_time_ms r)))
  | None => categories
  end.

(** The averages of one category. *)
Definition average_category (s : CategoryStats) : result CategoryStats :=
  if 0 <? cat_total s then
    match PyNum.truediv_int (cat_passed s) (cat_total s),
          PyNum.truediv_float_int (cat_avg_confidence s) (cat_total s),
          PyNum.truediv_float_int (cat_avg_response_time s) (cat_total s)
    with
    | inr acc, inr conf, inr time =>
        inr (mk_stats (cat_total s) (cat_passed s) acc conf time)
    | inl e, _, _ | _, inl e, _ | _, _, inl e => inl e
    end
  else inr s.

Fixpoint average_categories (d : Dict.t CategoryStats)
  : result (Dict.t CategoryStats) :=
  match d with
  | [] => inr []
  | (tag, s) :: d' =>
      match average_category s with
      | inl e => inl e
      | inr s' =>
          match average_categories d' with
          | inl e => inl e
          | inr r => inr ((tag, s') :: r)
          end
      end
  end.

(** [EvaluationPipeline._analyze_by_category] *)
Definition _analyze_by_category (self : EvaluationPipeline)
  (results : list EvaluationResult) : result (Dict.t CategoryStats) :=
  let categories :=
    fold_left
      (fun categories '(test_case, r) =>
         fold_left (fun categories tag => count_in_category categories tag r)
                   (tc_tags test_case) categories)
      (combine (test_cases self) results) Dict.empty in
  average_categories categories.

Definition len {A} (l : list A) : Z := Z.of_nat (List.length l).

(** [EvaluationPipeline._identify_problem_areas] *)
Definition _identify_problem_areas (results : list EvaluationResult)
  (categories : Dict.t CategoryStats) : list string :=
  let low :=
    flat_map
      (fun '(category, metrics) =>
         if PyFloat.lt (cat_accuracy metrics) PyFloat.lit_0_8
         then ["Low accuracy in " ++ category ++ ": "
               ++ format_percent (cat_accuracy metrics)]
         else [])
      categories in
  let overconfident :=
    filter (fun r => negb (r_is_acceptable r)
                     && PyFloat.lt PyNum.lit_0_7 (r_confidence r))
           results in
  let over :=
    if PyFloat.lt (PyNum.mul_int_float (len results) PyNum.lit_0_1)
                  (PyFloat.of_Z (len overconfident))
    then ["Model is overconfident on " ++ PyStr.of_Z (len overconfident)
          ++ " incorrect answers"]
    else [] in
  let slow_responses :=
    filter (fun r => PyFloat.lt (PyFloat.of_Z 5000) (r_response_time_ms r))
           results in
  let slow :=
    match slow_responses with
    | [] => []
    | _ => [PyStr.of_Z (len slow_responses)
            ++ " responses took over 5 seconds"]
    end in
  List.app low (List.app over slow).

(** [EvaluationPipeline._generate_recommendations] *)
Definition _generate_recommendations (accuracy calibration_error : pyfloat)
  (problem_areas : list string) : list string :=
  let mentions word :=
    existsb (fun p => PyStr.contains word (PyStr.lower p)) problem_areas in
  List.app
    (if PyFloat.lt accuracy PyFloat.lit_0_9
     then ["Consider adding more few-shot examples for better accuracy"]
     else [])
    (List.app
       (if PyFloat.lt PyNum.lit_0_15 calibration_error
        then ["Confidence scores need calibration - consider adjusting the critic model"]
        else [])
       (List.app
          (if mentions "bmi"
           then ["Add specific training examples for BMI calculations and interpretations"]
           else [])
          (List.app
             (if mentions "boolean"
              then ["Improve boolean question handling with clearer decision criteria"]
              else [])
             (if 3 <? len problem_areas
              then ["Consider fine-tuning the model on medical prior authorization data"]
              else [])))).

(** [EvaluationPipeline.run_full_evaluation] *)
Definition run_full_evaluation (self : EvaluationPipeline)
  : M EvaluationReport :=
  results <- run_test_cases self (test_cases self) [] ;;
  let total_tests := len results in
  let passed := len (filter r_is_acceptable results) in
  let failed := total_tests - passed in
  accuracy <- lift (if 0 <? total_tests
                    then PyNum.truediv_int passed total_tests
                    else inr PyFloat.lit_0_0) ;;
  let confidences :=
    filter (PyFloat.lt PyFloat.lit_0_0) (map r_confidence results) in
  avg_confidence <- lift (match confidences with
                          | [] => inr PyFloat.lit_0_0
                          | _ => PyNum.mean confidences
                          end) ;;
  let calibration_error := PyNum.abs (PyNum.sub avg_confidence accuracy) in
  let response_times := map r_response_time_ms results in
  avg_response_time <- lift (match response_times with
                             | [] => inr PyFloat.lit_0_0
                             | _ => PyNum.mean response_times
                             end) ;;
  results_by_category <- lift (_analyze_by_category self results) ;;
  let problem_areas :=
    _identify_problem_areas results results_by_category in
  let recommendations :=
    _generate_recommendations accuracy calibration_error problem_areas in
  timestamp <- now ;;
  ret (mk_report timestamp total_tests passed failed accuracy
         avg_confidence calibration_error avg_response_time
         results_by_category problem_areas recommendations).

(** ** Notions used in the statements *)

(** The rest of a list after its longest prefix of elements that satisfy
    [p]. *)
Fixpoint drop_while {A} (p : A -> bool) (l : list A) : list A :=
  match l with
  | x :: l' => if p x then drop_while p l' else l
  | [] => []
  end.

(** Total length of the parts of a split. *)
Fixpoint total_length (l : list string) : nat :=
  match l with
  | [] => 0
  | p :: l' => String.length p + total_length l'
  end.

(** The text of a clause: [{key}], whitespace, [=], whitespace, value. *)
Definition clause_text (key ws1 ws2 value : string) : string :=
  "{" ++ key ++ "}" ++ ws1 ++ "=" ++ ws2 ++ value.

Definition all_chars (p : ascii -> bool) (s : string) : bool :=
  forallb p (list_ascii_of_string s).

(** Number of times the refinement step was entered. *)
Definition refinements (l : list Stage) : nat :=
  List.length (filter (Stage_eqb StageRefiner) l).

(** A value of the declared type of the question. *)
Definition well_typed (t : QuestionType) (v : pyval) : bool :=
  match t with
  | text => PyVal.is_str v
  | boolean => PyVal.is_bool v
  end.

(** The post-processing of a backend answer, as both
    [_generate_base_answer] and [_refine_answer_with_feedback] write it:
    [str(answer)] for a text question; for a boolean question a string is
    true iff its lower-case form is one of ["true"], ["yes"], ["1"], and
    any other value goes through [bool(answer)]. *)
Definition coerce_to_type (t : QuestionType) (answer : pyval) : pyval :=
  match t with
  | text => PStr (py_str answer)
  | boolean =>
      match answer with
      | PStr s =>
          PBool (existsb (String.eqb (PyStr.lower s)) ["true"; "yes"; "1"])
      | _ => PBool (PyVal.truthy answer)
      end
  end.

(** The feedback text of the refinement prompt. *)
Definition feedback_text (items : list pyval) : string :=
  PyStr.join nl
    (map (fun '(i, imp) => PyStr.of_Z (i + 1) ++ ". " ++ py_str imp)
         (enumerate 0 items)).

(** The [AnswerWithConfidence(...)] call that ends the pipeline. *)
Definition final_answer (self : LLMService) (question : Question)
  (value confidence reasoning improvements : pyval)
  : result AnswerWithConfidence :=
  mk_answer lax question value
    (if enable_confidence self then confidence else PFloat PyFloat.lit_1_0)
    reasoning
    (if PyVal.truthy improvements then improvements else PNone).

(** The service with [enable_confidence] set to [b]. *)
Definition with_confidence_flag (b : bool) (self : LLMService) : LLMService :=
  mk_service (client self) b (enable_actor_critic self)
    (enable_few_shot self) (enable_reasoning self) (few_shot_examples self).

(** The pipeline up to, and without, the construction of the returned
    object: value, reasoning, final confidence and the improvements of the
    first critic pass. *)
Definition pipeline_before_return (self : LLMService) (patient : Patient)
  (question : Question) (previous_answers : option (Dict.t answer_value))
  : M (pyval * pyval * pyval * pyval) :=
  patient_context <- _extract_patient_context patient ;;
  let patient_context :=
    with_previous_answers patient_context previous_answers in
  '(answer_value, reasoning) <-
    _generate_base_answer self patient_context question STANDARD ;;
  '(confidence, improvements) <-
    _critic_evaluate_answer self patient_context question
      answer_value reasoning ;;
  low <- lift (PyVal.lt_float confidence PyFloat.lit_0_8) ;;
  if low && PyVal.truthy improvements && enable_actor_critic self
  then
    '(answer_value, reasoning) <-
      _refine_answer_with_feedback self patient_context question
        answer_value improvements ;;
    '(confidence, _) <-
      _critic_evaluate_answer self patient_context question
        answer_value reasoning ;;
    ret (answer_value, reasoning, confidence, improvements)
  else ret (answer_value, reasoning, confidence, improvements).

(** An answer with its confidence replaced. *)
Definition with_confidence (f : pyfloat) (a : AnswerWithConfidence)
  : AnswerWithConfidence :=
  mk_answer_record (a_question a) (a_value a) f (a_reasoning a)
    (a_improvements a).

(** A result recorded for a test case whose evaluation raised. *)
Definition failed_result (r : EvaluationResult) (message : string) : Prop :=
  r_error r = Some message
  /\ r_is_correct r = false
  /\ r_is_acceptable r = false
  /\ r_confidence r = PyFloat.lit_0_0
  /\ r_actual r = VStr "".

(** ** Notions used in the further properties *)

(** The stages of a full run, in order. *)
Definition all_stages : list Stage :=
  [StageActor; StageCritic; StageRefiner; StageCritic].

(** [subsequence l1 l2]: [l1] is [l2] with some elements left out, the
    others in the same order. *)
Inductive subsequence {A : Type} : list A -> list A -> Prop :=
| subsequence_nil : subsequence [] []
| subsequence_skip : forall x l1 l2,
    subsequence l1 l2 -> subsequence l1 (x :: l2)
| subsequence_keep : forall x l1 l2,
    subsequence l1 l2 -> subsequence (x :: l1) (x :: l2).

(** The value of the most recent of [answers] whose question has key [k]. *)
Definition last_answer_for (k : string) (answers : list AnswerWithConfidence)
  : option answer_value :=
  option_map a_value
    (find (fun a => String.eqb k (q_key (a_question a))) (rev answers)).


(** A finite float between 0.0 and 1.0. *)
Definition in_unit_interval (f : pyfloat) : Prop :=
  exists q, f = FFin q /\ (0 <= q)%Q /\ (q <= 1)%Q.

(** What holds of every result the harness records: acceptable and correct
    coincide, and both scores are between 0.0 and 1.0. *)
Definition consistent_result (r : EvaluationResult) : Prop :=
  r_is_acceptable r = r_is_correct r
  /\ in_unit_interval (r_confidence r)
  /\ in_unit_interval (r_reasoning_quality r).

(** The counts of a category that has been counted at least once. *)
Definition counted_category (s : CategoryStats) : Prop :=
  1 <= cat_total s /\ 0 <= cat_passed s <= cat_total s.

(** The statistics of a category of a report. *)
Definition consistent_category (s : CategoryStats) : Prop :=
  counted_category s /\ in_unit_interval (cat_accuracy s).

(** The pipeline raises on the test case, whatever the state it starts
    from. *)
Definition always_raises (self : EvaluationPipeline) (test_case : TestCase)
  : Prop :=
  forall st, exists e st1,
    generate_answer_with_confidence (llm_service self)
      (tc_patient test_case) (tc_question test_case) None st = (inl e, st1).

(** ** The endpoints that call the service and the harness *)

(** One line of the stream: the object that [generate_answers_stream]
    passes to [json.dumps]. *)
Record StreamLine : Type := mk_line {
  line_question_key : string;
  line_question_content : string;
  line_value : answer_value;
  line_confidence : pyfloat;
  line_reasoning : option string
}.

(** [generate_answers_stream] of [main.py]: the lines yielded, in order,
    and the exception that ended the generator, if one did. *)
Fixpoint generate_answers_stream (self : LLMService) (patient : Patient)
  (questions : list Question) (yielded : list StreamLine)
  (st : State World) : list StreamLine * option exn * State World :=
  match questions with
  | [] => (yielded, None, st)
  | question :: rest =>
      match generate_answer_with_confidence self patient question None st
      with
      | (inl e, st') => (yielded, Some e, st')
      | (inr answer, st') =>
          generate_answers_stream self patient rest
            (List.app yielded
               [mk_line (q_key question) (q_content question)
                  (a_value answer) (a_confidence answer)
                  (a_reasoning answer)])
            st'
      end
  end.

(** [l[i:]]: a negative [i] counts from the end, and an [i] outside the
    list is clipped to it. *)
Definition slice_from {A} (i : Z) (l : list A) : list A :=
  let start := if i <? 0 then Z.max (i + len l) 0 else Z.min i (len l) in
  skipn (Z.to_nat start) l.

(** An entry of [recent_results]. *)
Record HistoryEntry : Type := mk_entry {
  h_test_case_id : string;
  h_question_key : string;
  h_is_correct : bool;
  h_confidence : pyfloat;
  h_response_time_ms : pyfloat
}.

(** [get_evaluation_history] of [main.py]: [total_evaluations] and
    [recent_results]. *)
Definition get_evaluation_history (limit : Z) (st : State World)
  : Z * list HistoryEntry :=
  let recent_results :=
    match historical_results st with
    | [] => []
    | _ => slice_from (- limit) (historical_results st)
    end in
  (len (historical_results st),
   map (fun r => mk_entry (r_test_case_id r) (r_question_key r)
                   (r_is_correct r) (r_confidence r) (r_response_time_ms r))
       recent_results).
(** * Properties *)

(** ** Strings *)

Lemma length_string_of_list_ascii (l : list ascii) :
  String.length (string_of_list_ascii l) = List.length l.
Proof. induction l; simpl; congruence. Qed.

Lemma prefix_length (a s : string) :
  prefix a s = true -> (String.length a <= String.length s)%nat.
Proof.
  revert s; induction a as [|c a IH]; intros [|d s]; simpl; try lia;
    try discriminate.
  destruct (ascii_dec c d); [|discriminate].
  intros H; apply IH in H; lia.
Qed.

(** ** The UTF-8 codec *)

Lemma char_byte (a : ascii) : Utf8.char (Utf8.byte a) = a.
Proof.
  unfold Utf8.char, Utf8.byte. rewrite N2Z.id. apply ascii_N_embedding.
Qed.

Ltac bounds :=
  repeat match goal with
    | H : _ && _ = true |- _ => apply andb_true_iff in H; destruct H
    | H : Utf8.cont _ = true |- _ => unfold Utf8.cont in H
    | H : (_ <=? _) = true |- _ => apply Z.leb_le in H
    | H : (_ <? _) = true |- _ => apply Z.ltb_lt in H
    end.

Ltac pick_branch :=
  repeat match goal with
    | |- context [?x <? ?y] =>
        let E := fresh in
        destruct (x <? y) eqn:E;
        [apply Z.ltb_lt in E; try lia|apply Z.ltb_ge in E; try lia]
    end.

Lemma encode_single (a : ascii) :
  Utf8.encode_point (Utf8.single a) = String a EmptyString.
Proof.
  pose proof (N_ascii_bounded a) as Hb.
  assert (Ha : 0 <= Utf8.byte a) by (unfold Utf8.byte; lia).
  unfold Utf8.single.
  destruct (Utf8.byte a <? 0x80) eqn:E;
    [apply Z.ltb_lt in E|apply Z.ltb_ge in E];
    unfold Utf8.encode_point; pick_branch.
  - now rewrite char_byte.
  - now rewrite Z.opp_involutive, char_byte.
Qed.

Lemma encode_point2 a b p :
  Utf8.point2 a b = Some p ->
  Utf8.encode_point p = String a (String b EmptyString).
Proof.
  unfold Utf8.point2. cbv zeta.
  destruct (_ && _) eqn:E; [|discriminate]. intros H. injection H as <-.
  bounds.
  set (A := Utf8.byte a) in *. set (B := Utf8.byte b) in *.
  unfold Utf8.encode_point. pick_branch.
  replace (0xC0 + ((A - 0xC0) * 64 + (B - 0x80)) / 64) with A
    by (symmetry; Z.div_mod_to_equations; lia).
  replace (0x80 + ((A - 0xC0) * 64 + (B - 0x80)) mod 64) with B
    by (symmetry; Z.div_mod_to_equations; lia).
  unfold A, B. now rewrite !char_byte.
Qed.

Lemma encode_point3 a b c p :
  Utf8.point3 a b c = Some p ->
  Utf8.encode_point p = String a (String b (String c EmptyString)).
Proof.
  unfold Utf8.point3. cbv zeta.
  destruct (_ && _) eqn:E; [|discriminate]. intros H. injection H as <-.
  bounds.
  set (A := Utf8.byte a) in *. set (B := Utf8.byte b) in *.
  set (C := Utf8.byte c) in *.
  set (p := ((A - 0xE0) * 64 + (B - 0x80)) * 64 + (C - 0x80)) in *.
  unfold Utf8.encode_point. pick_branch.
  replace (0xE0 + p / 4096) with A
    by (symmetry; unfold p; Z.div_mod_to_equations; lia).
  replace (0x80 + (p / 64) mod 64) with B
    by (symmetry; unfold p; Z.div_mod_to_equations; lia).
  replace (0x80 + p mod 64) with C
    by (symmetry; unfold p; Z.div_mod_to_equations; lia).
  unfold A, B, C. now rewrite !char_byte.
Qed.

Lemma encode_point4 a b c d p :
  Utf8.point4 a b c d = Some p ->
  Utf8.encode_point p
  = String a (String b (String c (String d EmptyString))).
Proof.
  unfold Utf8.point4. cbv zeta.
  destruct (_ && _) eqn:E; [|discriminate]. intros H. injection H as <-.
  bounds.
  set (A := Utf8.byte a) in *. set (B := Utf8.byte b) in *.
  set (C := Utf8.byte c) in *. set (D := Utf8.byte d) in *.
  set (p := (((A - 0xF0) * 64 + (B - 0x80)) * 64 + (C - 0x80)) * 64
            + (D - 0x80)) in *.
  unfold Utf8.encode_point. pick_branch.
  replace (0xF0 + p / 262144) with A
    by (symmetry; unfold p; Z.div_mod_to_equations; lia).
  replace (0x80 + (p / 4096) mod 64) with B
    by (symmetry; unfold p; Z.div_mod_to_equations; lia).
  replace (0x80 + (p / 64) mod 64) with C
    by (symmetry; unfold p; Z.div_mod_to_equations; lia).
  replace (0x80 + p mod 64) with D
    by (symmetry; unfold p; Z.div_mod_to_equations; lia).
  unfold A, B, C, D. now rewrite !char_byte.
Qed.

(** Decoding loses nothing: the code points of a text encode to the
    text. *)
Lemma encode_decode (s : string) : Utf8.encode (Utf8.decode s) = s.
Proof.
  assert (H : forall n s, (String.length s <= n)%nat ->
                          Utf8.encode (Utf8.decode s) = s).
  { clear s. induction n as [|n IH]; intros s Hn.
    - destruct s; [reflexivity|cbn in Hn; lia].
    - destruct s as [|a s1]; [reflexivity|].
      cbn [String.length] in Hn.
      assert (Hsingle : Utf8.encode (Utf8.single a :: Utf8.decode s1)
                        = String a s1).
      { cbn [Utf8.encode]. rewrite encode_single, IH by lia. reflexivity. }
      destruct s1 as [|b s2]; [exact Hsingle|].
      cbn [String.length] in Hn.
      change (Utf8.decode (String a (String b s2)))
        with (match Utf8.point2 a b with
              | Some p => p :: Utf8.decode s2
              | None =>
                  match s2 with
                  | String c s3 =>
                      match Utf8.point3 a b c with
                      | Some p => p :: Utf8.decode s3
                      | None =>
                          match s3 with
                          | String d s4 =>
                              match Utf8.point4 a b c d with
                              | Some p => p :: Utf8.decode s4
                              | None =>
                                  Utf8.single a
                                  :: Utf8.decode (String b s2)
                              end
                          | EmptyString =>
                              Utf8.single a :: Utf8.decode (String b s2)
                          end
                      end
                  | EmptyString =>
                      Utf8.single a :: Utf8.decode (String b s2)
                  end
              end).
      destruct (Utf8.point2 a b) as [p|] eqn:E2.
      { cbn [Utf8.encode]. rewrite (encode_point2 _ _ _ E2), IH by lia.
        reflexivity. }
      destruct s2 as [|c s3]; [exact Hsingle|].
      cbn [String.length] in Hn.
      destruct (Utf8.point3 a b c) as [p|] eqn:E3.
      { cbn [Utf8.encode]. rewrite (encode_point3 _ _ _ _ E3), IH by lia.
        reflexivity. }
      destruct s3 as [|d s4]; [exact Hsingle|].
      cbn [String.length] in Hn.
      destruct (Utf8.point4 a b c d) as [p|] eqn:E4; [|exact Hsingle].
      cbn [Utf8.encode]. rewrite (encode_point4 _ _ _ _ _ E4), IH by lia.
      reflexivity. }
  apply (H (String.length s)). lia.
Qed.

(** ** White space *)

Lemma lstrip_equation (s : string) :
  PyStr.lstrip s =
  match s with
  | EmptyString => EmptyString
  | String a s1 =>
      if PyStr.space1 a then PyStr.lstrip s1
      else
        match s1 with
        | String b s2 =>
            if PyStr.space2 a b then PyStr.lstrip s2
            else
              match s2 with
              | String c s3 =>
                  if PyStr.space3 a b c then PyStr.lstrip s3 else s
              | EmptyString => s
              end
        | EmptyString => s
        end
  end.
Proof. destruct s; reflexivity. Qed.

(** Induction along [lstrip]: a white space character of one, two or three
    bytes is dropped, or the text starts with none and is left alone. *)
Lemma lstrip_cases (P : string -> Prop) :
  (forall s, PyStr.lstrip s = s -> P s) ->
  (forall a s1, PyStr.space1 a = true -> P s1 -> P (String a s1)) ->
  (forall a b s2,
      PyStr.space1 a = false -> PyStr.space2 a b = true ->
      P s2 -> P (String a (String b s2))) ->
  (forall a b c s3,
      PyStr.space1 a = false -> PyStr.space2 a b = false ->
      PyStr.space3 a b c = true ->
      P s3 -> P (String a (String b (String c s3)))) ->
  forall s, P s.
Proof.
  intros Hfix H1 H2 H3 s.
  assert (H : forall n s, (String.length s <= n)%nat -> P s).
  { clear s. induction n as [|n IH]; intros s Hn.
    - destruct s; [|cbn in Hn; lia]. apply Hfix. reflexivity.
    - destruct s as [|a s1]; [apply Hfix; reflexivity|].
      cbn [String.length] in Hn.
      destruct (PyStr.space1 a) eqn:E1; [apply H1; [exact E1|apply IH; lia]|].
      destruct s1 as [|b s2];
        [apply Hfix; rewrite lstrip_equation, E1; reflexivity|].
      cbn [String.length] in Hn.
      destruct (PyStr.space2 a b) eqn:E2;
        [apply H2; [exact E1|exact E2|apply IH; lia]|].
      destruct s2 as [|c s3];
        [apply Hfix; rewrite lstrip_equation, E1, E2; reflexivity|].
      cbn [String.length] in Hn.
      destruct (PyStr.space3 a b c) eqn:E3;
        [apply H3; [exact E1|exact E2|exact E3|apply IH; lia]|].
      apply Hfix. rewrite lstrip_equation, E1, E2, E3. reflexivity. }
  apply (H (String.length s)). lia.
Qed.

Lemma lstrip_space1 a s1 :
  PyStr.space1 a = true -> PyStr.lstrip (String a s1) = PyStr.lstrip s1.
Proof. intros E. rewrite lstrip_equation, E. reflexivity. Qed.

Lemma lstrip_space2 a b s2 :
  PyStr.space1 a = false -> PyStr.space2 a b = true ->
  PyStr.lstrip (String a (String b s2)) = PyStr.lstrip s2.
Proof. intros E1 E2. rewrite lstrip_equation, E1, E2. reflexivity. Qed.

Lemma lstrip_space3 a b c s3 :
  PyStr.space1 a = false -> PyStr.space2 a b = false ->
  PyStr.space3 a b c = true ->
  PyStr.lstrip (String a (String b (String c s3))) = PyStr.lstrip s3.
Proof. intros E1 E2 E3. rewrite lstrip_equation, E1, E2, E3. reflexivity. Qed.

Lemma lstrip_length (s : string) :
  (String.length (PyStr.lstrip s) <= String.length s)%nat.
Proof.
  induction s using lstrip_cases.
  - rewrite H. lia.
  - rewrite lstrip_space1 by assumption. cbn [String.length]. lia.
  - rewrite lstrip_space2 by assumption. cbn [String.length]. lia.
  - rewrite lstrip_space3 by assumption. cbn [String.length]. lia.
Qed.

Lemma rstrip_length (s : string) :
  (String.length (PyStr.rstrip s) <= String.length s)%nat.
Proof.
  induction s as [|a s IH]; [cbn; lia|].
  cbn [PyStr.rstrip].
  destruct (PyStr.is_empty (PyStr.lstrip (String a s)));
    cbn [String.length]; lia.
Qed.

Lemma strip_length (s : string) :
  (String.length (PyStr.strip s) <= String.length s)%nat.
Proof.
  unfold PyStr.strip.
  pose proof (rstrip_length (PyStr.lstrip s)); pose proof (lstrip_length s).
  lia.
Qed.
Lemma byte_range (a : ascii) : 0 <= Utf8.byte a < 256.
Proof.
  unfold Utf8.byte. pose proof (N_ascii_bounded a). lia.
Qed.

(** The bytes of a white space character: an ASCII byte, or a lead byte
    followed by continuation bytes. *)
Lemma space1_ascii a : PyStr.space1 a = true -> Utf8.byte a < 0x80.
Proof.
  unfold PyStr.space1. intros H. apply andb_true_iff in H.
  destruct H as [H _]. now apply Z.ltb_lt in H.
Qed.

Lemma space2_bytes a b :
  PyStr.space2 a b = true ->
  0xC0 <= Utf8.byte a /\ Utf8.cont b = true.
Proof.
  unfold PyStr.space2, Utf8.point2. cbv zeta.
  destruct (_ && _) eqn:E; [|discriminate]. intros _.
  repeat (apply andb_true_iff in E; destruct E as [E ?]).
  apply Z.leb_le in E. auto.
Qed.

Lemma space3_bytes a b c :
  PyStr.space3 a b c = true ->
  0xC0 <= Utf8.byte a /\ Utf8.cont b = true /\ Utf8.cont c = true.
Proof.
  unfold PyStr.space3, Utf8.point3. cbv zeta.
  destruct (_ && _) eqn:E; [|discriminate]. intros _.
  repeat (apply andb_true_iff in E; destruct E as [E ?]).
  apply Z.leb_le in E. repeat split; auto. lia.
Qed.

(** ** White space, byte by byte and character by character *)

Lemma ranges_above (ranges : list (Z * Z)) (p bound : Z) :
  forallb (fun '(lo, hi) => (bound <=? lo)) ranges = true ->
  p < bound -> Unicode.in_ranges ranges p = false.
Proof.
  intros H Hp. unfold Unicode.in_ranges.
  induction ranges as [|[lo hi] ranges IH]; [reflexivity|].
  cbn [forallb existsb] in *. apply andb_true_iff in H.
  destruct H as [H1 H2]. apply Z.leb_le in H1.
  rewrite IH by exact H2.
  destruct (lo <=? p) eqn:E; [apply Z.leb_le in E; lia|reflexivity].
Qed.

Lemma not_space_negative (p : Z) : p < 0 -> Unicode.is_space p = false.
Proof.
  intros Hp. apply (ranges_above _ p 0); [reflexivity|exact Hp].
Qed.

Lemma not_space_astral (p : Z) : 0x10000 <= p -> Unicode.is_space p = false.
Proof.
  intros Hp. unfold Unicode.is_space, Unicode.in_ranges, Unicode.white_space.
  cbn [existsb].
  repeat match goal with
    | |- context [?x <=? p] =>
        destruct (x <=? p) eqn:?; cbn [andb orb]
    | |- context [p <=? ?x] =>
        let E := fresh in
        destruct (p <=? x) eqn:E; [apply Z.leb_le in E; lia|]; cbn [andb orb]
    end; reflexivity.
Qed.

Lemma point2_not_point3 a b c p :
  Utf8.point3 a b c = Some p -> Utf8.point2 a b = None.
Proof.
  unfold Utf8.point3, Utf8.point2. cbv zeta.
  destruct (_ && _) eqn:E; [|discriminate]. intros _. bounds.
  destruct (0xC0 <=? Utf8.byte a); cbn [andb]; [|reflexivity].
  destruct (Utf8.byte a <? 0xE0) eqn:E2; [apply Z.ltb_lt in E2; lia|].
  reflexivity.
Qed.

Lemma point2_not_ascii a b :
  Utf8.byte a < 0xC0 -> Utf8.point2 a b = None.
Proof.
  intros Ha. unfold Utf8.point2. cbv zeta.
  destruct (0xC0 <=? Utf8.byte a) eqn:E; [apply Z.leb_le in E; lia|].
  reflexivity.
Qed.

Lemma point3_not_ascii a b c :
  Utf8.byte a < 0xC0 -> Utf8.point3 a b c = None.
Proof.
  intros Ha. unfold Utf8.point3. cbv zeta.
  destruct (0xE0 <=? Utf8.byte a) eqn:E; [apply Z.leb_le in E; lia|].
  reflexivity.
Qed.

Lemma point4_not_ascii a b c d :
  Utf8.byte a < 0xC0 -> Utf8.point4 a b c d = None.
Proof.
  intros Ha. unfold Utf8.point4. cbv zeta.
  destruct (0xF0 <=? Utf8.byte a) eqn:E; [apply Z.leb_le in E; lia|].
  reflexivity.
Qed.

Lemma point4_astral a b c d p :
  Utf8.point4 a b c d = Some p -> 0x10000 <= p.
Proof.
  unfold Utf8.point4. cbv zeta.
  destruct (_ && _) eqn:E; [|discriminate]. intros H. injection H as <-.
  bounds. assumption.
Qed.

Lemma decode_equation (s : string) :
  Utf8.decode s =
  match s with
  | EmptyString => []
  | String a s1 =>
      match s1 with
      | String b s2 =>
          match Utf8.point2 a b with
          | Some p => p :: Utf8.decode s2
          | None =>
              match s2 with
              | String c s3 =>
                  match Utf8.point3 a b c with
                  | Some p => p :: Utf8.decode s3
                  | None =>
                      match s3 with
                      | String d s4 =>
                          match Utf8.point4 a b c d with
                          | Some p => p :: Utf8.decode s4
                          | None => Utf8.single a :: Utf8.decode s1
                          end
                      | EmptyString => Utf8.single a :: Utf8.decode s1
                      end
                  end
              | EmptyString => Utf8.single a :: Utf8.decode s1
              end
          end
      | EmptyString => [Utf8.single a]
      end
  end.
Proof. destruct s as [|a [|b [|c [|d s4]]]]; reflexivity. Qed.

(** A byte that is no lead byte is a character by itself. *)
Lemma decode_ascii a s :
  Utf8.byte a < 0xC0 ->
  Utf8.decode (String a s) = Utf8.single a :: Utf8.decode s.
Proof.
  intros Ha. rewrite decode_equation.
  destruct s as [|b [|c [|d s4]]]; try reflexivity;
    rewrite ?point2_not_ascii, ?point3_not_ascii, ?point4_not_ascii by exact Ha;
    reflexivity.
Qed.

(** [lstrip] drops the leading white space characters: in code points, the
    longest prefix of white space. *)
Lemma lstrip_decode (s : string) :
  Utf8.decode (PyStr.lstrip s)
  = drop_while Unicode.is_space (Utf8.decode s).
Proof.
  induction s using lstrip_cases.
  - rewrite H. rewrite lstrip_equation in H.
    rewrite decode_equation.
    destruct s as [|a s1]; [reflexivity|].
    destruct (PyStr.space1 a) eqn:E1.
    { pose proof (lstrip_length s1). rewrite H in H0.
      cbn [String.length] in H0. lia. }
    assert (Hsingle : Unicode.is_space (Utf8.single a) = false).
    { unfold Utf8.single. unfold PyStr.space1 in E1.
      destruct (Utf8.byte a <? 0x80) eqn:E; [exact E1|].
      apply Z.ltb_ge in E. apply not_space_negative. lia. }
    destruct s1 as [|b s2]; [cbn [drop_while]; now rewrite Hsingle|].
    destruct (PyStr.space2 a b) eqn:E2.
    { pose proof (lstrip_length s2). rewrite H in H0.
      cbn [String.length] in H0. lia. }
    unfold PyStr.space2 in E2.
    destruct (Utf8.point2 a b) as [p|] eqn:P2;
      [cbn [drop_while]; now rewrite E2|].
    destruct s2 as [|c s3]; [cbn [drop_while]; now rewrite Hsingle|].
    destruct (PyStr.space3 a b c) eqn:E3.
    { pose proof (lstrip_length s3). rewrite H in H0.
      cbn [String.length] in H0. lia. }
    unfold PyStr.space3 in E3.
    destruct (Utf8.point3 a b c) as [p|] eqn:P3;
      [cbn [drop_while]; now rewrite E3|].
    destruct s3 as [|d s4]; [cbn [drop_while]; now rewrite Hsingle|].
    destruct (Utf8.point4 a b c d) as [p|] eqn:P4;
      [|cbn [drop_while]; now rewrite Hsingle].
    cbn [drop_while].
    now rewrite (not_space_astral p (point4_astral _ _ _ _ _ P4)).
  - rewrite lstrip_space1 by assumption.
    pose proof (space1_ascii _ H) as Ha.
    rewrite decode_ascii by lia. cbn [drop_while].
    unfold PyStr.space1 in H. apply andb_true_iff in H. destruct H as [H1 H2].
    unfold Utf8.single. rewrite H1, H2. exact IHs.
  - rewrite lstrip_space2 by assumption.
    rewrite (decode_equation (String a (String b s))).
    unfold PyStr.space2 in H0.
    destruct (Utf8.point2 a b) as [p|]; [|discriminate].
    cbn [drop_while]. rewrite H0. exact IHs.
  - rewrite lstrip_space3 by assumption.
    rewrite (decode_equation (String a (String b (String c s)))).
    unfold PyStr.space3 in H1.
    destruct (Utf8.point3 a b c) as [p|] eqn:P3; [|discriminate].
    rewrite (point2_not_point3 _ _ _ _ P3).
    cbn [drop_while]. rewrite H1. exact IHs.
Qed.

Lemma split_aux_nonempty sep s skip cur :
  (1 <= List.length (PyStr.split_aux sep s skip cur))%nat.
Proof.
  revert skip cur; induction s as [|c s IH]; intros skip cur;
    cbn [PyStr.split_aux]; [simpl; lia|].
  destruct skip; [|apply IH].
  destruct (prefix sep (String c s)); [cbn [List.length]; lia|apply IH].
Qed.

(** The parts and the separators between them make up the text. *)
Lemma split_aux_total sep s skip cur :
  (1 <= String.length sep)%nat ->
  (skip <= String.length s)%nat ->
  (total_length (PyStr.split_aux sep s skip cur)
   + (List.length (PyStr.split_aux sep s skip cur) - 1) * String.length sep
   + skip
   = List.length cur + String.length s)%nat.
Proof.
  intros Hsep; revert skip cur.
  induction s as [|c s IH]; intros skip cur Hskip;
    cbn [PyStr.split_aux String.length] in *.
  - cbn [total_length List.length].
    rewrite length_string_of_list_ascii, length_rev. lia.
  - destruct skip as [|k].
    + destruct (prefix sep (String c s)) eqn:Hp.
      * apply prefix_length in Hp; cbn [String.length] in Hp.
        cbn [total_length List.length].
        rewrite length_string_of_list_ascii, length_rev.
        specialize (IH (String.length sep - 1)%nat [] ltac:(lia)).
        pose proof (split_aux_nonempty sep s (String.length sep - 1) []).
        cbn [List.length] in IH.
        set (parts := PyStr.split_aux sep s (String.length sep - 1) []) in *.
        nia.
      * specialize (IH 0%nat (c :: cur) ltac:(lia)).
        cbn [List.length] in IH. lia.
    + specialize (IH k cur ltac:(lia)). lia.
Qed.

Lemma contains_split_aux sep s cur :
  (1 <= String.length sep)%nat ->
  PyStr.contains sep s = true ->
  (2 <= List.length (PyStr.split_aux sep s 0 cur))%nat.
Proof.
  intros Hsep; revert cur; induction s as [|c s IH]; intros cur H.
  - destruct sep; simpl in *; [lia|discriminate].
  - cbn [PyStr.contains] in H. cbn [PyStr.split_aux].
    destruct (prefix sep (String c s)).
    + cbn [List.length].
      pose proof (split_aux_nonempty sep s (String.length sep - 1) []). lia.
    + simpl in H. apply IH; exact H.
Qed.

Lemma total_length_In p l : In p l -> (String.length p <= total_length l)%nat.
Proof.
  induction l as [|q l IH]; simpl; [tauto|].
  intros [->|H]; [lia|]. apply IH in H; lia.
Qed.

(** A part of a conjunction is shorter than the conjunction. *)
Lemma split_part_shorter sep s p :
  (1 <= String.length sep)%nat ->
  PyStr.contains sep s = true ->
  In p (PyStr.split sep s) ->
  (String.length p + String.length sep <= String.length s)%nat.
Proof.
  intros Hsep Hc Hin. unfold PyStr.split in *.
  pose proof (split_aux_total sep s 0 [] Hsep ltac:(lia)) as Ht.
  pose proof (contains_split_aux sep s [] Hsep Hc) as H2.
  pose proof (total_length_In _ _ Hin) as Hp.
  simpl in Ht.
  set (parts := PyStr.split_aux sep s 0 []) in *.
  nia.
Qed.

(** ** Fuel of the condition evaluator *)

Lemma all_parts_ext (f g : string -> option bool) parts :
  (forall p, In p parts -> f p = g p) ->
  all_parts f parts = all_parts g parts.
Proof.
  induction parts as [|p ps IH]; simpl; intros H; [reflexivity|].
  rewrite (H p (or_introl eq_refl)).
  destruct (g p) as [[|]|]; auto.
Qed.

Lemma all_parts_forallb (f : string -> option bool) (g : string -> bool) parts :
  (forall p, In p parts -> f p = Some (g p)) ->
  all_parts f parts = Some (forallb g parts).
Proof.
  induction parts as [|p ps IH]; simpl; intros H; [reflexivity|].
  rewrite (H p (or_introl eq_refl)).
  destruct (g p); simpl; auto.
Qed.

(** With more fuel than the condition is long, the evaluator returns, and
    its result does not depend on the fuel. *)
Lemma evaluate_condition_fuel_enough (n : nat) :
  forall condition answers,
    (String.length condition < n)%nat ->
    exists b,
      forall n', (String.length condition < n')%nat ->
                 evaluate_condition_fuel n' condition answers = Some b.
Proof.
  induction n as [|n IH]; intros condition answers Hn; [lia|].
  destruct (PyStr.is_empty condition) eqn:He.
  { exists true. intros [|n'] Hn'; [lia|]. simpl. now rewrite He. }
  destruct (PyStr.contains " and " condition) eqn:Hc.
  - assert (Hparts : forall p, In p (PyStr.split " and " condition) ->
              (String.length (PyStr.strip p) < n)%nat).
    { intros p Hp.
      pose proof (split_part_shorter " and " condition p ltac:(simpl; lia) Hc Hp).
      pose proof (strip_length p). simpl in *. lia. }
    set (g := fun p => match evaluate_condition_fuel n (PyStr.strip p) answers with
                       | Some b => b | None => true end).
    exists (forallb g (PyStr.split " and " condition)).
    intros [|n'] Hn'; [lia|]. simpl. rewrite He, Hc.
    apply all_parts_forallb. intros p Hp.
    destruct (IH (PyStr.strip p) answers (Hparts p Hp)) as [b Hb].
    pose proof (split_part_shorter " and " condition p ltac:(simpl; lia) Hc Hp).
    pose proof (strip_length p).
    unfold g. rewrite (Hb n (Hparts p Hp)).
    apply Hb. simpl in *. lia.
  - exists (match re_match_condition (PyStr.strip condition) with
            | Some (key, group2) =>
                match Dict.get answers key with
                | None => false
                | Some actual =>
                    String.eqb (PyStr.lower (Answer.str actual))
                               (PyStr.lower (PyStr.strip group2))
                end
            | None => true
            end).
    intros [|n'] Hn'; [lia|]. simpl. rewrite He, Hc.
    destruct (re_match_condition (PyStr.strip condition)) as [[key g2]|];
      [|reflexivity].
    destruct (Dict.get answers key); reflexivity.
Qed.

(** The evaluator returns: the length of the condition is fuel enough. *)
Lemma evaluate_condition_fuel_total condition answers :
  evaluate_condition_fuel (S (String.length condition)) condition answers
  = Some (_evaluate_condition condition answers).
Proof.
  destruct (evaluate_condition_fuel_enough (S (String.length condition))
              condition answers ltac:(lia)) as [b Hb].
  unfold _evaluate_condition.
  now rewrite (Hb (S (String.length condition)) ltac:(lia)).
Qed.

Lemma evaluate_condition_fuel_any n condition answers :
  (String.length condition < n)%nat ->
  evaluate_condition_fuel n condition answers
  = Some (_evaluate_condition condition answers).
Proof.
  intros Hn.
  destruct (evaluate_condition_fuel_enough n condition answers Hn) as [b Hb].
  rewrite (Hb n Hn). rewrite <- (Hb (S (String.length condition))); [|lia].
  apply evaluate_condition_fuel_total.
Qed.

(** The recursive equation of [_evaluate_condition], as the source has
    it. *)
Lemma evaluate_condition_equation condition answers :
  _evaluate_condition condition answers =
  if PyStr.is_empty condition then true
  else if PyStr.contains " and " condition then
    forallb (fun part => _evaluate_condition (PyStr.strip part) answers)
            (PyStr.split " and " condition)
  else
    match re_match_condition (PyStr.strip condition) with
    | Some (key, group2) =>
        match Dict.get answers key with
        | None => false
        | Some actual =>
            String.eqb (PyStr.lower (Answer.str actual))
                       (PyStr.lower (PyStr.strip group2))
        end
    | None => true
    end.
Proof.
  pose proof (evaluate_condition_fuel_total condition answers) as H.
  cbn [evaluate_condition_fuel] in H.
  destruct (PyStr.is_empty condition) eqn:He; [congruence|].
  destruct (PyStr.contains " and " condition) eqn:Hc.
  - rewrite (all_parts_forallb _
               (fun part => _evaluate_condition (PyStr.strip part) answers))
      in H; [congruence|].
    intros p Hp. apply evaluate_condition_fuel_any.
    pose proof (split_part_shorter " and " condition p ltac:(simpl; lia) Hc Hp).
    pose proof (strip_length p). simpl in *. lia.
  - destruct (re_match_condition (PyStr.strip condition)) as [[key g2]|];
      [|congruence].
    destruct (Dict.get answers key); congruence.
Qed.

(** ** Well-formed clauses *)

Lemma append_assoc (a b c : string) : (a ++ b) ++ c = a ++ (b ++ c).
Proof. induction a; simpl; congruence. Qed.

Lemma append_empty_r (a : string) : a ++ "" = a.
Proof. induction a; simpl; congruence. Qed.

Lemma span_app keep (a b : string) :
  (forall c, In c (list_ascii_of_string a) -> keep c = true) ->
  match b with
  | EmptyString => True
  | String c _ => keep c = false
  end ->
  PyStr.span keep (a ++ b) = (a, b).
Proof.
  intros Ha Hb. induction a as [|c a IH]; simpl in *.
  - destruct b as [|c b]; simpl; [reflexivity|]. now rewrite Hb.
  - rewrite (Ha c (or_introl eq_refl)).
    rewrite IH; [reflexivity|]. intros d Hd; apply Ha; now right.
Qed.

Lemma all_chars_In p s :
  all_chars p s = true ->
  forall c, In c (list_ascii_of_string s) -> p c = true.
Proof. unfold all_chars. rewrite forallb_forall. auto. Qed.

Lemma lstrip_fixed (s : string) :
  String.length (PyStr.lstrip s) = String.length s -> PyStr.lstrip s = s.
Proof.
  destruct s using lstrip_cases; [auto|..]; intros Hl.
  - rewrite lstrip_space1 in Hl by assumption.
    pose proof (lstrip_length s). cbn [String.length] in Hl. lia.
  - rewrite lstrip_space2 in Hl by assumption.
    pose proof (lstrip_length s). cbn [String.length] in Hl. lia.
  - rewrite lstrip_space3 in Hl by assumption.
    pose proof (lstrip_length s). cbn [String.length] in Hl. lia.
Qed.

Lemma strip_fixed (s : string) :
  PyStr.strip s = s -> PyStr.lstrip s = s /\ PyStr.rstrip s = s.
Proof.
  unfold PyStr.strip. intros H.
  assert (Hl : PyStr.lstrip s = s).
  { apply lstrip_fixed.
    pose proof (rstrip_length (PyStr.lstrip s)). pose proof (lstrip_length s).
    rewrite H in *. lia. }
  split; [exact Hl|]. now rewrite Hl in H.
Qed.

(** A byte below [0xC0] that is not ASCII white space starts no white
    space character: the text is not stripped from the left. *)
Lemma lstrip_no_lead a s :
  PyStr.space1 a = false -> Utf8.byte a < 0xC0 ->
  PyStr.lstrip (String a s) = String a s.
Proof.
  intros E1 Ha. rewrite lstrip_equation, E1.
  destruct s as [|b s2]; [reflexivity|].
  destruct (PyStr.space2 a b) eqn:E2;
    [apply space2_bytes in E2; lia|].
  destruct s2 as [|c s3]; [reflexivity|].
  destruct (PyStr.space3 a b c) eqn:E3;
    [apply space3_bytes in E3; lia|reflexivity].
Qed.

Lemma lstrip_cont b s :
  Utf8.cont b = true -> PyStr.lstrip (String b s) = String b s.
Proof.
  intros Hc. unfold Utf8.cont in Hc. apply andb_true_iff in Hc.
  destruct Hc as [H1 H2]. apply Z.leb_le in H1. apply Z.ltb_lt in H2.
  apply lstrip_no_lead; [|lia].
  unfold PyStr.space1. destruct (Utf8.byte b <? 0x80) eqn:E; [|reflexivity].
  apply Z.ltb_lt in E. lia.
Qed.

(** White space in front of a text is stripped with it. *)
Lemma lstrip_app_blank (ws r : string) :
  PyStr.lstrip ws = "" -> PyStr.lstrip (ws ++ r) = PyStr.lstrip r.
Proof.
  induction ws using lstrip_cases; intros Hb.
  - rewrite H in Hb. subst. reflexivity.
  - rewrite lstrip_space1 in Hb by assumption.
    cbn [append]. rewrite lstrip_space1 by assumption. auto.
  - rewrite lstrip_space2 in Hb by assumption.
    cbn [append]. rewrite lstrip_space2 by assumption. auto.
  - rewrite lstrip_space3 in Hb by assumption.
    cbn [append]. rewrite lstrip_space3 by assumption. auto.
Qed.

(** A text that is white space throughout has no ASCII byte other than
    white space. *)
Lemma blank_bytes (s : string) :
  PyStr.lstrip s = "" ->
  forall x, In x (list_ascii_of_string s) ->
            PyStr.space1 x = true \/ 0x80 <= Utf8.byte x.
Proof.
  induction s using lstrip_cases; intros Hb x Hx.
  - rewrite H in Hb. subst. contradiction.
  - rewrite lstrip_space1 in Hb by assumption.
    destruct Hx as [<-|Hx]; auto.
  - rewrite lstrip_space2 in Hb by assumption.
    apply space2_bytes in H0. destruct H0 as [Ha Hc].
    unfold Utf8.cont in Hc. apply andb_true_iff in Hc.
    destruct Hc as [Hc _]. apply Z.leb_le in Hc.
    destruct Hx as [<-|[<-|Hx]]; auto; right; lia.
  - rewrite lstrip_space3 in Hb by assumption.
    apply space3_bytes in H1. destruct H1 as (Ha & Hb' & Hc).
    unfold Utf8.cont in Hb', Hc.
    apply andb_true_iff in Hb'. destruct Hb' as [Hb' _].
    apply andb_true_iff in Hc. destruct Hc as [Hc _].
    apply Z.leb_le in Hb'. apply Z.leb_le in Hc.
    destruct Hx as [<-|[<-|[<-|Hx]]]; auto; right; lia.
Qed.

Lemma in_app_string (x : ascii) (a b : string) :
  In x (list_ascii_of_string b) -> In x (list_ascii_of_string (a ++ b)).
Proof. induction a; cbn; auto. Qed.

(** Nothing is stripped from the right beyond an ASCII character that is
    not white space. *)
Lemma rstrip_app_char (x : string) (c : ascii) (y : string) :
  PyStr.space1 c = false -> Utf8.byte c < 0x80 ->
  PyStr.rstrip (x ++ String c y) = x ++ String c (PyStr.rstrip y).
Proof.
  intros E1 Hc.
  assert (Hne : forall z, PyStr.lstrip (z ++ String c y) <> "").
  { intros z Hb.
    destruct (blank_bytes _ Hb c) as [H|H].
    - apply in_app_string. left. reflexivity.
    - congruence.
    - lia. }
  induction x as [|a x IH]; cbn [append PyStr.rstrip].
  - pose proof (Hne "") as H. cbn [append] in H.
    destruct (PyStr.lstrip (String c y)); [congruence|reflexivity].
  - pose proof (Hne (String a x)) as H. cbn [append] in H.
    destruct (PyStr.lstrip (String a (x ++ String c y)));
      [congruence|]. cbn [PyStr.is_empty]. now rewrite IH.
Qed.

(** White space in front of a text that is stripped stays. *)
Lemma rstrip_app_blank (ws v : string) :
  PyStr.lstrip ws = "" -> PyStr.strip v = v -> v <> "" ->
  PyStr.rstrip (ws ++ v) = ws ++ v.
Proof.
  intros Hb Hs Hv. destruct (strip_fixed _ Hs) as [Hl Hr].
  assert (Hkeep : forall a s, PyStr.lstrip (String a s) <> "" ->
            PyStr.rstrip (String a s) = String a (PyStr.rstrip s)).
  { intros a s H. cbn [PyStr.rstrip].
    destruct (PyStr.lstrip (String a s)); [congruence|reflexivity]. }
  induction ws using lstrip_cases.
  - rewrite H in Hb. subst. exact Hr.
  - rewrite lstrip_space1 in Hb by assumption.
    cbn [append]. rewrite Hkeep; [now rewrite IHws|].
    change (String a (ws ++ v)) with (String a ws ++ v).
    rewrite lstrip_app_blank, Hl by (now rewrite lstrip_space1). exact Hv.
  - rewrite lstrip_space2 in Hb by assumption.
    pose proof (space2_bytes _ _ H0) as [_ Hc].
    cbn [append]. rewrite Hkeep.
    + rewrite Hkeep by (rewrite lstrip_cont by exact Hc; discriminate).
      now rewrite IHws.
    + change (String a (String b (ws ++ v)))
        with (String a (String b ws) ++ v).
      rewrite lstrip_app_blank, Hl by (now rewrite lstrip_space2). exact Hv.
  - rewrite lstrip_space3 in Hb by assumption.
    pose proof (space3_bytes _ _ _ H1) as (_ & Hc1 & Hc2).
    cbn [append]. rewrite Hkeep.
    + rewrite Hkeep by (rewrite lstrip_cont by exact Hc1; discriminate).
      rewrite Hkeep by (rewrite lstrip_cont by exact Hc2; discriminate).
      now rewrite IHws.
    + change (String a (String b (String c (ws ++ v))))
        with (String a (String b (String c ws)) ++ v).
      rewrite lstrip_app_blank, Hl by (now rewrite lstrip_space3). exact Hv.
Qed.

Lemma lstrip_idempotent (s : string) :
  PyStr.lstrip (PyStr.lstrip s) = PyStr.lstrip s.
Proof.
  induction s using lstrip_cases.
  - now rewrite H.
  - now rewrite lstrip_space1.
  - now rewrite lstrip_space2.
  - now rewrite lstrip_space3.
Qed.

(** A text that strips to nothing is white space throughout. *)
Lemma strip_blank (ws : string) :
  PyStr.strip ws = "" -> PyStr.lstrip ws = "".
Proof.
  unfold PyStr.strip. intros H.
  destruct (PyStr.lstrip ws) as [|a s] eqn:E; [reflexivity|].
  cbn [PyStr.rstrip] in H. rewrite <- E, lstrip_idempotent, E in H.
  discriminate.
Qed.

(** The pattern matches a well-formed clause, with the key as group 1 and
    the value as group 2. *)
Lemma re_match_clause key ws1 ws2 value :
  key <> EmptyString ->
  all_chars (fun c => negb (Ascii.eqb c "}")) key = true ->
  PyStr.strip ws1 = "" ->
  PyStr.strip ws2 = "" ->
  value <> EmptyString ->
  PyStr.strip value = value ->
  all_chars PyStr.not_newline value = true ->
  PyStr.strip (clause_text key ws1 ws2 value) = clause_text key ws1 ws2 value
  /\ re_match_condition (clause_text key ws1 ws2 value) = Some (key, value).
Proof.
  intros Hk Hkb Hw1 Hw2 Hv Hs Hnl.
  apply strip_blank in Hw1. apply strip_blank in Hw2.
  destruct (strip_fixed _ Hs) as [Hl Hr].
  assert (Heq : PyStr.lstrip ("=" ++ ws2 ++ value) = "=" ++ ws2 ++ value)
    by (apply lstrip_no_lead; [reflexivity|cbv; reflexivity]).
  split.
  - unfold PyStr.strip, clause_text.
    replace (PyStr.lstrip ("{" ++ key ++ "}" ++ ws1 ++ "=" ++ ws2 ++ value))
      with ("{" ++ key ++ "}" ++ ws1 ++ "=" ++ ws2 ++ value)
      by (symmetry; apply lstrip_no_lead; [reflexivity|cbv; reflexivity]).
    change ("{" ++ key ++ "}" ++ ws1 ++ "=" ++ ws2 ++ value)
      with (("{" ++ key) ++ "}" ++ ws1 ++ String "=" (ws2 ++ value)).
    rewrite <- !append_assoc.
    rewrite rstrip_app_char by (cbv; reflexivity).
    now rewrite rstrip_app_blank.
  - unfold clause_text. cbn [append re_match_condition].
    rewrite (span_app _ key) by
      (try apply all_chars_In; auto; reflexivity).
    destruct key as [|k key']; [congruence|].
    rewrite lstrip_app_blank by exact Hw1.
    change (String "=" (ws2 ++ value)) with ("=" ++ ws2 ++ value).
    rewrite Heq. cbn [append].
    rewrite lstrip_app_blank, Hl by exact Hw2.
    destruct value as [|t tail]; [congruence|].
    f_equal. f_equal.
    rewrite <- (append_empty_r (String t tail)) at 1.
    rewrite (span_app _ (String t tail) EmptyString); auto.
    apply all_chars_In; auto.
Qed.

(** ** Visibility conditions *)

Lemma contains_nonempty sub s :
  PyStr.contains sub s = true -> sub <> EmptyString -> s <> EmptyString.
Proof.
  intros H Hsub ->. destruct sub; [congruence|discriminate].
Qed.

(** C3. Visibility-condition evaluation: an empty or absent condition
    makes the question visible; a condition that contains [" and "] is
    split on it and holds iff every part, stripped, holds; and a clause
    [{key} = value], with any white space around the equals sign, holds
    iff [key] is in the accumulated map and the lower-case form of the
    string form of its value is the lower-case form of [value] -- a clause
    whose key is absent is false.  White space and lower case are those of
    [str.strip], the [\s] of the pattern and [str.lower]. *)
Theorem evaluate_condition_grammar (answers : Dict.t answer_value) :
  _evaluate_condition "" answers = true
  /\ (forall question,
        q_visible_if question = None \/ q_visible_if question = Some "" ->
        skipped question answers = false)
  /\ (forall condition,
        PyStr.contains " and " condition = true ->
        _evaluate_condition condition answers
        = forallb (fun part => _evaluate_condition (PyStr.strip part) answers)
                  (PyStr.split " and " condition))
  /\ (forall key ws1 ws2 value,
        key <> "" ->
        all_chars (fun c => negb (Ascii.eqb c "}")) key = true ->
        PyStr.strip ws1 = "" ->
        PyStr.strip ws2 = "" ->
        value <> "" ->
        PyStr.strip value = value ->
        all_chars PyStr.not_newline value = true ->
        PyStr.contains " and " (clause_text key ws1 ws2 value) = false ->
        _evaluate_condition (clause_text key ws1 ws2 value) answers
        = match Dict.get answers key with
          | None => false
          | Some actual =>
              String.eqb (PyStr.lower (Answer.str actual)) (PyStr.lower value)
          end).
Proof.
  split; [reflexivity|]. split; [|split].
  - intros question [H|H]; unfold skipped; now rewrite H.
  - intros condition Hc. rewrite evaluate_condition_equation, Hc.
    destruct condition; [discriminate|reflexivity].
  - intros key ws1 ws2 value Hk Hkb Hw1 Hw2 Hv Hs Hnl Hc.
    destruct (re_match_clause key ws1 ws2 value Hk Hkb Hw1 Hw2 Hv Hs Hnl)
      as [Hstrip Hmatch].
    rewrite evaluate_condition_equation, Hc, Hstrip, Hmatch, Hs.
    reflexivity.
Qed.

(** C9. A non-empty condition without [" and "] that does not match the
    pattern [{key} = value] evaluates to true, so a question carrying it
    is not skipped. *)
Theorem unparsable_condition_is_visible (condition : string)
  (answers : Dict.t answer_value) :
  condition <> "" ->
  PyStr.contains " and " condition = false ->
  re_match_condition (PyStr.strip condition) = None ->
  _evaluate_condition condition answers = true
  /\ (forall question,
        q_visible_if question = Some condition ->
        skipped question answers = false).
Proof.
  intros Hne Hc Hm.
  assert (H : _evaluate_condition condition answers = true).
  { rewrite evaluate_condition_equation, Hc, Hm.
    now destruct (PyStr.is_empty condition). }
  split; [exact H|].
  intros question Hq. unfold skipped. rewrite Hq, H.
  now rewrite andb_false_r.
Qed.

(** ** Stages of the pipeline *)

Lemma refinements_app l1 l2 :
  refinements (List.app l1 l2) = (refinements l1 + refinements l2)%nat.
Proof. unfold refinements. now rewrite filter_app, length_app. Qed.

Lemma coerce_well_typed t answer : well_typed t (coerce_to_type t answer) = true.
Proof. destruct t; simpl; [reflexivity|]. now destruct answer. Qed.

Lemma simulate_well_typed ctx question :
  well_typed (q_type question) (fst (_simulate_answer ctx question)) = true.
Proof.
  unfold _simulate_answer. destruct (q_type question); simpl.
  - destruct (String.eqb (q_key question) "age"); [reflexivity|].
    destruct (String.eqb (q_key question) "bmi"); reflexivity.
  - destruct (_ && _); reflexivity.
Qed.

Lemma extract_stages patient st r st' :
  _extract_patient_context patient st = (r, st') ->
  stages st' = stages st /\ historical_results st' = historical_results st.
Proof.
  unfold _extract_patient_context, _calculate_age, bind, now, lift, ret, raise.
  destruct (Strptime.strptime_ymd (date_of_birth patient)).
  - intros [= <- <-]. auto.
  - destruct (datetime_now (world st)). intros [= <- <-]. auto.
Qed.

Lemma base_stages self ctx question model st r st' :
  _generate_base_answer self ctx question model st = (r, st') ->
  stages st' = List.app (stages st) [StageActor]
  /\ historical_results st' = historical_results st.
Proof.
  unfold _generate_base_answer, bind, enter, call_backend, ret; cbn [stages world].
  destruct (client self); cbn [negb].
  - destruct (chat_completions_create _ _) as [[e|doc] w].
    + intros [= <- <-]; auto.
    + unfold lift, raise, ret.
      destruct (PyVal.getitem doc "answer"); [intros [= <- <-]; auto|].
      destruct (PyVal.getitem doc "reasoning"); intros [= <- <-]; auto.
  - intros [= <- <-]; auto.
Qed.

Lemma critic_stages self ctx question v reasoning st r st' :
  _critic_evaluate_answer self ctx question v reasoning st = (r, st') ->
  stages st' = List.app (stages st) [StageCritic]
  /\ historical_results st' = historical_results st.
Proof.
  unfold _critic_evaluate_answer, bind, enter, call_backend, ret;
    cbn [stages world].
  destruct (negb (enable_actor_critic self) || negb (client self)).
  - intros [= <- <-]; auto.
  - destruct (chat_completions_create _ _) as [[e|doc] w].
    + intros [= <- <-]; auto.
    + unfold lift, raise, ret.
      destruct (PyVal.getitem doc "confidence_score");
        [intros [= <- <-]; auto|].
      destruct (PyVal.get doc "improvements" (PList []));
        intros [= <- <-]; auto.
Qed.

Lemma refine_stages self ctx question v improvements st r st' :
  _refine_answer_with_feedback self ctx question v improvements st = (r, st') ->
  stages st' = List.app (stages st) [StageRefiner]
  /\ historical_results st' = historical_results st.
Proof.
  unfold _refine_answer_with_feedback, bind, enter, call_backend, ret;
    cbn [stages world].
  destruct (client self); cbn [negb].
  - unfold lift at 1. destruct (py_iter improvements); unfold raise, ret.
    + intros [= <- <-]; auto.
    + destruct (chat_completions_create _ _) as [[e|doc] w].
      * intros [= <- <-]; auto.
      * unfold lift, raise, ret.
        destruct (PyVal.getitem doc "refined_answer");
          [intros [= <- <-]; auto|].
        destruct (PyVal.getitem doc "reasoning"); intros [= <- <-]; auto.
  - intros [= <- <-]; auto.
Qed.

(** What the actor returns with a client: the backend's [answer] field
    post-processed, and its [reasoning] field. *)
Lemma base_answer_with_client self ctx question model st doc w answer reasoning :
  client self = true ->
  chat_completions_create
    (ActorRequest model (_build_few_shot_prompt self (few_shot_examples self))
       ctx question) (world st) = (inr doc, w) ->
  PyVal.getitem doc "answer" = inr answer ->
  PyVal.getitem doc "reasoning" = inr reasoning ->
  _generate_base_answer self ctx question model st
  = (inr (coerce_to_type (q_type question) answer, reasoning),
     mk_state w (List.app (stages st) [StageActor]) (historical_results st)).
Proof.
  intros Hc Hcall Ha Hr.
  unfold _generate_base_answer, bind, enter, call_backend, ret;
    cbn [stages world historical_results].
  rewrite Hc; cbn [negb stages world historical_results].
  rewrite Hcall, Ha; cbn [lift ret]. rewrite Hr.
  reflexivity.
Qed.

Lemma base_answer_without_client self ctx question model st :
  client self = false ->
  _generate_base_answer self ctx question model st
  = (inr (_simulate_answer ctx question),
     mk_state (world st) (List.app (stages st) [StageActor])
              (historical_results st)).
Proof.
  intros Hc. unfold _generate_base_answer, bind, enter, ret.
  now rewrite Hc.
Qed.

(** What the refiner returns with a client: the backend's
    [refined_answer] field post-processed, and its [reasoning] field. *)
Lemma refined_answer_with_client self ctx question original improvements
  items st doc w answer reasoning :
  client self = true ->
  py_iter improvements = inr items ->
  chat_completions_create
    (RefineRequest ctx question (py_str original) (feedback_text items))
    (world st) = (inr doc, w) ->
  PyVal.getitem doc "refined_answer" = inr answer ->
  PyVal.getitem doc "reasoning" = inr reasoning ->
  _refine_answer_with_feedback self ctx question original improvements st
  = (inr (coerce_to_type (q_type question) answer, reasoning),
     mk_state w (List.app (stages st) [StageRefiner]) (historical_results st)).
Proof.
  intros Hc Hi Hcall Ha Hr.
  unfold _refine_answer_with_feedback, bind, enter, call_backend, ret;
    cbn [stages world historical_results].
  rewrite Hc; cbn [negb]. rewrite Hi;
    cbn [lift ret stages world historical_results].
  unfold feedback_text in Hcall. rewrite Hcall, Ha; cbn [lift ret].
  rewrite Hr. reflexivity.
Qed.

Lemma base_well_typed self ctx question model st v reasoning st' :
  _generate_base_answer self ctx question model st = (inr (v, reasoning), st') ->
  well_typed (q_type question) v = true.
Proof.
  unfold _generate_base_answer, bind, enter, call_backend, ret;
    cbn [stages world].
  destruct (client self); cbn [negb].
  - destruct (chat_completions_create _ _) as [[e|doc] w]; [discriminate|].
    unfold lift, raise, ret.
    destruct (PyVal.getitem doc "answer") as [|answer]; [discriminate|].
    destruct (PyVal.getitem doc "reasoning"); [discriminate|].
    intros H; inversion H; subst.
    apply (coerce_well_typed (q_type question) answer).
  - intros H; inversion H as [[Hv Hst]].
    pose proof (simulate_well_typed ctx question) as Ht.
    rewrite Hv in Ht. exact Ht.
Qed.

Lemma refine_well_typed self ctx question original improvements st v
  reasoning st' :
  _refine_answer_with_feedback self ctx question original improvements st
  = (inr (v, reasoning), st') ->
  well_typed (q_type question) original = true ->
  well_typed (q_type question) v = true.
Proof.
  unfold _refine_answer_with_feedback, bind, enter, call_backend, ret;
    cbn [stages world].
  destruct (client self); cbn [negb].
  - unfold lift at 1. destruct (py_iter improvements); unfold raise, ret;
      [discriminate|].
    destruct (chat_completions_create _ _) as [[e|doc] w]; [discriminate|].
    unfold lift, raise, ret.
    destruct (PyVal.getitem doc "refined_answer") as [|answer];
      [discriminate|].
    destruct (PyVal.getitem doc "reasoning"); [discriminate|].
    intros H _; inversion H; subst.
    apply (coerce_well_typed (q_type question) answer).
  - intros H Ht; inversion H; subst. exact Ht.
Qed.

(** The critic when it is bypassed. *)
Lemma critic_bypass self ctx question v reasoning st :
  enable_actor_critic self = false \/ client self = false ->
  _critic_evaluate_answer self ctx question v reasoning st
  = (inr (PFloat PyFloat.lit_0_9, PList []),
     mk_state (world st) (List.app (stages st) [StageCritic])
              (historical_results st)).
Proof.
  intros H. unfold _critic_evaluate_answer, bind, enter, ret.
  cbn [stages world historical_results].
  destruct H as [-> | ->]; cbn [negb orb]; [reflexivity|].
  now rewrite orb_true_r.
Qed.

(** ** The single-question pipeline *)

(** The pipeline from the first critic pass on. *)
Lemma pipeline_after_critic self patient question previous_answers st
  ctx0 st1 v r st2 c imps st3 low :
  _extract_patient_context patient st = (inr ctx0, st1) ->
  _generate_base_answer self (with_previous_answers ctx0 previous_answers)
    question STANDARD st1 = (inr (v, r), st2) ->
  _critic_evaluate_answer self (with_previous_answers ctx0 previous_answers)
    question v r st2 = (inr (c, imps), st3) ->
  PyVal.lt_float c PyFloat.lit_0_8 = inr low ->
  generate_answer_with_confidence self patient question previous_answers st
  = if low && PyVal.truthy imps && enable_actor_critic self then
      match _refine_answer_with_feedback self
              (with_previous_answers ctx0 previous_answers) question v imps st3
      with
      | (inl e, st4) => (inl e, st4)
      | (inr (v2, r2), st4) =>
          match _critic_evaluate_answer self
                  (with_previous_answers ctx0 previous_answers)
                  question v2 r2 st4
          with
          | (inl e, st5) => (inl e, st5)
          | (inr (c2, _), st5) =>
              (final_answer self question v2 c2 r2 imps, st5)
          end
      end
    else (final_answer self question v c r imps, st3).
Proof.
  intros H1 H2 H3 H4.
  unfold generate_answer_with_confidence, bind.
  rewrite H1, H2, H3, H4. cbn [lift ret].
  destruct (low && PyVal.truthy imps && enable_actor_critic self).
  - destruct (_refine_answer_with_feedback _ _ _ _ _ _) as [[e|[v2 r2]] st4];
      [reflexivity|].
    destruct (_critic_evaluate_answer _ _ _ v2 r2 st4) as [[e|[c2 i2]] st5];
      [reflexivity|].
    unfold ret, final_answer.
    destruct (mk_answer _ _ _ _ _ _); reflexivity.
  - unfold ret, final_answer.
    destruct (mk_answer _ _ _ _ _ _); reflexivity.
Qed.

(** Every answer the pipeline returns went through the stages. *)
Lemma pipeline_returns self patient question previous_answers st a st' :
  generate_answer_with_confidence self patient question previous_answers st
  = (inr a, st') ->
  exists ctx0 st1 v r st2 c imps st3 low,
    _extract_patient_context patient st = (inr ctx0, st1)
    /\ _generate_base_answer self
         (with_previous_answers ctx0 previous_answers)
         question STANDARD st1 = (inr (v, r), st2)
    /\ _critic_evaluate_answer self
         (with_previous_answers ctx0 previous_answers)
         question v r st2 = (inr (c, imps), st3)
    /\ PyVal.lt_float c PyFloat.lit_0_8 = inr low
    /\ ((low && PyVal.truthy imps && enable_actor_critic self = false
         /\ st' = st3
         /\ final_answer self question v c r imps = inr a)
        \/ (low && PyVal.truthy imps && enable_actor_critic self = true
            /\ exists v2 r2 st4 c2 i2,
                _refine_answer_with_feedback self
                  (with_previous_answers ctx0 previous_answers)
                  question v imps st3 = (inr (v2, r2), st4)
                /\ _critic_evaluate_answer self
                     (with_previous_answers ctx0 previous_answers)
                     question v2 r2 st4 = (inr (c2, i2), st')
                /\ final_answer self question v2 c2 r2 imps = inr a)).
Proof.
  intros H.
  destruct (_extract_patient_context patient st) as [[e|ctx0] st1] eqn:H1.
  { unfold generate_answer_with_confidence, bind in H.
    rewrite H1 in H. discriminate. }
  destruct (_generate_base_answer self
              (with_previous_answers ctx0 previous_answers)
              question STANDARD st1) as [[e|[v r]] st2] eqn:H2.
  { unfold generate_answer_with_confidence, bind in H.
    rewrite H1, H2 in H. discriminate. }
  destruct (_critic_evaluate_answer self
              (with_previous_answers ctx0 previous_answers)
              question v r st2) as [[e|[c imps]] st3] eqn:H3.
  { unfold generate_answer_with_confidence, bind in H.
    rewrite H1, H2, H3 in H. discriminate. }
  destruct (PyVal.lt_float c PyFloat.lit_0_8) as [e|low] eqn:H4.
  { unfold generate_answer_with_confidence, bind in H.
    rewrite H1, H2, H3, H4 in H. discriminate. }
  rewrite (pipeline_after_critic _ _ _ _ _ _ _ _ _ _ _ _ _ _ H1 H2 H3 H4) in H.
  exists ctx0, st1, v, r, st2, c, imps, st3, low.
  repeat (split; [reflexivity || assumption|]).
  destruct (low && PyVal.truthy imps && enable_actor_critic self).
  - right. split; [reflexivity|].
    destruct (_refine_answer_with_feedback _ _ _ _ _ _)
      as [[e|[v2 r2]] st4] eqn:H5; [discriminate|].
    destruct (_critic_evaluate_answer _ _ _ v2 r2 st4)
      as [[e|[c2 i2]] st5] eqn:H6; [discriminate|].
    exists v2, r2, st4, c2, i2. inversion H; subst.
    repeat split; reflexivity || assumption.
  - left. inversion H; subst. repeat split; reflexivity || assumption.
Qed.

Ltac stage_facts :=
  repeat match goal with
    | H : _extract_patient_context _ _ = _ |- _ =>
        apply extract_stages in H; destruct H as [? ?]
    | H : _generate_base_answer _ _ _ _ _ = _ |- _ =>
        apply base_stages in H; destruct H as [? ?]
    | H : _critic_evaluate_answer _ _ _ _ _ _ = _ |- _ =>
        apply critic_stages in H; destruct H as [? ?]
    | H : _refine_answer_with_feedback _ _ _ _ _ _ = _ |- _ =>
        apply refine_stages in H; destruct H as [? ?]
    end.

Ltac count_stages :=
  stage_facts; unfold lift, raise, ret; cbn [snd];
  repeat match goal with
    | H : stages _ = _ |- _ => rewrite H; clear H
    end;
  rewrite ?refinements_app; cbn; lia.

(** The refinement step is entered at most once, whatever happens. *)
Lemma refinement_at_most_once self patient question previous_answers st :
  (refinements
     (stages (snd (generate_answer_with_confidence self patient question
                     previous_answers st)))
   <= refinements (stages st) + 1)%nat.
Proof.
  unfold generate_answer_with_confidence, bind.
  destruct (_extract_patient_context patient st) as [[e|ctx0] st1] eqn:H1;
    [count_stages|].
  destruct (_generate_base_answer _ _ _ _ _) as [[e|[v r]] st2] eqn:H2;
    [count_stages|].
  destruct (_critic_evaluate_answer _ _ _ _ _ _) as [[e|[c imps]] st3] eqn:H3;
    [count_stages|].
  destruct (PyVal.lt_float c PyFloat.lit_0_8) as [e|low];
    cbn [lift raise ret]; [count_stages|].
  destruct (low && PyVal.truthy imps && enable_actor_critic self).
  - destruct (_refine_answer_with_feedback _ _ _ _ _ _)
      as [[e|[v2 r2]] st4] eqn:H5; [count_stages|].
    destruct (_critic_evaluate_answer _ _ _ v2 r2 st4)
      as [[e|[c2 i2]] st5] eqn:H6; [count_stages|].
    unfold ret. destruct (mk_answer _ _ _ _ _ _); cbn [lift raise ret];
      count_stages.
  - unfold ret. destruct (mk_answer _ _ _ _ _ _); cbn [lift raise ret];
      count_stages.
Qed.

(** Once the first critic pass has returned a score, the refinement step
    is entered exactly when the score is low, there are improvements and
    actor-critic mode is on. *)
Lemma refinement_count self patient question previous_answers st
  ctx0 st1 v r st2 c imps st3 low :
  _extract_patient_context patient st = (inr ctx0, st1) ->
  _generate_base_answer self (with_previous_answers ctx0 previous_answers)
    question STANDARD st1 = (inr (v, r), st2) ->
  _critic_evaluate_answer self (with_previous_answers ctx0 previous_answers)
    question v r st2 = (inr (c, imps), st3) ->
  PyVal.lt_float c PyFloat.lit_0_8 = inr low ->
  refinements
    (stages (snd (generate_answer_with_confidence self patient question
                    previous_answers st)))
  = (refinements (stages st)
     + (if low && PyVal.truthy imps && enable_actor_critic self
        then 1 else 0))%nat.
Proof.
  intros H1 H2 H3 H4.
  rewrite (pipeline_after_critic _ _ _ _ _ _ _ _ _ _ _ _ _ _ H1 H2 H3 H4).
  destruct (low && PyVal.truthy imps && enable_actor_critic self).
  - destruct (_refine_answer_with_feedback _ _ _ _ _ _)
      as [[e|[v2 r2]] st4] eqn:H5; [count_stages|].
    destruct (_critic_evaluate_answer _ _ _ v2 r2 st4)
      as [[e|[c2 i2]] st5] eqn:H6; count_stages.
  - count_stages.
Qed.

Lemma mk_answer_fields question v c r i a :
  mk_answer lax question v c r i = inr a ->
  a_question a = question
  /\ Pydantic.str_or_bool lax v = Some (a_value a)
  /\ Pydantic.float_0_1 lax c = Some (a_confidence a)
  /\ Pydantic.opt_str lax r = Some (a_reasoning a)
  /\ Pydantic.opt_str_list lax i = Some (a_improvements a).
Proof.
  unfold mk_answer.
  destruct (Pydantic.str_or_bool lax v); [|discriminate].
  destruct (Pydantic.float_0_1 lax c); [|discriminate].
  destruct (Pydantic.opt_str lax r); [|discriminate].
  destruct (Pydantic.opt_str_list lax i); [|discriminate].
  intros H; inversion H; subst; cbn. auto.
Qed.

Lemma validated_value_unchanged t v a :
  well_typed t v = true ->
  Pydantic.str_or_bool lax v = Some a ->
  Answer.to_pyval a = v.
Proof.
  destruct t, v; cbn; try discriminate; intros _ H; inversion H; reflexivity.
Qed.

Lemma validated_confidence_range c f :
  Pydantic.float_0_1 lax c = Some f ->
  exists q, f = FFin q /\ (0 <= q)%Q /\ (q <= 1)%Q.
Proof.
  unfold Pydantic.float_0_1.
  destruct (match c with PFloat f0 => Some f0 | _ => lax_float lax c end)
    as [g|]; [|discriminate].
  destruct (PyFloat.between PyFloat.lit_0_0 PyFloat.lit_1_0 g) eqn:Hb;
    [|discriminate].
  intros H; inversion H; subst.
  unfold PyFloat.between, PyFloat.lit_0_0, PyFloat.lit_1_0 in Hb.
  destruct f as [|n|q]; cbn in Hb; try discriminate.
  - destruct n; discriminate.
  - apply andb_true_iff in Hb. destruct Hb as [H0 H1].
    exists q. split; [reflexivity|].
    split; apply Qle_bool_iff; assumption.
Qed.

(** C1. The refinement step is entered at most once.  Once the actor and
    the first critic pass have returned, it is entered iff the critic's
    confidence is below 0.8, its improvements are non-empty and
    actor-critic mode is enabled; after a refinement the pipeline ends
    with the answer built from the refined value and the confidence of
    the second critic pass; and with actor-critic mode disabled the
    critic is bypassed and the returned value is the actor's first-pass
    value. *)
Theorem refinement_iff_low_confidence (self : LLMService)
  (patient : Patient) (question : Question)
  (previous_answers : option (Dict.t answer_value)) (st : State World) :
  let out :=
    generate_answer_with_confidence self patient question previous_answers st
  in
  (refinements (stages (snd out)) <= refinements (stages st) + 1)%nat
  /\ (forall l, PyVal.truthy (PList l) = true <-> l <> [])
  /\ forall ctx0 st1 v r st2 c imps st3 low,
      _extract_patient_context patient st = (inr ctx0, st1) ->
      _generate_base_answer self
        (with_previous_answers ctx0 previous_answers)
        question STANDARD st1 = (inr (v, r), st2) ->
      _critic_evaluate_answer self
        (with_previous_answers ctx0 previous_answers)
        question v r st2 = (inr (c, imps), st3) ->
      PyVal.lt_float c PyFloat.lit_0_8 = inr low ->
      (refinements (stages (snd out)) = (refinements (stages st) + 1)%nat
       <-> low = true /\ PyVal.truthy imps = true
           /\ enable_actor_critic self = true)
      /\ (forall v2 r2 st4 c2 i2 st5,
            low = true -> PyVal.truthy imps = true ->
            enable_actor_critic self = true ->
            _refine_answer_with_feedback self
              (with_previous_answers ctx0 previous_answers)
              question v imps st3 = (inr (v2, r2), st4) ->
            _critic_evaluate_answer self
              (with_previous_answers ctx0 previous_answers)
              question v2 r2 st4 = (inr (c2, i2), st5) ->
            out = (final_answer self question v2 c2 r2 imps, st5)
            /\ forall a f,
                fst out = inr a -> enable_confidence self = true ->
                c2 = PFloat f -> a_confidence a = f)
      /\ (enable_actor_critic self = false ->
          c = PFloat PyFloat.lit_0_9 /\ imps = PList []
          /\ out = (final_answer self question v c r imps, st3)
          /\ forall a, fst out = inr a -> Answer.to_pyval (a_value a) = v).
Proof.
  intros out. split; [apply refinement_at_most_once|].
  split.
  { intros [|x l]; cbn; split; congruence. }
  intros ctx0 st1 v r st2 c imps st3 low H1 H2 H3 H4.
  pose proof (refinement_count _ _ _ _ _ _ _ _ _ _ _ _ _ _ H1 H2 H3 H4) as Hn.
  pose proof (pipeline_after_critic _ _ _ _ _ _ _ _ _ _ _ _ _ _ H1 H2 H3 H4)
    as Hout.
  fold out in Hn, Hout.
  split; [|split].
  - rewrite Hn.
    destruct low, (PyVal.truthy imps), (enable_actor_critic self); cbn;
      split; try lia; try tauto; intros (? & ? & ?); discriminate.
  - intros v2 r2 st4 c2 i2 st5 -> Ht Hen H5 H6.
    rewrite Ht, Hen, H5, H6 in Hout. cbn in Hout.
    split; [exact Hout|].
    intros a f Ha Hconf ->. rewrite Hout in Ha. cbn [fst] in Ha.
    unfold final_answer in Ha. rewrite Hconf in Ha.
    apply mk_answer_fields in Ha. destruct Ha as (_ & _ & Hc & _).
    unfold Pydantic.float_0_1 in Hc.
    destruct (PyFloat.between _ _ f); congruence.
  - intros Hen.
    rewrite (critic_bypass self _ question v r st2 (or_introl Hen)) in H3.
    inversion H3; subst c imps st3.
    rewrite Hen, andb_false_r in Hout.
    split; [reflexivity|]. split; [reflexivity|]. split; [exact Hout|].
    intros a Ha. rewrite Hout in Ha. cbn [fst] in Ha.
    apply mk_answer_fields in Ha. destruct Ha as (_ & Hv & _).
    apply (validated_value_unchanged (q_type question)); [|exact Hv].
    eapply base_well_typed; exact H2.
Qed.

(** C2. The value of a returned answer is a string for a [text] question
    and a boolean for a [boolean] question.  With a client, the actor
    returns the backend's [answer] and the refiner the backend's
    [refined_answer], both through the same post-processing, which turns
    a string into the boolean "its lower-case form is one of true, yes,
    1" for a boolean question and anything into a string for a text
    question. *)
Theorem answer_value_has_question_type :
  (forall self patient question previous_answers st a st',
      generate_answer_with_confidence self patient question
        previous_answers st = (inr a, st') ->
      match q_type question with
      | text => exists s, a_value a = VStr s
      | boolean => exists b, a_value a = VBool b
      end)
  /\ (forall self ctx question model st doc w answer reasoning,
        client self = true ->
        chat_completions_create
          (ActorRequest model
             (_build_few_shot_prompt self (few_shot_examples self))
             ctx question) (world st) = (inr doc, w) ->
        PyVal.getitem doc "answer" = inr answer ->
        PyVal.getitem doc "reasoning" = inr reasoning ->
        fst (_generate_base_answer self ctx question model st)
        = inr (coerce_to_type (q_type question) answer, reasoning))
  /\ (forall self ctx question original improvements items st doc w answer
             reasoning,
        client self = true ->
        py_iter improvements = inr items ->
        chat_completions_create
          (RefineRequest ctx question (py_str original) (feedback_text items))
          (world st) = (inr doc, w) ->
        PyVal.getitem doc "refined_answer" = inr answer ->
        PyVal.getitem doc "reasoning" = inr reasoning ->
        fst (_refine_answer_with_feedback self ctx question original
               improvements st)
        = inr (coerce_to_type (q_type question) answer, reasoning))
  /\ (forall s,
        coerce_to_type boolean (PStr s)
        = PBool (existsb (String.eqb (PyStr.lower s)) ["true"; "yes"; "1"])
        /\ (coerce_to_type boolean (PStr s) = PBool true
            <-> PyStr.lower s = "true" \/ PyStr.lower s = "yes"
                \/ PyStr.lower s = "1"))
  /\ (forall b, coerce_to_type boolean (PBool b) = PBool b)
  /\ (forall v, coerce_to_type text v = PStr (py_str v))
  /\ (forall s, coerce_to_type text (PStr s) = PStr s).
Proof.
  split; [|split; [|split; [|split; [|split; [|split]]]]].
  - intros self patient question previous_answers st a st' H.
    apply pipeline_returns in H.
    destruct H as (ctx0 & st1 & v & r & st2 & c & imps & st3 & low
                   & H1 & H2 & H3 & H4 & H).
    pose proof (base_well_typed _ _ _ _ _ _ _ _ H2) as Hv.
    assert (Hfinal : exists w cw rw, well_typed (q_type question) w = true
                       /\ final_answer self question w cw rw imps = inr a).
    { destruct H as [(_ & _ & Hf) | (_ & v2 & r2 & st4 & c2 & i2 & H5 & _ & Hf)].
      - exists v, c, r. auto.
      - exists v2, c2, r2. split; [|exact Hf].
        eapply refine_well_typed; eauto. }
    destruct Hfinal as (w & cw & rw & Hw & Hf).
    apply mk_answer_fields in Hf. destruct Hf as (_ & Hval & _).
    destruct (q_type question), w; cbn in Hw; try discriminate;
      cbn in Hval; inversion Hval; eexists; reflexivity.
  - intros self ctx question model st doc w answer reasoning Hc Hcall Ha Hr.
    now rewrite (base_answer_with_client _ _ _ _ _ _ _ _ _ Hc Hcall Ha Hr).
  - intros self ctx question original improvements items st doc w answer
      reasoning Hc Hi Hcall Ha Hr.
    now rewrite (refined_answer_with_client _ _ _ _ _ _ _ _ _ _ _
                   Hc Hi Hcall Ha Hr).
  - intros s. split; [reflexivity|]. cbn.
    rewrite !orb_false_r.
    split.
    + intros H. injection H as Hb.
      apply orb_true_iff in Hb. destruct Hb as [Hb|Hb].
      * apply String.eqb_eq in Hb; auto.
      * apply orb_true_iff in Hb.
        destruct Hb as [Hb|Hb]; apply String.eqb_eq in Hb; auto.
    + intros [H|[H|H]]; rewrite H; reflexivity.
  - reflexivity.
  - reflexivity.
  - reflexivity.
Qed.

(** C5. Every answer the single-question pipeline returns carries a
    confidence between 0.0 and 1.0 inclusive, with or without a
    refinement. *)
Theorem returned_confidence_in_unit_interval (self : LLMService)
  (patient : Patient) (question : Question)
  (previous_answers : option (Dict.t answer_value)) (st st' : State World)
  (a : AnswerWithConfidence) :
  generate_answer_with_confidence self patient question previous_answers st
  = (inr a, st') ->
  exists q, a_confidence a = FFin q /\ (0 <= q)%Q /\ (q <= 1)%Q.
Proof.
  intros H. apply pipeline_returns in H.
  destruct H as (ctx0 & st1 & v & r & st2 & c & imps & st3 & low
                 & _ & _ & _ & _ & H).
  destruct H as [(_ & _ & Hf) | (_ & v2 & r2 & st4 & c2 & i2 & _ & _ & Hf)];
    apply mk_answer_fields in Hf; destruct Hf as (_ & _ & Hc & _);
    apply validated_confidence_range in Hc; exact Hc.
Qed.

(** ** The confidence flag *)

Lemma pipeline_factors self patient question previous_answers st :
  generate_answer_with_confidence self patient question previous_answers st
  = match pipeline_before_return self patient question previous_answers st
    with
    | (inl e, st') => (inl e, st')
    | (inr (v, r, c, imps), st') =>
        (final_answer self question v c r imps, st')
    end.
Proof.
  unfold generate_answer_with_confidence, pipeline_before_return, bind.
  destruct (_extract_patient_context patient st) as [[e|ctx0] st1];
    [reflexivity|].
  destruct (_generate_base_answer _ _ _ _ _) as [[e|[v r]] st2];
    [reflexivity|].
  destruct (_critic_evaluate_answer _ _ _ v r st2) as [[e|[c imps]] st3];
    [reflexivity|].
  destruct (PyVal.lt_float c PyFloat.lit_0_8) as [e|low];
    cbn [lift raise ret]; [reflexivity|].
  destruct (low && PyVal.truthy imps && enable_actor_critic self).
  - destruct (_refine_answer_with_feedback _ _ _ _ _ _) as [[e|[v2 r2]] st4];
      [reflexivity|].
    destruct (_critic_evaluate_answer _ _ _ v2 r2 st4) as [[e|[c2 i2]] st5];
      [reflexivity|].
    unfold ret, final_answer. destruct (mk_answer _ _ _ _ _ _); reflexivity.
  - unfold ret, final_answer. destruct (mk_answer _ _ _ _ _ _); reflexivity.
Qed.

Lemma pipeline_before_return_flag b self patient question previous_answers :
  pipeline_before_return (with_confidence_flag b self) patient question
    previous_answers
  = pipeline_before_return self patient question previous_answers.
Proof. reflexivity. Qed.

(** C10. With [ENABLE_CONFIDENCE_SCORES] disabled, every answer returned
    carries confidence exactly 1.0.  The flag acts at the return boundary
    only: the run leaves the same state (the same stages entered and the
    same backend exchanges) as with the flag enabled, returns the enabled
    run's answer with the confidence replaced, and the refinement is
    decided by the critic's own score. *)
Theorem confidence_masked_when_flag_disabled (self : LLMService)
  (patient : Patient) (question : Question)
  (previous_answers : option (Dict.t answer_value)) (st : State World) :
  enable_confidence self = false ->
  let out :=
    generate_answer_with_confidence self patient question previous_answers st
  in
  let out_enabled :=
    generate_answer_with_confidence (with_confidence_flag true self)
      patient question previous_answers st in
  (forall a, fst out = inr a -> a_confidence a = PyFloat.lit_1_0)
  /\ snd out = snd out_enabled
  /\ (forall a, fst out_enabled = inr a ->
                fst out = inr (with_confidence PyFloat.lit_1_0 a))
  /\ (forall ctx0 st1 v r st2 c imps st3 low,
        _extract_patient_context patient st = (inr ctx0, st1) ->
        _generate_base_answer self
          (with_previous_answers ctx0 previous_answers)
          question STANDARD st1 = (inr (v, r), st2) ->
        _critic_evaluate_answer self
          (with_previous_answers ctx0 previous_answers)
          question v r st2 = (inr (c, imps), st3) ->
        PyVal.lt_float c PyFloat.lit_0_8 = inr low ->
        (refinements (stages (snd out)) = (refinements (stages st) + 1)%nat
         <-> low = true /\ PyVal.truthy imps = true
             /\ enable_actor_critic self = true)).
Proof.
  intros Hflag out out_enabled.
  assert (Hone : Pydantic.float_0_1 lax (PFloat PyFloat.lit_1_0)
                 = Some PyFloat.lit_1_0) by reflexivity.
  split; [|split; [|split]].
  - intros a Ha. unfold out in Ha. rewrite pipeline_factors in Ha.
    destruct (pipeline_before_return self patient question
                previous_answers st) as [[e|[[[v r] c] imps]] st'];
      cbn [fst] in Ha; [discriminate|].
    unfold final_answer in Ha. rewrite Hflag in Ha.
    apply mk_answer_fields in Ha. destruct Ha as (_ & _ & Hc & _).
    congruence.
  - unfold out, out_enabled.
    rewrite !pipeline_factors, pipeline_before_return_flag.
    destruct (pipeline_before_return self patient question
                previous_answers st) as [[e|[[[v r] c] imps]] st'];
      reflexivity.
  - intros a Ha. unfold out, out_enabled in *.
    rewrite pipeline_factors in Ha. rewrite pipeline_factors.
    rewrite pipeline_before_return_flag in Ha.
    destruct (pipeline_before_return self patient question
                previous_answers st) as [[e|[[[v r] c] imps]] st'];
      cbn [fst] in *; [discriminate|].
    unfold final_answer in *. rewrite Hflag.
    apply mk_answer_fields in Ha.
    destruct Ha as (Hq & Hv & _ & Hr & Hi).
    unfold mk_answer. rewrite Hv, Hone, Hr, Hi.
    unfold with_confidence. now rewrite Hq.
  - intros ctx0 st1 v r st2 c imps st3 low H1 H2 H3 H4.
    unfold out.
    rewrite (refinement_count _ _ _ _ _ _ _ _ _ _ _ _ _ _ H1 H2 H3 H4).
    destruct low, (PyVal.truthy imps), (enable_actor_critic self); cbn;
      split; try lia; try tauto; intros (? & ? & ?); discriminate.
Qed.

(** ** Batch processing *)

Lemma batch_loop_app self patient qs1 qs2 :
  forall acc answered st,
    batch_loop self patient (List.app qs1 qs2) acc answered st
    = match batch_loop self patient qs1 acc answered st with
      | (inl e, st') => (inl e, st')
      | (inr (acc', answered'), st') =>
          batch_loop self patient qs2 acc' answered' st'
      end.
Proof.
  induction qs1 as [|q qs1 IH]; intros acc answered st;
    cbn [List.app batch_loop]; [reflexivity|].
  destruct (skipped q answered); [apply IH|].
  unfold bind.
  destruct (generate_answer_with_confidence self patient q (Some answered) st)
    as [[e|a] st1]; [reflexivity|apply IH].
Qed.

Lemma skipped_iff question answered :
  skipped question answered = true <->
  exists condition,
    q_visible_if question = Some condition
    /\ condition <> ""
    /\ _evaluate_condition condition answered = false.
Proof.
  unfold skipped. destruct (q_visible_if question) as [condition|].
  - split.
    + intros H. apply andb_true_iff in H. destruct H as [Hne Hev].
      exists condition. split; [reflexivity|].
      split.
      * intros ->. discriminate.
      * now destruct (_evaluate_condition condition answered).
    + intros (c & Hc & Hne & Hev). inversion Hc; subst c.
      rewrite Hev. destruct condition; [congruence|reflexivity].
  - split; [discriminate|]. intros (c & Hc & _). discriminate.
Qed.

(** C4. A question whose visibility condition evaluates to false is
    skipped: the loop goes on from the very same state (no answer
    appended, the accumulated map unchanged, no stage entered, the world
    untouched), so the batch returns exactly what it returns without that
    question. *)
Theorem skipped_question_leaves_no_trace (self : LLMService)
  (patient : Patient) (question : Question) (condition : string) :
  q_visible_if question = Some condition ->
  condition <> "" ->
  (forall rest answers_with_confidence answered_questions st,
      _evaluate_condition condition answered_questions = false ->
      batch_loop self patient (question :: rest)
        answers_with_confidence answered_questions st
      = batch_loop self patient rest
          answers_with_confidence answered_questions st)
  /\ (forall before rest st,
        (forall answers answered st',
            batch_loop self patient before [] Dict.empty st
            = (inr (answers, answered), st') ->
            _evaluate_condition condition answered = false) ->
        process_questions_batch self patient
          (List.app before (question :: rest)) st
        = process_questions_batch self patient (List.app before rest) st).
Proof.
  intros Hvis Hne.
  assert (Hstep : forall rest acc answered st,
             _evaluate_condition condition answered = false ->
             batch_loop self patient (question :: rest) acc answered st
             = batch_loop self patient rest acc answered st).
  { intros rest acc answered st Hev. cbn [batch_loop].
    replace (skipped question answered) with true; [reflexivity|].
    symmetry. apply skipped_iff. exists condition. auto. }
  split; [exact Hstep|].
  intros before rest st Hskip.
  unfold process_questions_batch, bind.
  rewrite !batch_loop_app.
  destruct (batch_loop self patient before [] Dict.empty st)
    as [[e|[answers answered]] st'] eqn:Hb; [reflexivity|].
  rewrite Hstep; [reflexivity|]. eapply Hskip. reflexivity.
Qed.

(** ** Age *)

(** C8. The age is the difference of the calendar years, less one iff
    today's (month, day) comes before the birth (month, day).  Born
    1990-06-15: 33 on 2024-06-14, and 34 on 2024-06-15 and on every later
    day of 2024. *)
Theorem age_anniversary_adjustment :
  (forall date_of_birth y m d st,
      Strptime.strptime_ymd date_of_birth = inr (y, m, d) ->
      let today := fst (datetime_now (world st)) in
      (month today < m \/ (month today = m /\ day today < d) ->
       fst (_calculate_age date_of_birth st) = inr (year today - y - 1))
      /\ (~ (month today < m \/ (month today = m /\ day today < d)) ->
          fst (_calculate_age date_of_birth st) = inr (year today - y)))
  /\ (forall st,
        let today := fst (datetime_now (world st)) in
        year today = 2024 -> month today = 6 -> day today = 14 ->
        fst (_calculate_age "1990-06-15" st) = inr 33)
  /\ (forall st,
        let today := fst (datetime_now (world st)) in
        year today = 2024 ->
        month today > 6 \/ (month today = 6 /\ day today >= 15) ->
        fst (_calculate_age "1990-06-15" st) = inr 34).
Proof.
  assert (Hgen : forall date_of_birth y m d st,
             Strptime.strptime_ymd date_of_birth = inr (y, m, d) ->
             fst (_calculate_age date_of_birth st)
             = inr (age_on (fst (datetime_now (world st))) (y, m, d))).
  { intros dob y m d st Hp.
    unfold _calculate_age, bind, now, ret. rewrite Hp. cbn [lift ret].
    destruct (datetime_now (world st)); reflexivity. }
  split; [|split].
  - intros dob y m d st Hp today. rewrite (Hgen _ _ _ _ _ Hp). fold today.
    unfold age_on, month_day_lt. split; intros H.
    + replace ((month today <? m) || (month today =? m) && (day today <? d))
        with true; [f_equal; lia|].
      symmetry. apply orb_true_iff.
      destruct H as [H|[H1 H2]]; [left|right].
      * now apply Z.ltb_lt.
      * apply andb_true_iff. split; [now apply Z.eqb_eq|now apply Z.ltb_lt].
    + replace ((month today <? m) || (month today =? m) && (day today <? d))
        with false; [f_equal; lia|].
      symmetry. apply orb_false_iff. split.
      * apply Z.ltb_ge. lia.
      * apply andb_false_iff.
        destruct (Z.eq_dec (month today) m) as [E|E].
        -- right. apply Z.ltb_ge. lia.
        -- left. now apply Z.eqb_neq.
  - intros st today Hy Hm Hd.
    rewrite (Hgen "1990-06-15" 1990 6 15 st eq_refl). fold today.
    unfold age_on, month_day_lt. rewrite Hy, Hm, Hd. reflexivity.
  - intros st today Hy H.
    rewrite (Hgen "1990-06-15" 1990 6 15 st eq_refl). fold today.
    unfold age_on, month_day_lt. rewrite Hy.
    replace ((month today <? 6) || (month today =? 6) && (day today <? 15))
      with false; [reflexivity|].
    symmetry. apply orb_false_iff. split.
    + apply Z.ltb_ge. lia.
    + apply andb_false_iff.
      destruct (Z.eq_dec (month today) 6) as [E|E].
      * right. apply Z.ltb_ge. lia.
      * left. now apply Z.eqb_neq.
Qed.

(** ** The correctness check of the harness *)

Lemma answer_eqb_eq a b : Answer.eqb a b = true <-> a = b.
Proof.
  destruct a as [s|x], b as [t|y]; cbn; split; try discriminate.
  - intros H; apply String.eqb_eq in H; congruence.
  - intros H; inversion H; apply String.eqb_refl.
  - intros H; apply Bool.eqb_prop in H; congruence.
  - intros H; inversion H; apply Bool.eqb_reflx.
Qed.

Lemma answer_mem_In a l : Answer.mem a l = true <-> In a l.
Proof.
  unfold Answer.mem. rewrite existsb_exists. split.
  - intros (x & Hx & He). apply answer_eqb_eq in He. now subst.
  - intros H. exists a. split; [exact H|]. now apply answer_eqb_eq.
Qed.

(** C7. The check accepts [actual] iff it equals [expected], or is one of
    the acceptable variations, or both are strings which, once the
    substrings "kg/m²" and "years" and the surrounding whitespace are
    removed, parse as floats that compare equal.  "32.9 kg/m²" is
    accepted for "32.9", True for True, and "thirty-four" is not accepted
    for "34". *)
Theorem check_answer_correctness_spec :
  (forall actual expected acceptable_variations,
      _check_answer_correctness actual expected acceptable_variations = true
      <-> (actual = expected
           \/ (exists l, acceptable_variations = Some l /\ In actual l)
           \/ (exists a e fa fe,
                  actual = VStr a /\ expected = VStr e
                  /\ FloatOfString.float_of_string (strip_units a) = Some fa
                  /\ FloatOfString.float_of_string (strip_units e) = Some fe
                  /\ PyFloat.eq fa fe = true)))
  /\ strip_units "32.9 kg/m²" = "32.9"
  /\ _check_answer_correctness (VStr "32.9 kg/m²") (VStr "32.9") None = true
  /\ _check_answer_correctness (VBool true) (VBool true) None = true
  /\ FloatOfString.float_of_string "thirty-four" = None
  /\ _check_answer_correctness (VStr "thirty-four") (VStr "34") None = false.
Proof.
  split; [|repeat split; vm_compute; reflexivity].
  intros actual expected variations. unfold _check_answer_correctness.
  destruct (Answer.eqb actual expected) eqn:He.
  { apply answer_eqb_eq in He. tauto. }
  assert (Hne : actual <> expected).
  { intros H. apply answer_eqb_eq in H. congruence. }
  destruct (match variations with
            | Some (v :: l) => Answer.mem actual (v :: l)
            | _ => false
            end) eqn:Hm.
  { split; [|reflexivity]. intros _. right; left.
    destruct variations as [[|v l]|]; try discriminate.
    exists (v :: l). split; [reflexivity|]. now apply answer_mem_In. }
  assert (Hnv : ~ exists l, variations = Some l /\ In actual l).
  { intros (l & -> & Hin). destruct l as [|v l]; [contradiction|].
    apply answer_mem_In in Hin. congruence. }
  split.
  - intros H. right; right.
    destruct expected as [e|]; [|discriminate].
    destruct actual as [a|]; [|discriminate].
    destruct (FloatOfString.float_of_string (strip_units a)) as [fa|] eqn:Ha;
      [|discriminate].
    destruct (FloatOfString.float_of_string (strip_units e)) as [fe|] eqn:Hfe;
      [|discriminate].
    exists a, e, fa, fe. auto.
  - intros [H|[H|(a & e & fa & fe & -> & -> & Ha & Hfe & Heq)]];
      [contradiction|contradiction|].
    now rewrite Ha, Hfe.
Qed.

(** ** The evaluation run *)

(** [evaluate_single_test] always returns a result; when the pipeline
    raises, the result is a failed one carrying the message of the
    exception. *)
Lemma evaluate_single_test_returns self test_case st :
  exists r st',
    evaluate_single_test self test_case st = (inr r, st')
    /\ (r_error r = None \/ exists e, failed_result r (exn_message e))
    /\ (forall t w e st1,
           datetime_now (world st) = (t, w) ->
           generate_answer_with_confidence (llm_service self)
             (tc_patient test_case) (tc_question test_case) None
             (mk_state w (stages st) (historical_results st))
           = (inl e, st1) ->
           failed_result r (exn_message e)).
Proof.
  unfold evaluate_single_test, bind, try_except, now.
  destruct (datetime_now (world st)) as [t w] eqn:Hnow.
  destruct (generate_answer_with_confidence (llm_service self)
              (tc_patient test_case) (tc_question test_case) None
              (mk_state w (stages st) (historical_results st)))
    as [[e|a] st1] eqn:Hg.
  - destruct (datetime_now (world st1)) as [t1 w1]. unfold ret.
    eexists; eexists. split; [reflexivity|].
    assert (Hf : failed_result
                   (mk_result (test_case_id test_case)
                      (q_key (tc_question test_case))
                      (tc_expected_answer test_case) (VStr "")
                      PyFloat.lit_0_0 false false PyFloat.lit_0_0
                      (PyNum.elapsed_ms t t1) (Some (exn_message e)))
                   (exn_message e)).
    { unfold failed_result; cbn. auto. }
    split; [right; exists e; exact Hf|].
    intros t' w' e' st1' Hn Hg'. inversion Hn; subst t' w'.
    rewrite Hg in Hg'. inversion Hg'; subst. exact Hf.
  - destruct (datetime_now (world st1)) as [t1 w1].
    destruct (_evaluate_reasoning_quality (a_reasoning a)
                (tc_reasoning test_case)) as [e|quality];
      cbn [lift raise ret world stages historical_results].
    + destruct (datetime_now w1) as [t2 w2]. unfold ret.
      eexists; eexists. split; [reflexivity|].
      split.
      * right. exists e. unfold failed_result; cbn. auto.
      * intros t' w' e' st1' Hn Hg'. inversion Hn; subst t' w'.
        rewrite Hg in Hg'. discriminate.
    + unfold ret. eexists; eexists. split; [reflexivity|].
      split; [left; reflexivity|].
      intros t' w' e' st1' Hn Hg'. inversion Hn; subst t' w'.
      rewrite Hg in Hg'. discriminate.
Qed.

Lemma run_test_cases_returns self cases :
  forall results st,
  exists rs st',
    run_test_cases self cases results st = (inr rs, st')
    /\ List.length rs = (List.length results + List.length cases)%nat.
Proof.
  induction cases as [|test_case cases IH]; intros results st;
    cbn [run_test_cases].
  - exists results, st. unfold ret. cbn. split; [reflexivity|]. lia.
  - destruct (evaluate_single_test_returns self test_case st)
      as (r & st1 & Hr & _).
    unfold bind. rewrite Hr. unfold record_history.
    destruct (IH (List.app results [r])
                (mk_state (world st1) (stages st1)
                   (List.app (historical_results st1) [r])))
      as (rs & st' & Hrs & Hlen).
    exists rs, st'. split; [exact Hrs|].
    rewrite length_app in Hlen. cbn [List.length] in *. lia.
Qed.

Lemma truediv_int_returns a b :
  b <> 0 -> exists f, PyNum.truediv_int a b = inr f.
Proof.
  intros Hb. unfold PyNum.truediv_int.
  destruct (b =? 0) eqn:E; [apply Z.eqb_eq in E; contradiction|eauto].
Qed.

Lemma truediv_float_int_returns a n :
  n <> 0 -> exists f, PyNum.truediv_float_int a n = inr f.
Proof.
  intros Hn. unfold PyNum.truediv_float_int.
  destruct (n =? 0) eqn:E; [apply Z.eqb_eq in E; contradiction|eauto].
Qed.

Lemma mean_returns x l : exists f, PyNum.mean (x :: l) = inr f.
Proof.
  unfold PyNum.mean.
  destruct (PyNum.sum_parts (x :: l) 0%Q None) as [total [o|]]; eauto.
Qed.

Lemma average_category_returns s : exists s', average_category s = inr s'.
Proof.
  unfold average_category.
  destruct (0 <? cat_total s) eqn:E; [|eauto].
  apply Z.ltb_lt in E.
  destruct (truediv_int_returns (cat_passed s) (cat_total s)) as [a ->];
    [lia|].
  destruct (truediv_float_int_returns (cat_avg_confidence s) (cat_total s))
    as [b ->]; [lia|].
  destruct (truediv_float_int_returns (cat_avg_response_time s) (cat_total s))
    as [c ->]; [lia|].
  eauto.
Qed.

Lemma average_categories_returns d : exists d', average_categories d = inr d'.
Proof.
  induction d as [|[tag s] d [d' IH]]; cbn; [eauto|].
  destruct (average_category_returns s) as [s' ->]. rewrite IH. eauto.
Qed.

(** C6. A full evaluation run does not raise because of a test case:
    [evaluate_single_test] always returns a result, and when the pipeline
    raised it is a failed result with a non-null error (the message of
    the exception), [is_correct] and [is_acceptable] false and confidence
    0.0; [run_full_evaluation] returns a report whose total counts every
    test case. *)
Theorem evaluation_run_contains_failures :
  (forall self test_case st,
      exists r st',
        evaluate_single_test self test_case st = (inr r, st')
        /\ (r_error r = None
            \/ exists e, failed_result r (exn_message e))
        /\ (forall t w e st1,
               datetime_now (world st) = (t, w) ->
               generate_answer_with_confidence (llm_service self)
                 (tc_patient test_case) (tc_question test_case) None
                 (mk_state w (stages st) (historical_results st))
               = (inl e, st1) ->
               r_error r = Some (exn_message e)
               /\ r_is_correct r = false
               /\ r_is_acceptable r = false
               /\ r_confidence r = FFin 0))
  /\ (forall self st,
        exists report st',
          run_full_evaluation self st = (inr report, st')
          /\ rep_total_tests report = len (test_cases self)
          /\ rep_passed report + rep_failed report = len (test_cases self)).
Proof.
  split.
  - intros self test_case st.
    destruct (evaluate_single_test_returns self test_case st)
      as (r & st' & Hr & Hcase & Hfail).
    exists r, st'. split; [exact Hr|]. split; [exact Hcase|].
    intros t w e st1 Hn Hg.
    destruct (Hfail t w e st1 Hn Hg) as (H1 & H2 & H3 & H4 & _). auto.
  - intros self st.
    destruct (run_test_cases_returns self (test_cases self) [] st)
      as (rs & st1 & Hrun & Hlen).
    unfold run_full_evaluation, bind. rewrite Hrun.
    assert (Htotal : len rs = len (test_cases self)).
    { unfold len. cbn in Hlen. now rewrite Hlen. }
    assert (Hacc : exists acc,
               (if 0 <? len rs
                then PyNum.truediv_int (len (filter r_is_acceptable rs))
                       (len rs)
                else inr PyFloat.lit_0_0) = inr acc).
    { destruct (0 <? len rs) eqn:Epos; [|eauto].
      apply Z.ltb_lt in Epos. apply truediv_int_returns. lia. }
    destruct Hacc as [acc Hacc].
    destruct (average_categories_returns
                (fold_left
                   (fun categories '(test_case, r) =>
                      fold_left
                        (fun categories tag =>
                           count_in_category categories tag r)
                        (tc_tags test_case) categories)
                   (combine (test_cases self) rs) Dict.empty))
      as [cats Hcats].
    cbv beta iota zeta.
    rewrite Hacc; cbn [lift ret].
    assert (Hconf : exists conf,
               match filter (PyFloat.lt PyFloat.lit_0_0)
                       (map r_confidence rs) return result pyfloat with
               | [] => inr PyFloat.lit_0_0
               | _ :: _ =>
                   PyNum.mean (filter (PyFloat.lt PyFloat.lit_0_0)
                                 (map r_confidence rs))
               end = inr conf).
    { destruct (filter (PyFloat.lt PyFloat.lit_0_0) (map r_confidence rs))
        as [|x l]; [eauto|apply mean_returns]. }
    destruct Hconf as [conf ->]; cbn [lift ret].
    assert (Htime : exists time,
               match map r_response_time_ms rs return result pyfloat with
               | [] => inr PyFloat.lit_0_0
               | _ :: _ => PyNum.mean (map r_response_time_ms rs)
               end = inr time).
    { destruct (map r_response_time_ms rs) as [|x l];
        [eauto|apply mean_returns]. }
    destruct Htime as [time ->]; cbn [lift ret].
    unfold _analyze_by_category. rewrite Hcats; cbn [lift ret].
    unfold now, ret. destruct (datetime_now (world st1)) as [t w].
    eexists; eexists. split; [reflexivity|].
    cbn [rep_total_tests rep_passed rep_failed].
    split; [exact Htotal|]. lia.
Qed.


(** * Further properties *)

(** ** Rounding *)

Lemma round_half_even_bounds (q : Q) (N : Z) :
  0 <= Qnum q ->
  Qnum q <= N * Zpos (Qden q) ->
  0 <= FloatOfString.round_half_even q <= N.
Proof.
  intros Hn Hle. unfold FloatOfString.round_half_even.
  set (n := Qnum q) in *. set (d := Zpos (Qden q)) in *.
  assert (Hd : 0 < d) by (unfold d; lia).
  pose proof (Z.div_mod n d ltac:(lia)) as Hdm.
  pose proof (Z.mod_pos_bound n d Hd) as Hr.
  assert (Hf : 0 <= n / d) by (apply Z.div_pos; lia).
  destruct (Z.compare_spec (2 * (n mod d)) d) as [He|Hlt|Hgt].
  - destruct (Z.even (n / d)); nia.
  - nia.
  - nia.
Qed.

Lemma binary_exponent_nonpos (q : Q) :
  0 < Qnum q -> Qnum q <= Zpos (Qden q) ->
  FloatOfString.binary_exponent q <= 0.
Proof.
  intros Hpos Hle. unfold FloatOfString.binary_exponent.
  pose proof (Z.log2_le_mono _ _ Hle).
  destruct (Qle_bool _ q); lia.
Qed.

(** A positive rational not above 1 rounds to a double not above 1. *)
Lemma round_positive_unit (q : Q) :
  0 < Qnum q -> Qnum q <= Zpos (Qden q) ->
  exists v, FloatOfString.round_positive q = FFin v
            /\ (0 <= v)%Q /\ (v <= 1)%Q.
Proof.
  intros Hpos Hle. unfold FloatOfString.round_positive.
  pose proof (binary_exponent_nonpos q Hpos Hle) as He.
  set (p := Z.max (FloatOfString.binary_exponent q - 52) (-1074)).
  assert (Hp : -1074 <= p <= -52) by (unfold p; lia).
  clearbody p.
  set (K := 2 ^ (- p)).
  assert (HK : 0 < K) by (unfold K; apply Z.pow_pos_nonneg; lia).
  assert (Hup : FloatOfString.pow2 (- p) = inject_Z K).
  { unfold FloatOfString.pow2.
    destruct (0 <=? - p) eqn:E; [reflexivity|]. apply Z.leb_gt in E. lia. }
  assert (Hdown : FloatOfString.pow2 p = 1 # Z.to_pos K).
  { unfold FloatOfString.pow2.
    destruct (0 <=? p) eqn:E; [|reflexivity]. apply Z.leb_le in E. lia. }
  rewrite Hup, Hdown.
  set (m := FloatOfString.round_half_even (Qmult q (inject_Z K))).
  assert (Hm : 0 <= m <= K).
  { apply round_half_even_bounds; cbn [Qnum Qden Qmult inject_Z].
    - nia.
    - rewrite Pos.mul_1_r. nia. }
  clearbody m.
  assert (HB : 1 < 2 ^ 1024) by (apply Z.pow_gt_1; lia).
  assert (Hv0 : (0 <= Qmult (inject_Z m) (1 # Z.to_pos K))%Q).
  { unfold Qle; cbn. nia. }
  assert (Hv1 : (Qmult (inject_Z m) (1 # Z.to_pos K) <= 1)%Q).
  { unfold Qle; cbn. rewrite Z2Pos.id by lia. nia. }
  destruct (Qle_bool (FloatOfString.pow2 1024)
              (Qmult (inject_Z m) (1 # Z.to_pos K))) eqn:Hover.
  - exfalso. apply Qle_bool_iff in Hover.
    assert (Hbig : (FloatOfString.pow2 1024 <= 1)%Q)
      by (eapply Qle_trans; eassumption).
    unfold FloatOfString.pow2 in Hbig. cbn [Z.leb Z.compare] in Hbig.
    unfold Qle in Hbig. cbn [Qnum Qden inject_Z] in Hbig. lia.
  - eexists. split; [reflexivity|].
    split; rewrite Qred_correct; assumption.
Qed.

(** A rational of the unit interval rounds to a double of the unit
    interval. *)
Lemma round_unit (q : Q) :
  (0 <= q)%Q -> (q <= 1)%Q ->
  exists v, FloatOfString.round_binary64 q = FFin v
            /\ (0 <= v)%Q /\ (v <= 1)%Q.
Proof.
  intros H0 H1. unfold FloatOfString.round_binary64.
  unfold Qle in H0, H1. cbn in H0, H1.
  destruct (Qnum q) eqn:Hn.
  - exists 0%Q. repeat split; unfold Qle; cbn; lia.
  - apply round_positive_unit; rewrite Hn; lia.
  - lia.
Qed.

(** A rational between -1 and 1 rounds to a double between -1 and 1. *)
Lemma round_symmetric_unit (q : Q) :
  (- (1) <= q)%Q -> (q <= 1)%Q ->
  exists v, FloatOfString.round_binary64 q = FFin v
            /\ (- (1) <= v)%Q /\ (v <= 1)%Q.
Proof.
  intros H0 H1.
  destruct (Qnum q) eqn:Hn.
  - unfold FloatOfString.round_binary64. rewrite Hn.
    exists 0%Q. repeat split; unfold Qle; cbn; lia.
  - destruct (round_unit q) as (v & Hv & Hv0 & Hv1); auto.
    { unfold Qle; cbn. rewrite Hn. lia. }
    exists v. split; [exact Hv|]. split; [|exact Hv1].
    eapply Qle_trans; [|exact Hv0]. unfold Qle; cbn; lia.
  - unfold FloatOfString.round_binary64. rewrite Hn.
    destruct (round_positive_unit (Qopp q)) as (v & Hv & Hv0 & Hv1).
    { cbn. rewrite Hn. cbn. lia. }
    { unfold Qle in H0. cbn in *. rewrite Hn in *. cbn in *. lia. }
    rewrite Hv. cbn. exists (Qopp v). split; [reflexivity|].
    unfold Qle in *; cbn in *. lia.
Qed.

(** A non-negative rational never rounds to a negative double. *)
Lemma round_nonneg (q : Q) :
  (0 <= q)%Q ->
  FloatOfString.round_binary64 q = FInf false
  \/ exists v, FloatOfString.round_binary64 q = FFin v /\ (0 <= v)%Q.
Proof.
  intros H0. unfold FloatOfString.round_binary64.
  unfold Qle in H0. cbn in H0.
  destruct (Qnum q) as [|n|n] eqn:Hn;
    [right; exists 0%Q; split; [reflexivity|]| |lia].
  - unfold Qle; cbn; lia.
  - unfold FloatOfString.round_positive.
    set (p := Z.max (FloatOfString.binary_exponent q - 52) (-1074)).
    clearbody p.
    set (m := FloatOfString.round_half_even (Qmult q (FloatOfString.pow2 (- p)))).
    assert (Hpow : forall e, 0 < Qnum (FloatOfString.pow2 e)).
    { intros e. unfold FloatOfString.pow2.
      destruct (0 <=? e) eqn:E; cbn; [|lia].
      apply Z.leb_le in E. apply Z.pow_pos_nonneg; lia. }
    assert (Hm : 0 <= m).
    { unfold m, FloatOfString.round_half_even.
      set (x := Qmult q (FloatOfString.pow2 (- p))).
      assert (Hx : 0 <= Qnum x).
      { unfold x. cbn. rewrite Hn. pose proof (Hpow (- p)). nia. }
      assert (Hf : 0 <= Qnum x / Zpos (Qden x)) by (apply Z.div_pos; lia).
      destruct (2 * (Qnum x mod Zpos (Qden x)) ?= Zpos (Qden x));
        [destruct (Z.even _)| |]; lia. }
    clearbody m.
    destruct (Qle_bool _ _); [left; reflexivity|right].
    eexists. split; [reflexivity|].
    rewrite Qred_correct. unfold Qle; cbn.
    pose proof (Hpow p). nia.
Qed.

(** ** Stage order and hard failures of the pipeline *)

Ltac stage_list :=
  stage_facts; unfold lift, raise, ret; cbn [snd fst];
  repeat match goal with
    | H : stages _ = _ |- _ => rewrite H; clear H
    end;
  repeat match goal with
    | H : historical_results _ = _ |- _ => rewrite H; clear H
    end;
  rewrite <- ?app_assoc; cbn [List.app].

(** The pipeline never touches the evaluation history. *)
Lemma pipeline_history self patient question previous_answers st :
  historical_results
    (snd (generate_answer_with_confidence self patient question
            previous_answers st))
  = historical_results st.
Proof.
  unfold generate_answer_with_confidence, bind.
  destruct (_extract_patient_context patient st) as [[e|ctx0] st1] eqn:H1;
    [stage_list; reflexivity|].
  destruct (_generate_base_answer _ _ _ _ _) as [[e|[v r]] st2] eqn:H2;
    [stage_list; reflexivity|].
  destruct (_critic_evaluate_answer _ _ _ _ _ _) as [[e|[c imps]] st3] eqn:H3;
    [stage_list; reflexivity|].
  destruct (PyVal.lt_float c PyFloat.lit_0_8) as [e|low];
    cbn [lift raise ret]; [stage_list; reflexivity|].
  destruct (low && PyVal.truthy imps && enable_actor_critic self).
  - destruct (_refine_answer_with_feedback _ _ _ _ _ _)
      as [[e|[v2 r2]] st4] eqn:H5; [stage_list; reflexivity|].
    destruct (_critic_evaluate_answer _ _ _ v2 r2 st4)
      as [[e|[c2 i2]] st5] eqn:H6; [stage_list; reflexivity|].
    unfold ret. destruct (mk_answer _ _ _ _ _ _); stage_list; reflexivity.
  - unfold ret. destruct (mk_answer _ _ _ _ _ _); stage_list; reflexivity.
Qed.

(** X1. A run of the pipeline enters the stages in the order actor,
    critic, refiner, critic and stops somewhere along it; a run that
    returns an answer went through exactly actor, critic or through all
    four; the evaluation history is never touched. *)
Theorem pipeline_stage_order (self : LLMService) (patient : Patient)
  (question : Question) (previous_answers : option (Dict.t answer_value))
  (st : State World) :
  let out :=
    generate_answer_with_confidence self patient question previous_answers st
  in
  (exists n, stages (snd out) = List.app (stages st) (firstn n all_stages))
  /\ (forall a, fst out = inr a ->
        stages (snd out) = List.app (stages st) [StageActor; StageCritic]
        \/ stages (snd out) = List.app (stages st) all_stages)
  /\ historical_results (snd out) = historical_results st.
Proof.
  cbv zeta.
  unfold generate_answer_with_confidence, bind.
  destruct (_extract_patient_context patient st) as [[e|ctx0] st1] eqn:H1.
  { stage_list. split; [exists 0%nat; now rewrite app_nil_r|].
    split; [discriminate|reflexivity]. }
  destruct (_generate_base_answer _ _ _ _ _) as [[e|[v r]] st2] eqn:H2.
  { stage_list. split; [exists 1%nat; reflexivity|].
    split; [discriminate|reflexivity]. }
  destruct (_critic_evaluate_answer _ _ _ _ _ _) as [[e|[c imps]] st3] eqn:H3.
  { stage_list. split; [exists 2%nat; reflexivity|].
    split; [discriminate|reflexivity]. }
  destruct (PyVal.lt_float c PyFloat.lit_0_8) as [e|low];
    cbn [lift raise ret].
  { stage_list. split; [exists 2%nat; reflexivity|].
    split; [discriminate|reflexivity]. }
  destruct (low && PyVal.truthy imps && enable_actor_critic self).
  - destruct (_refine_answer_with_feedback _ _ _ _ _ _)
      as [[e|[v2 r2]] st4] eqn:H5.
    { stage_list. split; [exists 3%nat; reflexivity|].
      split; [discriminate|reflexivity]. }
    destruct (_critic_evaluate_answer _ _ _ v2 r2 st4)
      as [[e|[c2 i2]] st5] eqn:H6.
    { stage_list. split; [exists 4%nat; reflexivity|].
      split; [discriminate|reflexivity]. }
    unfold ret. destruct (mk_answer _ _ _ _ _ _); stage_list;
      (split; [exists 4%nat; reflexivity|]);
      (split; [intros; right; reflexivity|reflexivity]).
  - unfold ret. destruct (mk_answer _ _ _ _ _ _); stage_list;
      (split; [exists 2%nat; reflexivity|]);
      (split; [intros; left; reflexivity|reflexivity]).
Qed.

Lemma strptime_error (s : string) (e : exn) :
  Strptime.strptime_ymd s = inl e -> e = ValueError.
Proof.
  unfold Strptime.strptime_ymd.
  destruct (Strptime.year_field (Utf8.decode s)) as [[y [|c l1]]|];
    try congruence.
  destruct (c =? Strptime.dash); [|congruence].
  destruct (Strptime.month_field_dash l1) as [[m l2]|]; [|congruence].
  destruct (Strptime.day_field l2) as [[d [|? ?]]|]; try congruence.
  destruct ((1 <=? y) && (d <=? Strptime.days_in_month y m)); congruence.
Qed.

(** X2. A date of birth that [strptime] rejects makes the pipeline raise
    [ValueError] at once: no stage is entered, the clock is not read and
    the state is the one the call started from. *)
Theorem invalid_date_of_birth_raises (self : LLMService) (patient : Patient)
  (question : Question) (previous_answers : option (Dict.t answer_value))
  (st : State World) (e : exn) :
  Strptime.strptime_ymd (date_of_birth patient) = inl e ->
  generate_answer_with_confidence self patient question previous_answers st
  = (inl ValueError, st).
Proof.
  intros H. pose proof (strptime_error _ _ H) as ->.
  unfold generate_answer_with_confidence, _extract_patient_context,
    _calculate_age, bind.
  rewrite H. reflexivity.
Qed.

(** X3. Without a client the pipeline never raises once the date of birth
    parses: it returns the simulated value and reasoning with confidence
    0.9 (1.0 when confidence scores are off) and no improvements, after the
    actor and the bypassed critic, and it leaves the world as the clock
    left it. *)
Theorem simulated_pipeline_returns (self : LLMService) (patient : Patient)
  (question : Question) (previous_answers : option (Dict.t answer_value))
  (st st1 : State World) (ctx0 : string) :
  client self = false ->
  _extract_patient_context patient st = (inr ctx0, st1) ->
  let ctx := with_previous_answers ctx0 previous_answers in
  exists a,
    generate_answer_with_confidence self patient question previous_answers st
    = (inr a,
       mk_state (world st1)
         (List.app (stages st) [StageActor; StageCritic])
         (historical_results st))
    /\ a_question a = question
    /\ Answer.to_pyval (a_value a) = fst (_simulate_answer ctx question)
    /\ option_map PStr (a_reasoning a) = Some (snd (_simulate_answer ctx question))
    /\ a_confidence a
       = (if enable_confidence self then PyFloat.lit_0_9
          else PyFloat.lit_1_0)
    /\ a_improvements a = None.
Proof.
  intros Hc H1 ctx.
  pose proof (base_answer_without_client self ctx question STANDARD st1 Hc)
    as H2.
  destruct (_simulate_answer ctx question) as [v r] eqn:Hsim.
  pose proof (critic_bypass self ctx question v r
                (mk_state (world st1) (List.app (stages st1) [StageActor])
                   (historical_results st1)) (or_intror Hc)) as H3.
  cbn [world stages historical_results] in H3.
  rewrite (pipeline_after_critic _ _ _ _ _ _ _ _ _ _ _ _ _ false H1 H2 H3)
    by reflexivity.
  cbn [andb PyVal.truthy].
  apply extract_stages in H1. destruct H1 as [Hs Hh].
  rewrite Hs, Hh, <- app_assoc. cbn [List.app].
  assert (Hconf : Pydantic.float_0_1 lax
                    (if enable_confidence self then PFloat PyFloat.lit_0_9
                     else PFloat PyFloat.lit_1_0)
                  = Some (if enable_confidence self then PyFloat.lit_0_9
                          else PyFloat.lit_1_0)).
  { destruct (enable_confidence self); reflexivity. }
  unfold final_answer, mk_answer. rewrite Hconf.
  unfold _simulate_answer in Hsim.
  destruct (q_type question);
    repeat match type of Hsim with
      | (if ?b then _ else _) = _ => destruct b
      end;
    inversion Hsim; subst v r; cbn;
    eexists; (split; [reflexivity|]); cbn; repeat split; reflexivity.
Qed.

(** X4. A backend reply to the actor that lacks the [answer] key, or the
    [reasoning] key, is a hard failure: the pipeline raises [KeyError] for
    that key with only the actor stage entered -- the critic is never
    consulted. *)
Theorem actor_reply_missing_key_raises (self : LLMService) (patient : Patient)
  (question : Question) (previous_answers : option (Dict.t answer_value))
  (st st1 : State World) (ctx0 : string) (d : list (string * pyval))
  (w : World) (key : string) :
  client self = true ->
  _extract_patient_context patient st = (inr ctx0, st1) ->
  chat_completions_create
    (ActorRequest STANDARD
       (_build_few_shot_prompt self (few_shot_examples self))
       (with_previous_answers ctx0 previous_answers) question)
    (world st1) = (inr (PDict d), w) ->
  (PyVal.assoc "answer" d = None /\ key = "answer")
  \/ (PyVal.assoc "answer" d <> None /\ PyVal.assoc "reasoning" d = None
      /\ key = "reasoning") ->
  generate_answer_with_confidence self patient question previous_answers st
  = (inl (KeyError key),
     mk_state w (List.app (stages st) [StageActor]) (historical_results st)).
Proof.
  intros Hc H1 Hcall Hkey.
  unfold generate_answer_with_confidence, bind. rewrite H1.
  apply extract_stages in H1. destruct H1 as [Hs Hh].
  unfold _generate_base_answer, bind, enter, call_backend.
  rewrite Hc; cbn [negb world stages historical_results].
  rewrite Hcall, Hs, Hh. unfold PyVal.getitem.
  destruct Hkey as [[Ha ->]|(Ha & Hr & ->)].
  - rewrite Ha. reflexivity.
  - destruct (PyVal.assoc "answer" d); [|congruence].
    cbn [lift ret]. rewrite Hr. reflexivity.
Qed.

(** What the critic returns with a client and actor-critic mode on: the
    [confidence_score] of the reply and its [improvements], an empty list
    when the reply has none. *)
Lemma critic_with_client self ctx question v reasoning st d w c :
  client self = true ->
  enable_actor_critic self = true ->
  chat_completions_create
    (CriticRequest ctx (q_content question) (py_str v) (py_str reasoning))
    (world st) = (inr (PDict d), w) ->
  PyVal.assoc "confidence_score" d = Some c ->
  _critic_evaluate_answer self ctx question v reasoning st
  = (inr (c, match PyVal.assoc "improvements" d with
             | Some i => i
             | None => PList []
             end),
     mk_state w (List.app (stages st) [StageCritic]) (historical_results st)).
Proof.
  intros Hc Hen Hcall Hconf.
  unfold _critic_evaluate_answer, bind, enter, call_backend.
  rewrite Hc, Hen; cbn [negb orb world stages historical_results].
  rewrite Hcall. unfold PyVal.getitem, PyVal.get. rewrite Hconf.
  cbn [lift ret]. destruct (PyVal.assoc "improvements" d); reflexivity.
Qed.

(** X5. A critic reply without an [improvements] key never triggers a
    refinement, however low its score: the pipeline ends after the first
    critic pass, and an answer it returns has the actor's value and no
    improvements. *)
Theorem critic_reply_without_improvements (self : LLMService)
  (patient : Patient) (question : Question)
  (previous_answers : option (Dict.t answer_value))
  (st st1 st2 : State World) (ctx0 : string) (v r c : pyval)
  (d : list (string * pyval)) (w : World) (low : bool) :
  client self = true ->
  enable_actor_critic self = true ->
  _extract_patient_context patient st = (inr ctx0, st1) ->
  let ctx := with_previous_answers ctx0 previous_answers in
  _generate_base_answer self ctx question STANDARD st1 = (inr (v, r), st2) ->
  chat_completions_create
    (CriticRequest ctx (q_content question) (py_str v) (py_str r))
    (world st2) = (inr (PDict d), w) ->
  PyVal.assoc "confidence_score" d = Some c ->
  PyVal.assoc "improvements" d = None ->
  PyVal.lt_float c PyFloat.lit_0_8 = inr low ->
  let out :=
    generate_answer_with_confidence self patient question previous_answers st
  in
  out = (final_answer self question v c r (PList []),
         mk_state w (List.app (stages st) [StageActor; StageCritic])
           (historical_results st))
  /\ forall a, fst out = inr a ->
       Answer.to_pyval (a_value a) = v /\ a_improvements a = None.
Proof.
  intros Hc Hen H1 ctx H2 Hcall Hconf Himp Hlow out.
  pose proof (critic_with_client self ctx question v r st2 d w c
                Hc Hen Hcall Hconf) as H3.
  rewrite Himp in H3.
  assert (Hout : out = (final_answer self question v c r (PList []),
                        mk_state w (List.app (stages st2) [StageCritic])
                          (historical_results st2))).
  { unfold out.
    rewrite (pipeline_after_critic _ _ _ _ _ _ _ _ _ _ _ _ _ _ H1 H2 H3 Hlow).
    cbn [PyVal.truthy]. now rewrite andb_false_r. }
  pose proof (base_well_typed _ _ _ _ _ _ _ _ H2) as Hty.
  apply base_stages in H2. destruct H2 as [Hs2 Hh2].
  apply extract_stages in H1. destruct H1 as [Hs1 Hh1].
  rewrite Hs2, Hh2, Hs1, Hh1, <- app_assoc in Hout. cbn [List.app] in Hout.
  split; [exact Hout|].
  intros a Ha. rewrite Hout in Ha. cbn [fst] in Ha.
  unfold final_answer in Ha. cbn [PyVal.truthy] in Ha.
  apply mk_answer_fields in Ha. destruct Ha as (_ & Hv & _ & _ & Hi).
  split.
  - eapply validated_value_unchanged; eauto.
  - cbn in Hi. congruence.
Qed.

(** X6. A critic score that is not a number (null, a string, a list or an
    object) makes the comparison with 0.8 raise [TypeError]: the pipeline
    raises after the first critic pass, without a refinement. *)
Theorem non_numeric_confidence_raises (self : LLMService)
  (patient : Patient) (question : Question)
  (previous_answers : option (Dict.t answer_value))
  (st st1 st2 st3 : State World) (ctx0 : string) (v r c imps : pyval) :
  _extract_patient_context patient st = (inr ctx0, st1) ->
  let ctx := with_previous_answers ctx0 previous_answers in
  _generate_base_answer self ctx question STANDARD st1 = (inr (v, r), st2) ->
  _critic_evaluate_answer self ctx question v r st2 = (inr (c, imps), st3) ->
  match c with
  | PBool _ | PInt _ | PFloat _ => False
  | _ => True
  end ->
  generate_answer_with_confidence self patient question previous_answers st
  = (inl TypeError, st3)
  /\ stages st3 = List.app (stages st) [StageActor; StageCritic].
Proof.
  intros H1 ctx H2 H3 Hc. subst ctx. split.
  - unfold generate_answer_with_confidence, bind.
    rewrite H1, H2, H3.
    destruct c; try contradiction; reflexivity.
  - stage_list. reflexivity.
Qed.

(** ** The few-shot prompt *)

(** X7. The few-shot section is empty when few-shot mode is off or there
    are no examples, and it never shows more than the first three
    examples: any further example leaves the prompt unchanged. *)
Theorem few_shot_prompt_uses_three_examples (self : LLMService)
  (examples : list FewShotExample) :
  (enable_few_shot self = false \/ examples = [] ->
   _build_few_shot_prompt self examples = "")
  /\ _build_few_shot_prompt self examples
     = _build_few_shot_prompt self (firstn 3 examples)
  /\ (forall more, (3 <= List.length examples)%nat ->
        _build_few_shot_prompt self (List.app examples more)
        = _build_few_shot_prompt self examples).
Proof.
  assert (Hfirst : forall l : list FewShotExample,
             _build_few_shot_prompt self l
             = _build_few_shot_prompt self (firstn 3 l)).
  { intros l. unfold _build_few_shot_prompt.
    rewrite firstn_firstn. cbn [Nat.min].
    destruct (negb (enable_few_shot self)); [reflexivity|].
    destruct l; reflexivity. }
  split; [|split].
  - intros [H| ->]; unfold _build_few_shot_prompt.
    + now rewrite H.
    + now rewrite orb_true_r.
  - apply Hfirst.
  - intros more Hlen.
    rewrite (Hfirst (List.app examples more)), (Hfirst examples).
    rewrite firstn_app.
    replace (3 - List.length examples)%nat with 0%nat by lia.
    cbn [firstn]. now rewrite app_nil_r.
Qed.

(** ** The batch *)

Lemma subsequence_refl {A} (l : list A) : subsequence l l.
Proof. induction l; constructor; assumption. Qed.

Lemma subsequence_nil_l {A} (l : list A) : subsequence [] l.
Proof. induction l; constructor; assumption. Qed.

Lemma subsequence_length {A} (l1 l2 : list A) :
  subsequence l1 l2 -> (List.length l1 <= List.length l2)%nat.
Proof. induction 1; cbn; lia. Qed.

Lemma dict_get_set {V} (d : Dict.t V) (k k' : string) (v : V) :
  Dict.get (Dict.set d k v) k'
  = if String.eqb k' k then Some v else Dict.get d k'.
Proof.
  induction d as [|[k0 v0] d IH]; cbn.
  - reflexivity.
  - destruct (String.eqb_spec k k0) as [->|Hk]; cbn.
    + destruct (String.eqb k' k0); reflexivity.
    + rewrite IH. destruct (String.eqb_spec k' k0) as [->|Hk'].
      * destruct (String.eqb_spec k0 k); [congruence|reflexivity].
      * reflexivity.
Qed.

Lemma pipeline_question self patient question previous_answers st a st' :
  generate_answer_with_confidence self patient question previous_answers st
  = (inr a, st') ->
  a_question a = question.
Proof.
  intros H. apply pipeline_returns in H.
  destruct H as (ctx0 & st1 & v & r & st2 & c & imps & st3 & low
                 & _ & _ & _ & _ & H).
  destruct H as [(_ & _ & Hf) | (_ & v2 & r2 & st4 & c2 & i2 & _ & _ & Hf)];
    apply mk_answer_fields in Hf; tauto.
Qed.

(** What a completed loop has done to its state: it appended answers to
    questions of the batch, in order, and the accumulated map still gives
    the most recent value for every key. *)
Lemma batch_loop_returns self patient questions :
  forall acc answered st acc' answered' st',
    batch_loop self patient questions acc answered st
    = (inr (acc', answered'), st') ->
    exists new,
      acc' = List.app acc new
      /\ subsequence (map a_question new) questions
      /\ ((forall k, Dict.get answered k = last_answer_for k acc) ->
          forall k, Dict.get answered' k = last_answer_for k acc').
Proof.
  induction questions as [|question rest IH];
    intros acc answered st acc' answered' st' H; cbn [batch_loop] in H.
  - inversion H; subst. exists []. rewrite app_nil_r.
    repeat split; auto. constructor.
  - destruct (skipped question answered).
    + apply IH in H. destruct H as (new & Hacc & Hsub & Hmap).
      exists new. repeat split; auto. now constructor.
    + unfold bind in H.
      destruct (generate_answer_with_confidence self patient question
                  (Some answered) st) as [[e|a] st1] eqn:Hg; [discriminate|].
      pose proof (pipeline_question _ _ _ _ _ _ _ Hg) as Hq.
      apply IH in H. destruct H as (new & Hacc & Hsub & Hmap).
      exists (a :: new). rewrite <- app_assoc in Hacc.
      split; [exact Hacc|]. split.
      * cbn [map]. rewrite Hq. now constructor.
      * intros Hinv. apply Hmap. intros k.
        rewrite dict_get_set. unfold last_answer_for.
        rewrite rev_app_distr. cbn [rev List.app find]. rewrite Hq.
        destruct (String.eqb k (q_key question)); [reflexivity|].
        apply Hinv.
Qed.

(** X8. The answers of a batch are answers to questions of the batch, in
    the order of the batch and at most one for each position: the list of
    the questions answered is the list of questions with some left out. *)
Theorem batch_answers_follow_question_order (self : LLMService)
  (patient : Patient) (questions : list Question) (st st' : State World)
  (answers : list AnswerWithConfidence) :
  process_questions_batch self patient questions st = (inr answers, st') ->
  subsequence (map a_question answers) questions
  /\ (List.length answers <= List.length questions)%nat.
Proof.
  unfold process_questions_batch, bind.
  destruct (batch_loop self patient questions [] Dict.empty st)
    as [[e|[acc answered]] st1] eqn:Hb; [discriminate|].
  intros H; inversion H; subst.
  apply batch_loop_returns in Hb. destruct Hb as (new & Hacc & Hsub & _).
  cbn in Hacc. subst new.
  split; [exact Hsub|].
  apply subsequence_length in Hsub. now rewrite length_map in Hsub.
Qed.

(** X9. The batch has no error handling of its own: when the pipeline
    raises on a question that is not skipped, the batch raises the same
    exception from the same state, the answers gathered so far are lost
    and the remaining questions are not looked at. *)
Theorem batch_failure_aborts (self : LLMService) (patient : Patient)
  (before rest rest' : list Question) (question : Question)
  (st st1 st2 : State World) (answers : list AnswerWithConfidence)
  (answered : Dict.t answer_value) (e : exn) :
  batch_loop self patient before [] Dict.empty st
  = (inr (answers, answered), st1) ->
  skipped question answered = false ->
  generate_answer_with_confidence self patient question (Some answered) st1
  = (inl e, st2) ->
  process_questions_batch self patient
    (List.app before (question :: rest)) st = (inl e, st2)
  /\ process_questions_batch self patient
       (List.app before (question :: rest)) st
     = process_questions_batch self patient
         (List.app before (question :: rest')) st.
Proof.
  intros Hb Hs Hg.
  assert (H : forall r, process_questions_batch self patient
                          (List.app before (question :: r)) st = (inl e, st2)).
  { intros r. unfold process_questions_batch, bind.
    rewrite batch_loop_app, Hb. cbn [batch_loop]. rewrite Hs.
    unfold bind. now rewrite Hg. }
  split; [apply H|]. now rewrite !H.
Qed.

(** X10. The accumulated map of a batch gives, for every key, the value of
    the most recent answer to a question with that key, and nothing for a
    key no answered question has: skipped questions leave no entry, and a
    later answer for the same key replaces the earlier one. *)
Theorem batch_map_holds_latest_answers (self : LLMService)
  (patient : Patient) (questions : list Question) (st st' : State World)
  (answers : list AnswerWithConfidence) (answered : Dict.t answer_value) :
  batch_loop self patient questions [] Dict.empty st
  = (inr (answers, answered), st') ->
  forall k, Dict.get answered k = last_answer_for k answers.
Proof.
  intros Hb. apply batch_loop_returns in Hb.
  destruct Hb as (new & _ & _ & Hmap). apply Hmap. reflexivity.
Qed.

Lemma batch_loop_unconditional self patient questions :
  (forall question, In question questions ->
     q_visible_if question = None \/ q_visible_if question = Some "") ->
  forall acc answered st acc' answered' st',
    batch_loop self patient questions acc answered st
    = (inr (acc', answered'), st') ->
    exists new, acc' = List.app acc new /\ map a_question new = questions.
Proof.
  induction questions as [|question rest IH];
    intros Hvis acc answered st acc' answered' st' H; cbn [batch_loop] in H.
  - inversion H; subst. exists []. now rewrite app_nil_r.
  - assert (Hs : skipped question answered = false).
    { unfold skipped.
      destruct (Hvis question (or_introl eq_refl)) as [-> | ->]; reflexivity. }
    rewrite Hs in H. unfold bind in H.
    destruct (generate_answer_with_confidence self patient question
                (Some answered) st) as [[e|a] st1] eqn:Hg; [discriminate|].
    pose proof (pipeline_question _ _ _ _ _ _ _ Hg) as Hq.
    apply IH in H; [|intros q Hin; apply Hvis; now right].
    destruct H as (new & Hacc & Hmap).
    exists (a :: new). rewrite <- app_assoc in Hacc.
    split; [exact Hacc|]. cbn [map]. now rewrite Hq, Hmap.
Qed.

(** X11. When no question of the batch carries a visibility condition, a
    batch that returns has answered every question: its answers are
    answers to exactly the questions given, one each, in order. *)
Theorem unconditional_batch_answers_all (self : LLMService)
  (patient : Patient) (questions : list Question) (st st' : State World)
  (answers : list AnswerWithConfidence) :
  (forall question, In question questions ->
     q_visible_if question = None \/ q_visible_if question = Some "") ->
  process_questions_batch self patient questions st = (inr answers, st') ->
  map a_question answers = questions.
Proof.
  intros Hvis. unfold process_questions_batch, bind.
  destruct (batch_loop self patient questions [] Dict.empty st)
    as [[e|[acc answered]] st1] eqn:Hb; [discriminate|].
  intros H; inversion H; subst.
  apply (batch_loop_unconditional _ _ _ Hvis) in Hb.
  destruct Hb as (new & Hacc & Hmap). cbn in Hacc. now subst.
Qed.

(** X12. A question gated by a well-formed clause [{key} = value] is
    answered in a batch only after an answer of the same batch for [key]
    whose value, as a string, equals [value] up to letter case: if the loop
    does not skip it, the most recent answer for [key] matches. *)
Theorem gated_question_needs_matching_answer (self : LLMService)
  (patient : Patient) (before : list Question) (question : Question)
  (st st1 : State World) (answers : list AnswerWithConfidence)
  (answered : Dict.t answer_value) (key ws1 ws2 value : string) :
  batch_loop self patient before [] Dict.empty st
  = (inr (answers, answered), st1) ->
  q_visible_if question = Some (clause_text key ws1 ws2 value) ->
  key <> "" ->
  all_chars (fun c => negb (Ascii.eqb c "}")) key = true ->
  PyStr.strip ws1 = "" ->
  PyStr.strip ws2 = "" ->
  value <> "" ->
  PyStr.strip value = value ->
  all_chars PyStr.not_newline value = true ->
  PyStr.contains " and " (clause_text key ws1 ws2 value) = false ->
  skipped question answered = false ->
  exists v,
    last_answer_for key answers = Some v
    /\ PyStr.lower (Answer.str v) = PyStr.lower value.
Proof.
  intros Hb Hvis Hk Hkb Hw1 Hw2 Hv Hs Hnl Hc Hskip.
  destruct (re_match_clause key ws1 ws2 value Hk Hkb Hw1 Hw2 Hv Hs Hnl)
    as [Hstrip Hmatch].
  unfold skipped in Hskip. rewrite Hvis in Hskip.
  rewrite evaluate_condition_equation, Hc, Hstrip, Hmatch, Hs in Hskip.
  cbn [clause_text append PyStr.is_empty negb andb] in Hskip.
  apply batch_loop_returns in Hb. destruct Hb as (new & _ & _ & Hmap).
  rewrite (Hmap ltac:(reflexivity) key) in Hskip.
  destruct (last_answer_for key answers) as [v|]; [|discriminate].
  exists v. split; [reflexivity|].
  apply String.eqb_eq. now destruct (String.eqb _ _).
Qed.

(** ** Dates *)

(** X13. The age is negative exactly when the date of birth lies after
    today: the computation accepts such a date and returns a negative
    number. *)
Theorem age_negative_iff_born_in_future (date_of_birth : string)
  (y m d : Z) (st : State World) :
  Strptime.strptime_ymd date_of_birth = inr (y, m, d) ->
  let today := fst (datetime_now (world st)) in
  exists age,
    fst (_calculate_age date_of_birth st) = inr age
    /\ (age < 0 <->
        year today < y
        \/ (year today = y
            /\ (month today < m \/ (month today = m /\ day today < d)))).
Proof.
  intros Hp today.
  exists (age_on today (y, m, d)). split.
  - unfold _calculate_age, bind, now, ret. rewrite Hp. cbn [lift ret].
    unfold today. destruct (datetime_now (world st)); reflexivity.
  - unfold age_on, month_day_lt.
    destruct (month today <? m) eqn:E1; cbn [orb].
    + apply Z.ltb_lt in E1. lia.
    + apply Z.ltb_ge in E1.
      destruct (month today =? m) eqn:E2; cbn [andb].
      * apply Z.eqb_eq in E2.
        destruct (day today <? d) eqn:E3;
          [apply Z.ltb_lt in E3|apply Z.ltb_ge in E3]; lia.
      * apply Z.eqb_neq in E2. lia.
Qed.

Lemma digit_range p d : Strptime.digit p = Some d -> 0 <= d <= 9.
Proof.
  unfold Strptime.digit.
  destruct ((0x30 <=? p) && (p <=? 0x39)) eqn:E; [|discriminate].
  apply andb_true_iff in E. destruct E as [E1 E2].
  apply Z.leb_le in E1. apply Z.leb_le in E2.
  intros H. injection H as <-. lia.
Qed.

Lemma digit_in_range lo hi p d :
  Strptime.digit_in lo hi p = Some d -> lo <= d <= hi.
Proof.
  unfold Strptime.digit_in. destruct (Strptime.digit p); [|discriminate].
  destruct ((lo <=? z) && (z <=? hi)) eqn:E; [|discriminate].
  apply andb_true_iff in E. destruct E as [E1 E2].
  apply Z.leb_le in E1. apply Z.leb_le in E2.
  intros H; inversion H; subst. lia.
Qed.

(** A decimal digit of any script has a value from 0 to 9. *)
Lemma decimal_range p d : Unicode.decimal p = Some d -> 0 <= d <= 9.
Proof.
  unfold Unicode.decimal.
  destruct (find _ Unicode.decimal_zeros) as [zero|] eqn:E; [|discriminate].
  apply find_some in E. destruct E as [_ E].
  apply andb_true_iff in E. destruct E as [E1 E2].
  apply Z.leb_le in E1. apply Z.leb_le in E2.
  intros H. injection H as <-. lia.
Qed.

Lemma some_eq {A} (a b : A) : Some a = Some b -> a = b.
Proof. congruence. Qed.

Lemma pair_eq {A B} (a a' : A) (b b' : B) :
  (a, b) = (a', b') -> a = a' /\ b = b'.
Proof. intros H. split; congruence. Qed.

Ltac break_all :=
  repeat match goal with
    | H : context [match ?x with _ => _ end] |- _ =>
        destruct x eqn:?; try discriminate
    end.

Ltac some_eqs :=
  repeat match goal with
    | H : Some _ = Some _ |- _ => apply some_eq in H
    | H : (_, _) = (_, _) |- _ => apply pair_eq in H; destruct H as [? ?]
    | H : ?x = (_, _) |- _ => is_var x; subst x
    end;
  subst.

Ltac digit_ranges :=
  repeat match goal with
    | E : Strptime.digit_in _ _ _ = Some _ |- _ => apply digit_in_range in E
    | E : Strptime.digit _ = Some _ |- _ => apply digit_range in E
    | E : Unicode.decimal _ = Some _ |- _ => apply decimal_range in E
    end.

Lemma year_field_range l y r :
  Strptime.year_field l = Some (y, r) -> 0 <= y <= 9999.
Proof.
  unfold Strptime.year_field.
  destruct l as [|a [|b [|c [|d rest]]]]; try discriminate.
  destruct (Unicode.decimal a) as [da|] eqn:Ea; [|discriminate].
  destruct (Unicode.decimal b) as [db|] eqn:Eb; [|discriminate].
  destruct (Unicode.decimal c) as [dc|] eqn:Ec; [|discriminate].
  destruct (Unicode.decimal d) as [dd|] eqn:Ed; [|discriminate].
  intros H.
  assert (Hy : y = 1000 * da + 100 * db + 10 * dc + dd) by congruence.
  digit_ranges. lia.
Qed.

Lemma month_field_range l m r :
  Strptime.month_field_dash l = Some (m, r) -> 1 <= m <= 12.
Proof.
  unfold Strptime.month_field_dash. intros H. cbv zeta in H.
  break_all; some_eqs; digit_ranges; lia.
Qed.

Lemma day_field_range l d r :
  Strptime.day_field l = Some (d, r) -> 1 <= d <= 31.
Proof.
  unfold Strptime.day_field. intros H. cbv zeta in H.
  break_all; some_eqs; digit_ranges; lia.
Qed.

Lemma days_in_month_range y m : 28 <= Strptime.days_in_month y m <= 31.
Proof.
  unfold Strptime.days_in_month.
  destruct (m =? 2); [destruct (Strptime.is_leap y); lia|].
  destruct ((m =? 4) || (m =? 6) || (m =? 9) || (m =? 11)); lia.
Qed.

(** A date that [strptime] accepts for the format [%Y-%m-%d] is a date of
    the calendar: the year is between 1 and 9999, the month between 1 and
    12, and the day between 1 and the length of that month. *)
Lemma strptime_returns_calendar_date (s : string) (y m d : Z) :
  Strptime.strptime_ymd s = inr (y, m, d) ->
  1 <= y <= 9999 /\ 1 <= m <= 12
  /\ 1 <= d <= Strptime.days_in_month y m
  /\ Strptime.days_in_month y m <= 31.
Proof.
  unfold Strptime.strptime_ymd. intros H.
  destruct (Strptime.year_field (Utf8.decode s)) as [[y0 l0]|] eqn:Hy;
    [|discriminate].
  destruct l0 as [|c l1]; [discriminate|].
  destruct (c =? Strptime.dash); [|discriminate].
  destruct (Strptime.month_field_dash l1) as [[m0 l2]|] eqn:Hm;
    [|discriminate].
  destruct (Strptime.day_field l2) as [[d0 [|? ?]]|] eqn:Hd;
    try discriminate.
  destruct ((1 <=? y0) && (d0 <=? Strptime.days_in_month y0 m0)) eqn:Hok;
    [|discriminate].
  inversion H; subst.
  apply andb_true_iff in Hok. destruct Hok as [H1 H2].
  apply Z.leb_le in H1. apply Z.leb_le in H2.
  apply year_field_range in Hy. apply month_field_range in Hm.
  apply day_field_range in Hd.
  pose proof (days_in_month_range y m). lia.
Qed.

(** X14. An age that [_calculate_age] returns lies between the current year
    less 10000 and the current year less 1: the year of birth is one of
    1..9999, and nothing else bounds the age, neither below at zero nor
    above. *)
Theorem calculate_age_bounds (date_of_birth : string) (age : Z)
  (st : State World) :
  fst (_calculate_age date_of_birth st) = inr age ->
  let today := fst (datetime_now (world st)) in
  year today - 10000 <= age <= year today - 1.
Proof.
  intros H today. unfold _calculate_age, bind, now, ret in H.
  destruct (Strptime.strptime_ymd date_of_birth) as [e|[[y m] d]] eqn:Hp;
    cbn [lift raise ret] in H; [discriminate|].
  unfold today. destruct (datetime_now (world st)) as [t w].
  cbn [fst] in *. apply strptime_returns_calendar_date in Hp.
  assert (Ha : age = age_on t (y, m, d)) by congruence.
  rewrite Ha. unfold age_on.
  destruct (month_day_lt (month t) (day t) m d); lia.
Qed.

(** ** Scores of the harness *)

Lemma truediv_int_unit (a b : Z) :
  0 <= a <= b -> 0 < b ->
  exists f, PyNum.truediv_int a b = inr f /\ in_unit_interval f.
Proof.
  intros Ha Hb. unfold PyNum.truediv_int.
  destruct (b =? 0) eqn:E; [apply Z.eqb_eq in E; lia|].
  assert (Hq : (0 < inject_Z b)%Q) by (unfold Qlt; cbn; lia).
  destruct (round_unit (Qdiv (inject_Z a) (inject_Z b))) as (v & Hv & H0 & H1).
  - apply Qle_shift_div_l; [exact Hq|].
    rewrite Qmult_0_l. unfold Qle; cbn; lia.
  - apply Qle_shift_div_r; [exact Hq|].
    rewrite Qmult_1_l. unfold Qle; cbn; lia.
  - eexists. split; [reflexivity|]. exists v. auto.
Qed.

Lemma filter_length_le {A} (f : A -> bool) (l : list A) :
  (List.length (filter f l) <= List.length l)%nat.
Proof.
  induction l as [|x l IH]; cbn; [lia|]. destruct (f x); cbn; lia.
Qed.

Lemma reasoning_quality_range (actual_reasoning : option string)
  (expected_reasoning : string) :
  exists f,
    _evaluate_reasoning_quality actual_reasoning expected_reasoning = inr f
    /\ in_unit_interval f.
Proof.
  assert (Hzero : in_unit_interval PyFloat.lit_0_0).
  { exists 0%Q. repeat split; unfold Qle; cbn; lia. }
  destruct actual_reasoning as [[|c s]|].
  1, 3: exists PyFloat.lit_0_0; cbn; auto.
  unfold _evaluate_reasoning_quality.
  set (actual := String c s).
  set (keys := PyStr.split_ws (PyStr.lower expected_reasoning)).
  set (matched := filter _ keys).
  assert (Hm : (List.length matched <= List.length keys)%nat)
    by apply filter_length_le.
  clearbody matched keys.
  match goal with
  | |- context [match ?m with inl _ => _ | inr _ => _ end] => set (cv := m)
  end.
  assert (Hcov : exists cov, cv = inr cov /\ in_unit_interval cov).
  { subst cv. destruct keys as [|k keys']; [eauto|].
    apply truediv_int_unit; cbn [List.length] in *; lia. }
  clearbody cv.
  destruct Hcov as (cov & -> & (q & -> & Hq0 & Hq1)).
  cbv zeta.
  assert (Hscore : in_unit_interval
            (if PyFloat.lt (PyNum.mul (FFin q) PyNum.lit_1_2) PyFloat.lit_1_0
             then PyNum.mul (FFin q) PyNum.lit_1_2
             else PyFloat.lit_1_0)).
  { assert (Hone : in_unit_interval PyFloat.lit_1_0).
    { exists 1%Q. repeat split; unfold Qle; cbn; lia. }
    unfold PyNum.mul, PyNum.lit_1_2.
    destruct (round_nonneg
                (Qmult q (5404319552844595 # 4503599627370496)))
      as [->|(v & -> & Hv)].
    - apply Qmult_le_0_compat; [exact Hq0|]. unfold Qle; cbn; lia.
    - exact Hone.
    - unfold PyFloat.lt, PyFloat.lit_1_0.
      destruct (Qle_bool 1 v) eqn:E; cbn [negb]; [exact Hone|].
      exists v. repeat split; [exact Hv|].
      apply Qlt_le_weak. apply Qnot_le_lt. intros Hc.
      apply Qle_bool_iff in Hc. congruence. }
  destruct Hscore as (v & Hv & Hv0 & Hv1). rewrite Hv.
  eexists. split; [reflexivity|].
  destruct (PyStr.len actual <? 20); [|exists v; auto].
  unfold PyNum.mul, PyNum.lit_0_5.
  destruct (round_unit (Qmult v (1 # 2))) as (u & Hu & Hu0 & Hu1).
  - apply Qmult_le_0_compat; [exact Hv0|]. unfold Qle; cbn; lia.
  - apply Qle_trans with (1 * (1 # 2))%Q.
    + apply Qmult_le_compat_r; [exact Hv1|]. unfold Qle; cbn; lia.
    + unfold Qle; cbn; lia.
  - exists u. auto.
Qed.

(** X15. The reasoning score never raises, whatever the two texts are, and
    lies between 0.0 and 1.0: the bonus factor 1.2 is capped at 1.0 and the
    penalty for a short reasoning only halves the score.  A missing or
    empty reasoning scores 0.0 whatever was expected. *)
Theorem reasoning_quality_in_unit_interval :
  (forall actual_reasoning expected_reasoning,
      exists f,
        _evaluate_reasoning_quality actual_reasoning expected_reasoning
        = inr f
        /\ in_unit_interval f)
  /\ (forall expected_reasoning,
        _evaluate_reasoning_quality None expected_reasoning
        = inr PyFloat.lit_0_0
        /\ _evaluate_reasoning_quality (Some "") expected_reasoning
           = inr PyFloat.lit_0_0).
Proof.
  split; [exact reasoning_quality_range|].
  intros expected_reasoning. split; reflexivity.
Qed.

(** ** Results of the harness *)

Lemma pipeline_confidence_range self patient question previous_answers
  st a st' :
  generate_answer_with_confidence self patient question previous_answers st
  = (inr a, st') ->
  in_unit_interval (a_confidence a).
Proof.
  intros H. apply pipeline_returns in H.
  destruct H as (ctx0 & st1 & v & r & st2 & c & imps & st3 & low
                 & _ & _ & _ & _ & H).
  destruct H as [(_ & _ & Hf) | (_ & v2 & r2 & st4 & c2 & i2 & _ & _ & Hf)];
    apply mk_answer_fields in Hf; destruct Hf as (_ & _ & Hc & _);
    apply validated_confidence_range in Hc; exact Hc.
Qed.

Lemma variation_is_correct actual expected variations :
  Answer.mem actual variations = true ->
  _check_answer_correctness actual expected (Some variations) = true.
Proof.
  intros H. unfold _check_answer_correctness.
  destruct (Answer.eqb actual expected); [reflexivity|].
  destruct variations as [|v l]; [discriminate|]. now rewrite H.
Qed.

Lemma unit_interval_zero : in_unit_interval PyFloat.lit_0_0.
Proof. exists 0%Q. repeat split; unfold Qle; cbn; lia. Qed.

(** What [evaluate_single_test] returns, and what it leaves alone. *)
Lemma evaluate_single_test_result self test_case st r st' :
  evaluate_single_test self test_case st = (inr r, st') ->
  consistent_result r
  /\ r_question_key r = q_key (tc_question test_case)
  /\ r_expected r = tc_expected_answer test_case
  /\ historical_results st' = historical_results st.
Proof.
  unfold evaluate_single_test, bind, try_except, now.
  destruct (datetime_now (world st)) as [t w] eqn:Hnow.
  pose proof (pipeline_history (llm_service self) (tc_patient test_case)
                (tc_question test_case) None
                (mk_state w (stages st) (historical_results st))) as Hh.
  destruct (generate_answer_with_confidence (llm_service self)
              (tc_patient test_case) (tc_question test_case) None
              (mk_state w (stages st) (historical_results st)))
    as [[e|a] st1] eqn:Hg; cbn [snd historical_results] in Hh.
  - destruct (datetime_now (world st1)) as [t1 w1]. unfold ret.
    intros H. inversion H; subst; clear H.
    cbn [historical_results].
    repeat split; try reflexivity; try exact unit_interval_zero.
    exact Hh.
  - destruct (datetime_now (world st1)) as [t1 w1].
    destruct (reasoning_quality_range (a_reasoning a)
                (tc_reasoning test_case)) as (quality & -> & Hq).
    cbn [lift raise ret world stages historical_results]. unfold ret.
    intros H. inversion H; subst; clear H.
    cbn [historical_results].
    repeat split; try reflexivity; try exact Hh.
    + cbn [r_is_acceptable r_is_correct].
      destruct (_check_answer_correctness (a_value a)
                  (tc_expected_answer test_case)
                  (tc_acceptable_variations test_case)) eqn:Hc;
        [reflexivity|].
      cbn [orb].
      destruct (tc_acceptable_variations test_case) as [l|];
        [|reflexivity].
      destruct (Answer.mem (a_value a) l) eqn:Hm; [|reflexivity].
      rewrite (variation_is_correct _ _ _ Hm) in Hc. discriminate.
    + cbn [r_confidence].
      exact (pipeline_confidence_range _ _ _ _ _ _ _ Hg).
    + exact Hq.
Qed.

(** X16. In every result of [evaluate_single_test] the flags
    [is_acceptable] and [is_correct] are equal: an answer among the
    acceptable variations already counts as correct, so the second operand
    of the disjunction never adds anything. *)
Theorem acceptable_iff_correct (self : EvaluationPipeline)
  (test_case : TestCase) (st st' : State World) (r : EvaluationResult) :
  evaluate_single_test self test_case st = (inr r, st') ->
  r_is_acceptable r = r_is_correct r.
Proof.
  intros H. apply evaluate_single_test_result in H.
  destruct H as ((H & _) & _). exact H.
Qed.

(** X17. The confidence and the reasoning score of every result of
    [evaluate_single_test] lie between 0.0 and 1.0, the question key and the
    expected answer are those of the test case, and the evaluation history
    is left as it was. *)
Theorem result_scores_in_unit_interval (self : EvaluationPipeline)
  (test_case : TestCase) (st st' : State World) (r : EvaluationResult) :
  evaluate_single_test self test_case st = (inr r, st') ->
  in_unit_interval (r_confidence r)
  /\ in_unit_interval (r_reasoning_quality r)
  /\ r_question_key r = q_key (tc_question test_case)
  /\ r_expected r = tc_expected_answer test_case
  /\ historical_results st' = historical_results st.
Proof.
  intros H. apply evaluate_single_test_result in H.
  destruct H as ((_ & Hc & Hq) & Hk & He & Hh). auto.
Qed.

(** ** The evaluation run *)

Lemma run_test_cases_result self cases :
  forall results st rs st',
    run_test_cases self cases results st = (inr rs, st') ->
    exists new,
      rs = List.app results new
      /\ List.length new = List.length cases
      /\ historical_results st' = List.app (historical_results st) new
      /\ Forall consistent_result new
      /\ map r_question_key new
         = map (fun test_case => q_key (tc_question test_case)) cases.
Proof.
  induction cases as [|test_case cases IH]; intros results st rs st';
    cbn [run_test_cases].
  - unfold ret. intros H. inversion H; subst. exists [].
    rewrite !app_nil_r. repeat split. constructor.
  - unfold bind.
    destruct (evaluate_single_test self test_case st) as [[e|r] st1] eqn:Hr;
      [discriminate|].
    unfold record_history. intros H. apply IH in H.
    destruct H as (new & -> & Hlen & Hh & Hall & Hkeys).
    cbn [historical_results] in Hh.
    apply evaluate_single_test_result in Hr.
    destruct Hr as (Hc & Hk & _ & Hh1).
    exists (r :: new). rewrite <- !app_assoc in *. cbn [List.app] in *.
    rewrite Hh1 in Hh. cbn [List.length map].
    repeat split; try congruence. constructor; assumption.
Qed.

(** The report of a run, field by field. *)
Lemma run_full_evaluation_explicit self st :
  exists rs st1 acc conf time cats t w,
    run_test_cases self (test_cases self) [] st = (inr rs, st1)
    /\ (if 0 <? len rs
        then PyNum.truediv_int (len (filter r_is_acceptable rs)) (len rs)
        else inr PyFloat.lit_0_0) = inr acc
    /\ match filter (PyFloat.lt PyFloat.lit_0_0) (map r_confidence rs)
             return result pyfloat with
       | [] => inr PyFloat.lit_0_0
       | _ :: _ => PyNum.mean (filter (PyFloat.lt PyFloat.lit_0_0)
                                 (map r_confidence rs))
       end = inr conf
    /\ match map r_response_time_ms rs return result pyfloat with
       | [] => inr PyFloat.lit_0_0
       | _ :: _ => PyNum.mean (map r_response_time_ms rs)
       end = inr time
    /\ _analyze_by_category self rs = inr cats
    /\ datetime_now (world st1) = (t, w)
    /\ run_full_evaluation self st
       = (inr (mk_report t (len rs) (len (filter r_is_acceptable rs))
                 (len rs - len (filter r_is_acceptable rs))
                 acc conf (PyNum.abs (PyNum.sub conf acc)) time cats
                 (_identify_problem_areas rs cats)
                 (_generate_recommendations acc
                    (PyNum.abs (PyNum.sub conf acc))
                    (_identify_problem_areas rs cats))),
          mk_state w (stages st1) (historical_results st1)).
Proof.
  destruct (run_test_cases_returns self (test_cases self) [] st)
    as (rs & st1 & Hrun & Hlen).
  unfold run_full_evaluation, bind. rewrite Hrun.
  assert (Hacc : exists acc,
             (if 0 <? len rs
              then PyNum.truediv_int (len (filter r_is_acceptable rs))
                     (len rs)
              else inr PyFloat.lit_0_0) = inr acc).
  { destruct (0 <? len rs) eqn:Epos; [|eauto].
    apply Z.ltb_lt in Epos. apply truediv_int_returns. lia. }
  destruct Hacc as [acc Hacc].
  assert (Hcats : exists cats, _analyze_by_category self rs = inr cats)
    by apply average_categories_returns.
  destruct Hcats as [cats Hcats].
  cbv beta iota zeta.
  rewrite Hacc; cbn [lift ret].
  assert (Hconf : exists conf,
             match filter (PyFloat.lt PyFloat.lit_0_0)
                     (map r_confidence rs) return result pyfloat with
             | [] => inr PyFloat.lit_0_0
             | _ :: _ =>
                 PyNum.mean (filter (PyFloat.lt PyFloat.lit_0_0)
                               (map r_confidence rs))
             end = inr conf).
  { destruct (filter (PyFloat.lt PyFloat.lit_0_0) (map r_confidence rs))
      as [|x l]; [eauto|apply mean_returns]. }
  destruct Hconf as [conf Hconf]; rewrite Hconf; cbn [lift ret].
  assert (Htime : exists time,
             match map r_response_time_ms rs return result pyfloat with
             | [] => inr PyFloat.lit_0_0
             | _ :: _ => PyNum.mean (map r_response_time_ms rs)
             end = inr time).
  { destruct (map r_response_time_ms rs) as [|x l];
      [eauto|apply mean_returns]. }
  destruct Htime as [time Htime]; rewrite Htime; cbn [lift ret].
  rewrite Hcats; cbn [lift ret].
  unfold now, ret. destruct (datetime_now (world st1)) as [t w] eqn:Hnow.
  exists rs, st1, acc, conf, time, cats, t, w.
  repeat split; try assumption; reflexivity.
Qed.

Lemma sum_parts_unit (l : list pyfloat) :
  Forall in_unit_interval l ->
  forall acc,
  exists total,
    PyNum.sum_parts l acc None = (total, None)
    /\ (acc <= total)%Q
    /\ (total <= acc + inject_Z (Z.of_nat (List.length l)))%Q.
Proof.
  induction 1 as [|x l (q & -> & Hq0 & Hq1) _ IH]; intros acc;
    cbn [PyNum.sum_parts List.length].
  - exists acc. split; [reflexivity|].
    change (inject_Z (Z.of_nat 0)) with 0%Q. lra.
  - destruct (IH (Qplus acc q)) as (total & -> & Hlo & Hhi).
    exists total. split; [reflexivity|].
    rewrite Nat2Z.inj_succ, <- Z.add_1_r, inject_Z_plus.
    change (inject_Z 1) with 1%Q.
    split; lra.
Qed.

Lemma mean_unit (x : pyfloat) (l : list pyfloat) :
  Forall in_unit_interval (x :: l) ->
  exists f, PyNum.mean (x :: l) = inr f /\ in_unit_interval f.
Proof.
  intros H. unfold PyNum.mean.
  destruct (sum_parts_unit (x :: l) H 0%Q) as (total & -> & Hlo & Hhi).
  set (n := inject_Z (Z.of_nat (List.length (x :: l)))) in *.
  assert (Hn : (0 < n)%Q).
  { unfold n, Qlt. cbn. lia. }
  destruct (round_unit (Qdiv total n)) as (v & Hv & Hv0 & Hv1).
  - apply Qle_shift_div_l; [exact Hn|]. lra.
  - apply Qle_shift_div_r; [exact Hn|]. lra.
  - eexists. split; [reflexivity|]. exists v. auto.
Qed.

Lemma calibration_unit (conf acc : pyfloat) :
  in_unit_interval conf -> in_unit_interval acc ->
  in_unit_interval (PyNum.abs (PyNum.sub conf acc)).
Proof.
  intros (c & -> & Hc0 & Hc1) (a & -> & Ha0 & Ha1).
  unfold PyNum.sub, PyNum.add, FloatOfString.negate.
  destruct (round_symmetric_unit (Qplus c (Qopp a))) as (v & -> & Hv0 & Hv1);
    [lra|lra|].
  exists (Qabs v). split; [reflexivity|].
  split; [apply Qabs_nonneg|]. apply Qabs_Qle_condition. split; lra.
Qed.

Lemma consistent_confidences (rs : list EvaluationResult) :
  Forall consistent_result rs ->
  Forall in_unit_interval
    (filter (PyFloat.lt PyFloat.lit_0_0) (map r_confidence rs)).
Proof.
  intros H. apply Forall_forall. intros f Hf.
  apply filter_In in Hf. destruct Hf as [Hf _].
  apply in_map_iff in Hf. destruct Hf as (r & <- & Hr).
  rewrite Forall_forall in H. apply (H r Hr).
Qed.

(** X18. The scores of a report: accuracy, average confidence and
    calibration error all lie between 0.0 and 1.0, and the counts satisfy
    [0 <= passed <= total] with [failed = total - passed]. *)
Theorem report_scores_in_unit_interval (self : EvaluationPipeline)
  (st st' : State World) (report : EvaluationReport) :
  run_full_evaluation self st = (inr report, st') ->
  0 <= rep_passed report <= rep_total_tests report
  /\ rep_failed report = rep_total_tests report - rep_passed report
  /\ in_unit_interval (rep_accuracy report)
  /\ in_unit_interval (rep_average_confidence report)
  /\ in_unit_interval (rep_confidence_calibration_error report).
Proof.
  intros H.
  destruct (run_full_evaluation_explicit self st)
    as (rs & st1 & acc & conf & time & cats & t & w
        & Hrun & Hacc & Hconf & _ & _ & _ & Hrep).
  rewrite Hrep in H. inversion H; subst; clear H.
  cbn [rep_passed rep_total_tests rep_failed rep_accuracy
       rep_average_confidence rep_confidence_calibration_error].
  apply run_test_cases_result in Hrun.
  destruct Hrun as (new & Hrs & _ & _ & Hall & _).
  cbn [List.app] in Hrs. subst new.
  pose proof (filter_length_le r_is_acceptable rs) as Hle.
  assert (Hcount : 0 <= len (filter r_is_acceptable rs) <= len rs)
    by (unfold len; lia).
  assert (Ha : in_unit_interval acc).
  { destruct (0 <? len rs) eqn:E.
    - apply Z.ltb_lt in E.
      destruct (truediv_int_unit _ _ Hcount E) as (f & Hf & Hu).
      congruence.
    - inversion Hacc; subst. exact unit_interval_zero. }
  assert (Hc : in_unit_interval conf).
  { pose proof (consistent_confidences rs Hall) as Hf.
    destruct (filter (PyFloat.lt PyFloat.lit_0_0) (map r_confidence rs))
      as [|x l].
    - inversion Hconf; subst. exact unit_interval_zero.
    - destruct (mean_unit x l Hf) as (f & Hm & Hu). congruence. }
  repeat split; try lia; try assumption.
  apply calibration_unit; assumption.
Qed.

(** X19. A run appends to the evaluation history exactly one result per
    test case, in the order of the test cases, and keeps what the history
    held; the number of passed tests of the report is the number of these
    results that are flagged correct. *)
Theorem evaluation_run_extends_history (self : EvaluationPipeline)
  (st st' : State World) (report : EvaluationReport) :
  run_full_evaluation self st = (inr report, st') ->
  exists rs,
    historical_results st' = List.app (historical_results st) rs
    /\ map r_question_key rs
       = map (fun test_case => q_key (tc_question test_case))
           (test_cases self)
    /\ rep_total_tests report = len rs
    /\ rep_passed report = len (filter r_is_correct rs).
Proof.
  intros H.
  destruct (run_full_evaluation_explicit self st)
    as (rs & st1 & acc & conf & time & cats & t & w
        & Hrun & _ & _ & _ & _ & _ & Hrep).
  rewrite Hrep in H. inversion H; subst; clear H.
  cbn [rep_passed rep_total_tests historical_results].
  apply run_test_cases_result in Hrun.
  destruct Hrun as (new & Hrs & _ & Hh & Hall & Hkeys).
  cbn [List.app] in Hrs. subst new.
  exists rs. repeat split; try assumption.
  f_equal. apply filter_ext_in. intros r Hr.
  rewrite Forall_forall in Hall. destruct (Hall r Hr) as (Heq & _).
  exact Heq.
Qed.

(** ** Categories *)

Lemma dict_set_forall {V} (P : V -> Prop) (d : Dict.t V) k v :
  Forall (fun kv => P (snd kv)) d -> P v ->
  Forall (fun kv => P (snd kv)) (Dict.set d k v).
Proof.
  intros Hd Hv. induction Hd as [|[k' v'] d Hkv Hd IH]; cbn [Dict.set].
  - constructor; [exact Hv|constructor].
  - destruct (String.eqb k k'); constructor; auto.
Qed.

Lemma dict_get_forall {V} (P : V -> Prop) (d : Dict.t V) k v :
  Forall (fun kv => P (snd kv)) d -> Dict.get d k = Some v -> P v.
Proof.
  intros Hd. induction Hd as [|[k' v'] d Hkv Hd IH]; cbn [Dict.get];
    [discriminate|].
  destruct (String.eqb k k'); [|exact IH].
  intros H. inversion H; subst. exact Hkv.
Qed.

Lemma dict_set_set {V} (d : Dict.t V) k v0 v :
  Dict.set (Dict.set d k v0) k v = Dict.set d k v.
Proof.
  induction d as [|[k' v'] d IH]; cbn [Dict.set].
  - now rewrite String.eqb_refl.
  - destruct (String.eqb k k') eqn:E; cbn [Dict.set]; rewrite E;
      [reflexivity|now rewrite IH].
Qed.

Lemma count_in_category_counted categories tag r :
  Forall (fun kv => counted_category (snd kv)) categories ->
  Forall (fun kv => counted_category (snd kv))
    (count_in_category categories tag r).
Proof.
  intros H. unfold count_in_category, Dict.mem.
  destruct (Dict.get categories tag) as [s|] eqn:Hg.
  - rewrite Hg. apply dict_set_forall; [exact H|].
    pose proof (dict_get_forall _ _ _ _ H Hg) as (Ht & Hp).
    unfold counted_category. cbn [cat_total cat_passed].
    destruct (r_is_acceptable r); lia.
  - rewrite dict_get_set, String.eqb_refl, dict_set_set.
    apply dict_set_forall; [exact H|].
    unfold counted_category, new_category. cbn [cat_total cat_passed].
    destruct (r_is_acceptable r); lia.
Qed.

Lemma average_category_consistent s s' :
  counted_category s -> average_category s = inr s' ->
  consistent_category s'.
Proof.
  intros (Ht & Hp) H. unfold average_category in H.
  destruct (0 <? cat_total s) eqn:E; [|apply Z.ltb_ge in E; lia].
  destruct (truediv_int_unit (cat_passed s) (cat_total s) Hp ltac:(lia))
    as (acc & Hacc & Hu).
  rewrite Hacc in H.
  destruct (PyNum.truediv_float_int (cat_avg_confidence s) (cat_total s));
    [discriminate|].
  destruct (PyNum.truediv_float_int (cat_avg_response_time s) (cat_total s));
    [discriminate|].
  inversion H; subst. unfold consistent_category, counted_category.
  cbn [cat_total cat_passed cat_accuracy]. auto.
Qed.

Lemma average_categories_consistent d d' :
  Forall (fun kv => counted_category (snd kv)) d ->
  average_categories d = inr d' ->
  Forall (fun kv => consistent_category (snd kv)) d'
  /\ map fst d' = map fst d.
Proof.
  intros H. revert d'.
  induction H as [|[tag s] d Hs Hd IH]; intros d'; cbn [average_categories].
  - intros E. inversion E; subst. split; [constructor|reflexivity].
  - destruct (average_category s) as [e|s'] eqn:Es; [discriminate|].
    destruct (average_categories d) as [e|r]; [discriminate|].
    intros E. inversion E; subst.
    destruct (IH r eq_refl) as (Hall & Hkeys).
    split; [constructor; [|exact Hall]|cbn [map fst]; now rewrite Hkeys].
    exact (average_category_consistent _ _ Hs Es).
Qed.

(** X20. The statistics by category never raise, and every category of
    the result has been counted at least once: [1 <= total],
    [0 <= passed <= total], and its accuracy lies between 0.0 and 1.0. *)
Theorem category_statistics_consistent (self : EvaluationPipeline)
  (results : list EvaluationResult) :
  exists categories,
    _analyze_by_category self results = inr categories
    /\ Forall (fun kv => consistent_category (snd kv)) categories.
Proof.
  unfold _analyze_by_category.
  set (counts := fold_left _ _ Dict.empty).
  assert (Hc : Forall (fun kv => counted_category (snd kv)) counts).
  { unfold counts.
    assert (Hgen : forall pairs d,
               Forall (fun kv => counted_category (snd kv)) d ->
               Forall (fun kv => counted_category (snd kv))
                 (fold_left
                    (fun categories '(test_case, r) =>
                       fold_left
                         (fun categories tag =>
                            count_in_category categories tag r)
                         (tc_tags test_case) categories)
                    pairs d)).
    { induction pairs as [|[test_case r] pairs IH]; intros d Hd;
        cbn [fold_left]; [exact Hd|].
      apply IH. clear IH.
      revert d Hd. induction (tc_tags test_case) as [|tag tags IHt];
        intros d Hd; cbn [fold_left]; [exact Hd|].
      apply IHt. now apply count_in_category_counted. }
    apply Hgen. constructor. }
  destruct (average_categories_returns counts) as [cats Hcats].
  exists cats. split; [exact Hcats|].
  exact (proj1 (average_categories_consistent _ _ Hc Hcats)).
Qed.

(** ** A run in which every test case fails *)

Lemma failing_test_cases self cases :
  Forall (always_raises self) cases ->
  forall results st rs st',
    run_test_cases self cases results st = (inr rs, st') ->
    exists new,
      rs = List.app results new
      /\ Forall (fun r => r_confidence r = PyFloat.lit_0_0
                          /\ r_is_acceptable r = false) new.
Proof.
  induction 1 as [|test_case cases Hraise _ IH]; intros results st rs st';
    cbn [run_test_cases].
  - unfold ret. intros H. inversion H; subst. exists [].
    rewrite app_nil_r. split; [reflexivity|constructor].
  - unfold bind.
    destruct (evaluate_single_test_returns self test_case st)
      as (r & st1 & Hr & _ & Hfail).
    rewrite Hr. unfold record_history. intros H. apply IH in H.
    destruct H as (new & -> & Hall).
    exists (r :: new). rewrite <- app_assoc. split; [reflexivity|].
    constructor; [|exact Hall].
    destruct (datetime_now (world st)) as [t w] eqn:Hnow.
    destruct (Hraise (mk_state w (stages st) (historical_results st)))
      as (e & st2 & He).
    destruct (Hfail t w e st2 eq_refl He) as (_ & _ & Ha & Hc & _). auto.
Qed.

(** X21. When the pipeline raises on every test case (and so also when
    there is no test case), the report shows no passed test, accuracy 0.0,
    average confidence 0.0 and calibration error 0.0: the failed results,
    with their confidence 0.0, are left out of the average, and the run is
    not reported as badly calibrated. *)
Theorem failing_run_reports_no_calibration_error (self : EvaluationPipeline)
  (st st' : State World) (report : EvaluationReport) :
  Forall (always_raises self) (test_cases self) ->
  run_full_evaluation self st = (inr report, st') ->
  rep_passed report = 0
  /\ rep_failed report = rep_total_tests report
  /\ rep_accuracy report = PyFloat.lit_0_0
  /\ rep_average_confidence report = PyFloat.lit_0_0
  /\ rep_confidence_calibration_error report = PyFloat.lit_0_0
  /\ ~ In "Confidence scores need calibration - consider adjusting the critic model"
         (rep_recommendations report).
Proof.
  intros Hall H.
  destruct (run_full_evaluation_explicit self st)
    as (rs & st1 & acc & conf & time & cats & t & w
        & Hrun & Hacc & Hconf & _ & _ & _ & Hrep).
  rewrite Hrep in H. inversion H; subst; clear H Hrep.
  cbn [rep_passed rep_total_tests rep_failed rep_accuracy
       rep_average_confidence rep_confidence_calibration_error
       rep_recommendations].
  destruct (failing_test_cases self _ Hall _ _ _ _ Hrun)
    as (new & Hrs & Hfail).
  cbn [List.app] in Hrs. subst new.
  assert (Hpassed : filter r_is_acceptable rs = []).
  { clear Hrun Hacc Hconf. induction Hfail as [|r rs (_ & Ha) _ IH];
      cbn [filter]; [reflexivity|]. now rewrite Ha. }
  assert (Hconfs : filter (PyFloat.lt PyFloat.lit_0_0) (map r_confidence rs)
                   = []).
  { clear Hrun Hacc Hconf Hpassed.
    induction Hfail as [|r rs (Hc & _) _ IH];
      cbn [filter map]; [reflexivity|]. now rewrite Hc. }
  rewrite Hpassed in *. rewrite Hconfs in Hconf.
  change (len (@nil EvaluationResult)) with 0 in *.
  assert (Ha : acc = PyFloat.lit_0_0).
  { destruct (0 <? len rs) eqn:E; [|congruence].
    apply Z.ltb_lt in E. unfold PyNum.truediv_int in Hacc.
    destruct (len rs =? 0) eqn:E0; [apply Z.eqb_eq in E0; lia|].
    inversion Hacc; subst. reflexivity. }
  assert (Hc : conf = PyFloat.lit_0_0) by congruence.
  subst acc conf.
  change (PyNum.abs (PyNum.sub PyFloat.lit_0_0 PyFloat.lit_0_0))
    with PyFloat.lit_0_0.
  repeat split; try lia.
  unfold _generate_recommendations.
  change (PyFloat.lt PyFloat.lit_0_0 PyFloat.lit_0_9) with true.
  change (PyFloat.lt PyNum.lit_0_15 PyFloat.lit_0_0) with false.
  cbv iota.
  repeat match goal with
    | |- context [if ?b then _ else _] => destruct b
    end;
    cbn [List.app In]; intros Hin;
    repeat (destruct Hin as [Hin|Hin]; [discriminate Hin|]);
    exact Hin.
Qed.

(** ** The streaming endpoint *)

Lemma stream_loop self patient questions :
  forall yielded st lines err st',
    generate_answers_stream self patient questions yielded st
    = (lines, err, st') ->
    exists new,
      lines = List.app yielded new
      /\ map line_question_key new
         = map q_key (firstn (List.length new) questions)
      /\ (err = None -> List.length new = List.length questions)
      /\ (err <> None -> (List.length new < List.length questions)%nat)
      /\ Forall (fun line => in_unit_interval (line_confidence line)) new.
Proof.
  induction questions as [|question rest IH];
    intros yielded st lines err st'; cbn [generate_answers_stream].
  - intros H. inversion H; subst. exists []. rewrite app_nil_r.
    repeat split; try reflexivity; [congruence|constructor].
  - destruct (generate_answer_with_confidence self patient question None st)
      as [[e|a] st1] eqn:Hg.
    + intros H. inversion H; subst. exists []. rewrite app_nil_r.
      repeat split; try reflexivity; try discriminate;
        [cbn; lia|constructor].
    + intros H. apply IH in H.
      destruct H as (new & -> & Hkeys & Hnone & Hsome & Hall).
      eexists (_ :: new). rewrite <- app_assoc. split; [reflexivity|].
      cbn [List.length firstn map line_question_key].
      repeat split.
      * now rewrite Hkeys.
      * intros E. now rewrite (Hnone E).
      * intros E. specialize (Hsome E). lia.
      * constructor; [|exact Hall]. cbn [line_confidence].
        exact (pipeline_confidence_range _ _ _ _ _ _ _ Hg).
Qed.

(** X22. The stream yields one line per question, in the order of the
    questions, up to the first question on which the pipeline raises, and
    all of them when none raises; it never looks at [visible_if], so a
    question that a batch would skip is answered here.  Every confidence
    it yields lies between 0.0 and 1.0. *)
Theorem stream_answers_every_question (self : LLMService)
  (patient : Patient) (questions : list Question) (st st' : State World)
  (lines : list StreamLine) (err : option exn) :
  generate_answers_stream self patient questions [] st = (lines, err, st') ->
  map line_question_key lines
  = map q_key (firstn (List.length lines) questions)
  /\ (err = None -> List.length lines = List.length questions)
  /\ (err <> None -> (List.length lines < List.length questions)%nat)
  /\ Forall (fun line => in_unit_interval (line_confidence line)) lines.
Proof.
  intros H. apply stream_loop in H.
  destruct H as (new & -> & H). exact H.
Qed.

(** ** The history endpoint *)

(** X23. The history endpoint reports the size of the whole history and
    the most recent results, oldest first: for a positive [limit] the last
    [limit] of them, or all when there are fewer; for [limit = 0] not none
    but the whole history; for a negative [limit] all but the first
    [-limit]. *)
Theorem history_endpoint_slices (limit : Z) (st : State World) :
  let history := historical_results st in
  let total := fst (get_evaluation_history limit st) in
  let recent := snd (get_evaluation_history limit st) in
  total = len history
  /\ map h_question_key recent
     = map r_question_key
         (skipn (List.length history - List.length recent) history)
  /\ (0 < limit -> len recent = Z.min limit (len history))
  /\ (limit = 0 -> len recent = len history)
  /\ (limit < 0 -> len recent = Z.max (len history + limit) 0).
Proof.
  cbv zeta. unfold get_evaluation_history. cbn [fst snd].
  set (history := historical_results st).
  split; [reflexivity|].
  assert (Hrecent :
            match history with
            | [] => []
            | _ :: _ => slice_from (- limit) history
            end = slice_from (- limit) history).
  { destruct history; [|reflexivity].
    unfold slice_from. now rewrite skipn_nil. }
  rewrite Hrecent. unfold len. rewrite !length_map.
  unfold slice_from. cbv zeta. unfold len.
  set (start := if - limit <? 0
                then Z.max (- limit + Z.of_nat (List.length history)) 0
                else Z.min (- limit) (Z.of_nat (List.length history))).
  assert (Hstart : 0 <= start <= Z.of_nat (List.length history)
                   \/ (start < 0 /\ 0 <= limit)).
  { unfold start. destruct (- limit <? 0) eqn:E;
      [apply Z.ltb_lt in E|apply Z.ltb_ge in E]; lia. }
  rewrite length_skipn.
  split.
  - rewrite map_map. cbn [h_question_key]. do 2 f_equal. lia.
  - unfold start.
    repeat split; intros Hl;
      destruct (- limit <? 0) eqn:E;
      try (apply Z.ltb_lt in E); try (apply Z.ltb_ge in E); lia.
Qed.

(** ** Symmetry of the correctness check *)

Lemma answer_eqb_sym (a b : answer_value) : Answer.eqb a b = Answer.eqb b a.
Proof.
  destruct a as [s|x], b as [t|y]; cbn; try reflexivity.
  - apply String.eqb_sym.
  - destruct x, y; reflexivity.
Qed.

Lemma float_eq_sym (a b : pyfloat) : PyFloat.eq a b = PyFloat.eq b a.
Proof.
  destruct a as [|n|x], b as [|m|y]; cbn; try reflexivity.
  - destruct n, m; reflexivity.
  - destruct (Qeq_bool x y) eqn:E1, (Qeq_bool y x) eqn:E2; try reflexivity.
    + apply Qeq_bool_iff in E1. apply Qeq_sym in E1.
      apply Qeq_bool_iff in E1. congruence.
    + apply Qeq_bool_iff in E2. apply Qeq_sym in E2.
      apply Qeq_bool_iff in E2. congruence.
Qed.

(** X24. Without acceptable variations the check does not depend on which
    of the two values is the expected one: swapping [actual] and
    [expected] gives the same verdict. *)
Theorem check_answer_correctness_symmetric (actual expected : answer_value) :
  _check_answer_correctness actual expected None
  = _check_answer_correctness expected actual None.
Proof.
  unfold _check_answer_correctness.
  rewrite (answer_eqb_sym expected actual).
  destruct (Answer.eqb actual expected); [reflexivity|].
  destruct actual as [a|x], expected as [e|y]; try reflexivity.
  cbv zeta.
  destruct (FloatOfString.float_of_string (strip_units a)) as [fa|],
           (FloatOfString.float_of_string (strip_units e)) as [fe|];
    try reflexivity.
  apply float_eq_sym.
Qed.
End Service.

(** The scripted run: actor, critic, refiner, critic. *)
Lemma demo_run :
  generate_answer_with_confidence nat Demo.backend Demo.clock Demo.repr
    Demo.lax Demo.service Demo.patient Demo.age_question None Demo.start
  = (inr Demo.answer, Demo.finish).
Proof. vm_compute. reflexivity. Qed.

(** * Instances *)

Lemma refinement_iff_low_confidence_witness :
  refinements
    (stages
       (snd (generate_answer_with_confidence nat Demo.backend Demo.clock Demo.repr
    Demo.lax Demo.service Demo.patient Demo.age_question None
               Demo.start)))
  = 1%nat.
Proof.
  pose proof (refinement_iff_low_confidence nat Demo.backend Demo.clock
                Demo.repr Demo.lax Demo.service Demo.patient
                Demo.age_question None Demo.start) as H.
  cbv zeta in H. destruct H as (_ & _ & H).
  assert (H1 : _extract_patient_context nat Demo.clock Demo.patient Demo.start
               = (inr Demo.context, Demo.start))
    by (vm_compute; reflexivity).
  assert (H2 : _generate_base_answer nat Demo.backend Demo.repr Demo.service
                 (with_previous_answers Demo.context None) Demo.age_question
                 STANDARD Demo.start
               = (inr (PStr "33", Demo.first_reasoning), Demo.after_actor))
    by (vm_compute; reflexivity).
  assert (H3 : _critic_evaluate_answer nat Demo.backend Demo.repr Demo.service
                 (with_previous_answers Demo.context None) Demo.age_question
                 (PStr "33") Demo.first_reasoning Demo.after_actor
               = (inr (Demo.first_confidence, Demo.improvements),
                  Demo.after_critic))
    by (vm_compute; reflexivity).
  destruct (H Demo.context Demo.start (PStr "33") Demo.first_reasoning
              Demo.after_actor Demo.first_confidence Demo.improvements
              Demo.after_critic true H1 H2 H3 eq_refl)
    as (Hiff & _).
  apply Hiff. repeat split; reflexivity.
Defined.

Lemma answer_value_has_question_type_witness :
  exists s, a_value Demo.answer = VStr s.
Proof.
  destruct (answer_value_has_question_type nat Demo.backend Demo.clock
              Demo.repr Demo.lax) as (H & _).
  exact (H Demo.service Demo.patient Demo.age_question None Demo.start
           Demo.answer Demo.finish demo_run).
Defined.

Lemma evaluate_condition_grammar_witness :
  _evaluate_condition "{a} = true" [] = false
  /\ _evaluate_condition "{a} = true" [("a", VBool true)] = true
  /\ _evaluate_condition "{a} = true and {b} = false"
       [("a", VStr "TRUE"); ("b", VBool false)] = true
  /\ _evaluate_condition (clause_text "a" " " Demo.nbsp "true")
       [("a", VBool true)] = true
  /\ _evaluate_condition "{a} = É" [("a", VStr "é")] = true.
Proof.
  split; [|split; [|split; [|split]]].
  - destruct (evaluate_condition_grammar []) as (_ & _ & _ & H).
    exact (H "a" " " " " "true" ltac:(discriminate) eq_refl eq_refl eq_refl
             ltac:(discriminate) eq_refl eq_refl eq_refl).
  - destruct (evaluate_condition_grammar [("a", VBool true)])
      as (_ & _ & _ & H).
    exact (H "a" " " " " "true" ltac:(discriminate) eq_refl eq_refl eq_refl
             ltac:(discriminate) eq_refl eq_refl eq_refl).
  - destruct (evaluate_condition_grammar
                [("a", VStr "TRUE"); ("b", VBool false)])
      as (_ & _ & Hand & _).
    rewrite (Hand "{a} = true and {b} = false" eq_refl).
    vm_compute. reflexivity.
  - destruct (evaluate_condition_grammar [("a", VBool true)])
      as (_ & _ & _ & H).
    exact (H "a" " " Demo.nbsp "true" ltac:(discriminate) eq_refl eq_refl
             eq_refl ltac:(discriminate) eq_refl eq_refl eq_refl).
  - destruct (evaluate_condition_grammar [("a", VStr "é")])
      as (_ & _ & _ & H).
    exact (H "a" " " " " "É" ltac:(discriminate) eq_refl eq_refl eq_refl
             ltac:(discriminate) eq_refl eq_refl eq_refl).
Defined.

Lemma skipped_question_leaves_no_trace_witness :
  process_questions_batch nat Demo.backend Demo.clock Demo.repr Demo.lax
    Demo.service Demo.patient [Demo.age_question; Demo.followup_question]
    Demo.start
  = process_questions_batch nat Demo.backend Demo.clock Demo.repr Demo.lax
      Demo.service Demo.patient [Demo.age_question] Demo.start.
Proof.
  destruct (skipped_question_leaves_no_trace nat Demo.backend Demo.clock
              Demo.repr Demo.lax Demo.service Demo.patient
              Demo.followup_question "{adult} = true" eq_refl
              ltac:(discriminate)) as (_ & H).
  apply (H [Demo.age_question] [] Demo.start).
  intros answers answered st' Hrun. vm_compute in Hrun.
  inversion Hrun; subst. vm_compute. reflexivity.
Defined.

Lemma returned_confidence_in_unit_interval_witness :
  exists q, a_confidence Demo.answer = FFin q /\ (0 <= q)%Q /\ (q <= 1)%Q.
Proof.
  exact (returned_confidence_in_unit_interval nat Demo.backend Demo.clock
           Demo.repr Demo.lax Demo.service Demo.patient Demo.age_question
           None Demo.start Demo.finish Demo.answer demo_run).
Defined.

Lemma evaluation_run_contains_failures_witness :
  exists r st',
    evaluate_single_test nat Demo.broken_backend Demo.clock Demo.repr Demo.lax
      Demo.object_id Demo.exn_message Demo.pipeline Demo.test_case Demo.start
    = (inr r, st')
    /\ r_error r = Some "Expecting value"
    /\ r_is_correct r = false
    /\ r_is_acceptable r = false
    /\ r_confidence r = FFin 0.
Proof.
  destruct (evaluation_run_contains_failures nat Demo.broken_backend
              Demo.clock Demo.repr Demo.lax Demo.object_id Demo.exn_message
              Demo.format_percent) as (H & _).
  destruct (H Demo.pipeline Demo.test_case Demo.start)
    as (r & st' & Hr & _ & Hfail).
  exists r, st'. split; [exact Hr|].
  apply (Hfail (mk_datetime 2024 6 14 0) 0%nat
           (BackendError "Expecting value") Demo.after_actor).
  - reflexivity.
  - vm_compute. reflexivity.
Defined.

Lemma check_answer_correctness_spec_witness :
  _check_answer_correctness (VStr "34 years") (VStr "34") None = true
  /\ _check_answer_correctness (VStr "３４") (VStr "34") None = true.
Proof.
  destruct check_answer_correctness_spec as (H & _).
  split; apply H; right; right.
  - exists "34 years", "34", (FFin 34), (FFin 34).
    repeat split; vm_compute; reflexivity.
  - exists "３４", "34", (FFin 34), (FFin 34).
    repeat split; vm_compute; reflexivity.
Defined.

Lemma age_anniversary_adjustment_witness :
  fst (_calculate_age nat Demo.clock "1990-06-15" Demo.start) = inr 33.
Proof.
  destruct (age_anniversary_adjustment nat Demo.clock) as (H & _).
  destruct (H "1990-06-15" 1990 6 15 Demo.start eq_refl) as (Hbefore & _).
  apply Hbefore. right. split; [reflexivity|]. vm_compute. reflexivity.
Defined.

Lemma unparsable_condition_is_visible_witness :
  _evaluate_condition "maybe" [] = true
  /\ _evaluate_condition "{a = true" [] = true
  /\ _evaluate_condition "{a} > 3" [("a", VStr "2")] = true.
Proof.
  split; [|split].
  - exact (proj1 (unparsable_condition_is_visible "maybe" []
                    ltac:(discriminate) eq_refl eq_refl)).
  - exact (proj1 (unparsable_condition_is_visible "{a = true" []
                    ltac:(discriminate) eq_refl eq_refl)).
  - exact (proj1 (unparsable_condition_is_visible "{a} > 3" [("a", VStr "2")]
                    ltac:(discriminate) eq_refl eq_refl)).
Defined.

Lemma confidence_masked_when_flag_disabled_witness :
  fst (generate_answer_with_confidence nat Demo.backend Demo.clock Demo.repr
    Demo.lax Demo.masked_service Demo.patient Demo.age_question None
         Demo.start)
  = inr (with_confidence (FFin 1) Demo.answer).
Proof.
  destruct (confidence_masked_when_flag_disabled nat Demo.backend Demo.clock
              Demo.repr Demo.lax Demo.masked_service Demo.patient
              Demo.age_question None Demo.start eq_refl) as (_ & _ & H & _).
  apply H. change (fst (generate_answer_with_confidence nat Demo.backend Demo.clock Demo.repr
    Demo.lax Demo.service Demo.patient
                          Demo.age_question None Demo.start)
                   = inr Demo.answer).
  now rewrite demo_run.
Defined.

Lemma pipeline_stage_order_witness :
  stages Demo.finish = all_stages.
Proof.
  destruct (pipeline_stage_order nat Demo.backend Demo.clock Demo.repr
              Demo.lax Demo.service Demo.patient Demo.age_question None
              Demo.start) as (_ & H & _).
  rewrite demo_run in H.
  destruct (H Demo.answer eq_refl) as [E|E]; [discriminate E|exact E].
Defined.

Lemma invalid_date_of_birth_raises_witness :
  generate_answer_with_confidence nat Demo.backend Demo.clock Demo.repr
    Demo.lax Demo.service Demo.undated_patient Demo.age_question None
    Demo.start
  = (inl ValueError, Demo.start).
Proof.
  exact (invalid_date_of_birth_raises nat Demo.backend Demo.clock Demo.repr
           Demo.lax Demo.service Demo.undated_patient Demo.age_question None
           Demo.start ValueError eq_refl).
Defined.

Lemma simulated_pipeline_returns_witness :
  exists a,
    generate_answer_with_confidence nat Demo.backend Demo.clock Demo.repr
      Demo.lax Demo.offline_service Demo.patient Demo.age_question None
      Demo.start
    = (inr a, Demo.after_critic_offline)
    /\ a_confidence a = PyFloat.lit_0_9
    /\ a_improvements a = None.
Proof.
  destruct (simulated_pipeline_returns nat Demo.backend Demo.clock Demo.repr
              Demo.lax Demo.offline_service Demo.patient Demo.age_question
              None Demo.start Demo.start Demo.context eq_refl)
    as (a & Hrun & _ & _ & _ & Hc & Hi).
  - vm_compute. reflexivity.
  - exists a. split; [exact Hrun|]. split; [exact Hc|exact Hi].
Defined.

Lemma actor_reply_missing_key_raises_witness :
  generate_answer_with_confidence nat Demo.keyless_backend Demo.clock
    Demo.repr Demo.lax Demo.service Demo.patient Demo.age_question None
    Demo.start
  = (inl (KeyError "answer"), Demo.after_actor).
Proof.
  apply (actor_reply_missing_key_raises nat Demo.keyless_backend Demo.clock
           Demo.repr Demo.lax Demo.service Demo.patient Demo.age_question
           None Demo.start Demo.start Demo.context
           [("reasoning", PStr "No answer given")] 0%nat "answer").
  - reflexivity.
  - vm_compute. reflexivity.
  - reflexivity.
  - left. split; reflexivity.
Defined.

Lemma critic_reply_without_improvements_witness :
  generate_answer_with_confidence nat Demo.terse_backend Demo.clock
    Demo.repr Demo.lax Demo.service Demo.patient Demo.age_question None
    Demo.start
  = (final_answer Demo.lax Demo.service Demo.age_question (PStr "33")
       Demo.first_confidence Demo.first_reasoning (PList []),
     Demo.after_critic_offline).
Proof.
  destruct (critic_reply_without_improvements nat Demo.terse_backend
              Demo.clock Demo.repr Demo.lax Demo.service Demo.patient
              Demo.age_question None Demo.start Demo.start Demo.after_actor
              Demo.context (PStr "33") Demo.first_reasoning
              Demo.first_confidence
              [("confidence_score", PFloat (FFin (1 # 2)))] 0%nat true)
    as (H & _).
  - reflexivity.
  - reflexivity.
  - vm_compute. reflexivity.
  - vm_compute. reflexivity.
  - reflexivity.
  - reflexivity.
  - reflexivity.
  - vm_compute. reflexivity.
  - exact H.
Defined.

Lemma non_numeric_confidence_raises_witness :
  generate_answer_with_confidence nat Demo.vague_backend Demo.clock
    Demo.repr Demo.lax Demo.service Demo.patient Demo.age_question None
    Demo.start
  = (inl TypeError, Demo.after_critic_offline).
Proof.
  destruct (non_numeric_confidence_raises nat Demo.vague_backend Demo.clock
              Demo.repr Demo.lax Demo.service Demo.patient
              Demo.age_question None Demo.start Demo.start Demo.after_actor
              Demo.after_critic_offline Demo.context (PStr "33")
              Demo.first_reasoning (PStr "high") (PList []))
    as (H & _).
  - vm_compute. reflexivity.
  - vm_compute. reflexivity.
  - vm_compute. reflexivity.
  - exact I.
  - exact H.
Defined.

Lemma few_shot_prompt_uses_three_examples_witness :
  _build_few_shot_prompt Demo.service
    (List.app _load_few_shot_examples _load_few_shot_examples)
  = _build_few_shot_prompt Demo.service _load_few_shot_examples.
Proof.
  destruct (few_shot_prompt_uses_three_examples Demo.service
              _load_few_shot_examples) as (_ & _ & H).
  apply H. vm_compute. lia.
Defined.

Lemma batch_answers_follow_question_order_witness :
  subsequence (map a_question [Demo.answer])
    [Demo.age_question; Demo.followup_question]
  /\ (List.length [Demo.answer]
      <= List.length [Demo.age_question; Demo.followup_question])%nat.
Proof.
  apply (batch_answers_follow_question_order nat Demo.backend Demo.clock
           Demo.repr Demo.lax Demo.service Demo.patient
           [Demo.age_question; Demo.followup_question] Demo.start
           Demo.finish [Demo.answer]).
  vm_compute. reflexivity.
Defined.

Lemma batch_failure_aborts_witness :
  process_questions_batch nat Demo.broken_backend Demo.clock Demo.repr
    Demo.lax Demo.service Demo.patient
    [Demo.age_question; Demo.followup_question] Demo.start
  = (inl (BackendError "Expecting value"), Demo.after_actor).
Proof.
  destruct (batch_failure_aborts nat Demo.broken_backend Demo.clock
              Demo.repr Demo.lax Demo.service Demo.patient []
              [Demo.followup_question] [] Demo.age_question Demo.start
              Demo.start Demo.after_actor [] Dict.empty
              (BackendError "Expecting value")) as (H & _).
  - reflexivity.
  - reflexivity.
  - vm_compute. reflexivity.
  - exact H.
Defined.

Lemma batch_map_holds_latest_answers_witness :
  Dict.get [("age", VStr "33 years")] "age"
  = last_answer_for "age" [Demo.answer].
Proof.
  apply (batch_map_holds_latest_answers nat Demo.backend Demo.clock
           Demo.repr Demo.lax Demo.service Demo.patient [Demo.age_question]
           Demo.start Demo.finish [Demo.answer] [("age", VStr "33 years")]).
  vm_compute. reflexivity.
Defined.

Lemma unconditional_batch_answers_all_witness :
  map a_question [Demo.answer] = [Demo.age_question].
Proof.
  apply (unconditional_batch_answers_all nat Demo.backend Demo.clock
           Demo.repr Demo.lax Demo.service Demo.patient [Demo.age_question]
           Demo.start Demo.finish [Demo.answer]).
  - intros question [<-|[]]. left. reflexivity.
  - vm_compute. reflexivity.
Defined.

Lemma gated_question_needs_matching_answer_witness :
  exists v,
    last_answer_for "age" [Demo.answer] = Some v
    /\ PyStr.lower (Answer.str v) = PyStr.lower "33 years".
Proof.
  apply (gated_question_needs_matching_answer nat Demo.backend Demo.clock
           Demo.repr Demo.lax Demo.service Demo.patient [Demo.age_question]
           Demo.gated_question Demo.start Demo.finish [Demo.answer]
           [("age", VStr "33 years")] "age" " " " " "33 years").
  - vm_compute. reflexivity.
  - reflexivity.
  - discriminate.
  - reflexivity.
  - reflexivity.
  - reflexivity.
  - discriminate.
  - reflexivity.
  - reflexivity.
  - reflexivity.
  - reflexivity.
Defined.

Lemma age_negative_iff_born_in_future_witness :
  exists age,
    fst (_calculate_age nat Demo.clock
           (date_of_birth Demo.unborn_patient) Demo.start) = inr age
    /\ age < 0.
Proof.
  destruct (age_negative_iff_born_in_future nat Demo.clock
              (date_of_birth Demo.unborn_patient) 2030 1 1 Demo.start
              eq_refl) as (age & Hage & Hiff).
  exists age. split; [exact Hage|].
  apply Hiff. left. vm_compute. reflexivity.
Defined.

Lemma calculate_age_bounds_witness :
  year (fst (Demo.clock 0%nat)) - 10000 <= 33
  <= year (fst (Demo.clock 0%nat)) - 1.
Proof.
  apply (calculate_age_bounds nat Demo.clock
           (date_of_birth Demo.patient) 33 Demo.start).
  vm_compute. reflexivity.
Defined.

Lemma acceptable_iff_correct_witness :
  exists r st',
    evaluate_single_test nat Demo.backend Demo.clock Demo.repr Demo.lax
      Demo.object_id Demo.exn_message Demo.pipeline Demo.test_case Demo.start
    = (inr r, st')
    /\ r_is_acceptable r = r_is_correct r.
Proof.
  destruct (evaluate_single_test nat Demo.backend Demo.clock Demo.repr
              Demo.lax Demo.object_id Demo.exn_message Demo.pipeline
              Demo.test_case Demo.start) as [[e|r] st'] eqn:Hrun.
  - vm_compute in Hrun. discriminate Hrun.
  - exists r, st'. split; [reflexivity|].
    exact (acceptable_iff_correct nat Demo.backend Demo.clock Demo.repr
             Demo.lax Demo.object_id Demo.exn_message Demo.pipeline
             Demo.test_case Demo.start st' r Hrun).
Defined.

Lemma result_scores_in_unit_interval_witness :
  exists r st',
    evaluate_single_test nat Demo.backend Demo.clock Demo.repr Demo.lax
      Demo.object_id Demo.exn_message Demo.pipeline Demo.test_case Demo.start
    = (inr r, st')
    /\ in_unit_interval (r_confidence r)
    /\ in_unit_interval (r_reasoning_quality r).
Proof.
  destruct (evaluate_single_test nat Demo.backend Demo.clock Demo.repr
              Demo.lax Demo.object_id Demo.exn_message Demo.pipeline
              Demo.test_case Demo.start) as [[e|r] st'] eqn:Hrun.
  - vm_compute in Hrun. discriminate Hrun.
  - exists r, st'. split; [reflexivity|].
    destruct (result_scores_in_unit_interval nat Demo.backend Demo.clock
                Demo.repr Demo.lax Demo.object_id Demo.exn_message
                Demo.pipeline Demo.test_case Demo.start st' r Hrun)
      as (Hc & Hq & _).
    split; [exact Hc|exact Hq].
Defined.

Lemma report_scores_in_unit_interval_witness :
  exists report st',
    run_full_evaluation nat Demo.backend Demo.clock Demo.repr Demo.lax
      Demo.object_id Demo.exn_message Demo.format_percent Demo.pipeline
      Demo.start
    = (inr report, st')
    /\ in_unit_interval (rep_accuracy report)
    /\ in_unit_interval (rep_confidence_calibration_error report).
Proof.
  destruct (run_full_evaluation nat Demo.backend Demo.clock Demo.repr
              Demo.lax Demo.object_id Demo.exn_message Demo.format_percent
              Demo.pipeline Demo.start) as [[e|report] st'] eqn:Hrun.
  - vm_compute in Hrun. discriminate Hrun.
  - exists report, st'. split; [reflexivity|].
    destruct (report_scores_in_unit_interval nat Demo.backend Demo.clock
                Demo.repr Demo.lax Demo.object_id Demo.exn_message
                Demo.format_percent Demo.pipeline Demo.start st' report Hrun)
      as (_ & _ & Ha & _ & Hc).
    split; [exact Ha|exact Hc].
Defined.

Lemma evaluation_run_extends_history_witness :
  exists report st' rs,
    run_full_evaluation nat Demo.backend Demo.clock Demo.repr Demo.lax
      Demo.object_id Demo.exn_message Demo.format_percent Demo.pipeline
      Demo.history_state
    = (inr report, st')
    /\ historical_results st'
       = List.app (historical_results Demo.history_state) rs
    /\ map r_question_key rs = ["age"].
Proof.
  destruct (run_full_evaluation nat Demo.backend Demo.clock Demo.repr
              Demo.lax Demo.object_id Demo.exn_message Demo.format_percent
              Demo.pipeline Demo.history_state)
    as [[e|report] st'] eqn:Hrun.
  - vm_compute in Hrun. discriminate Hrun.
  - destruct (evaluation_run_extends_history nat Demo.backend Demo.clock
                Demo.repr Demo.lax Demo.object_id Demo.exn_message
                Demo.format_percent Demo.pipeline Demo.history_state st'
                report Hrun) as (rs & Hh & Hk & _).
    exists report, st', rs. split; [reflexivity|].
    split; [exact Hh|exact Hk].
Defined.

Lemma failing_run_reports_no_calibration_error_witness :
  exists report st',
    run_full_evaluation nat Demo.broken_backend Demo.clock Demo.repr Demo.lax
      Demo.object_id Demo.exn_message Demo.format_percent Demo.pipeline
      Demo.start
    = (inr report, st')
    /\ rep_accuracy report = PyFloat.lit_0_0
    /\ rep_confidence_calibration_error report = PyFloat.lit_0_0.
Proof.
  destruct (run_full_evaluation nat Demo.broken_backend Demo.clock Demo.repr
              Demo.lax Demo.object_id Demo.exn_message Demo.format_percent
              Demo.pipeline Demo.start) as [[e|report] st'] eqn:Hrun.
  - vm_compute in Hrun. discriminate Hrun.
  - exists report, st'. split; [reflexivity|].
    destruct (failing_run_reports_no_calibration_error nat
                Demo.broken_backend Demo.clock Demo.repr Demo.lax
                Demo.object_id Demo.exn_message Demo.format_percent
                Demo.pipeline Demo.start st' report)
      as (_ & _ & Ha & _ & Hc & _).
    + constructor; [|constructor].
      intros [w s h]. eexists. eexists. vm_compute. reflexivity.
    + exact Hrun.
    + split; [exact Ha|exact Hc].
Defined.

Lemma stream_answers_every_question_witness :
  exists lines st',
    generate_answers_stream nat Demo.backend Demo.clock Demo.repr Demo.lax
      Demo.service Demo.patient [Demo.age_question; Demo.followup_question]
      [] Demo.start
    = (lines, None, st')
    /\ List.length lines = 2%nat
    /\ map line_question_key lines = ["age"; "adult_followup"].
Proof.
  destruct (generate_answers_stream nat Demo.backend Demo.clock Demo.repr
              Demo.lax Demo.service Demo.patient
              [Demo.age_question; Demo.followup_question] [] Demo.start)
    as [[lines err] st'] eqn:Hrun.
  assert (Herr : err = None).
  { vm_compute in Hrun. inversion Hrun. reflexivity. }
  destruct (stream_answers_every_question nat Demo.backend Demo.clock
              Demo.repr Demo.lax Demo.service Demo.patient
              [Demo.age_question; Demo.followup_question] Demo.start st'
              lines err Hrun) as (Hkeys & Hnone & _).
  subst err. specialize (Hnone eq_refl). cbn [List.length] in Hnone.
  exists lines, st'. split; [reflexivity|]. split; [exact Hnone|].
  rewrite Hkeys, Hnone. reflexivity.
Defined.

Lemma history_endpoint_slices_witness :
  len (snd (get_evaluation_history nat 0 Demo.history_state)) = 3
  /\ len (snd (get_evaluation_history nat 2 Demo.history_state)) = 2
  /\ len (snd (get_evaluation_history nat (-1) Demo.history_state)) = 2.
Proof.
  split; [|split].
  - destruct (history_endpoint_slices nat 0 Demo.history_state)
      as (_ & _ & _ & H & _).
    exact (H eq_refl).
  - destruct (history_endpoint_slices nat 2 Demo.history_state)
      as (_ & _ & H & _).
    exact (H eq_refl).
  - destruct (history_endpoint_slices nat (-1) Demo.history_state)
      as (_ & _ & _ & _ & H).
    exact (H eq_refl).
Defined.
